(** * HTTP Observatory header analyzers

    A shallow embedding of [httpobs/scanner/analyzer/headers.py]: the six
    header analyzers ([content_security_policy], [cookies],
    [strict_transport_security], [x_content_type_options],
    [x_frame_options], [x_xss_protection]) together with the Python
    primitives they are written with, and the properties of the analyzers
    stated by the specification.

    Conventions of the embedding.
    - A Python [str] is a [string] of 8-bit code points.  Header values
      reach the analyzers decoded as Latin-1, so this is the range the
      string primitives below have to be right on.
    - A Python [dict] with string keys is a [gmap string pyval].  The
      verdict of an analyzer is the [output] dict of the source, so a
      read of a key that was never written is a failed lookup, as in
      Python.
    - Code that can raise lives in [res]; a [try] block that writes to
      [output] before it raises lives in [M], which keeps the writes.
    - Objects that are written to while shared are kept apart from the
      values: the policy dict that [content_security_policy] stores in
      its verdict and goes on writing to, and the cookies of the
      session, which [cookies] gives an attribute. *)

From Stdlib Require Import ZArith Ascii DecimalString Permutation.
From stdpp Require Import base strings gmap list.

#[local] Set Warnings "-register-all".
#[local] Open Scope Z_scope.

(** ** Python values *)

Inductive pyval :=
| PyNone
| PyBool (b : bool)
| PyInt (z : Z)
| PyStr (s : string)
| PyList (l : list string)
| PyDict (d : gmap string pyval).

Inductive exn := IndexError | KeyError | ValueError | TypeError | AttributeError.

(** The outcome of a computation that may raise. *)
Inductive res (A : Type) :=
| Ok (a : A)
| Raise (e : exn).
Arguments Ok {A} a.
Arguments Raise {A} e.

Definition res_bind {A B} (c : res A) (k : A -> res B) : res B :=
  match c with
  | Ok a => k a
  | Raise e => Raise e
  end.

(** [let* x := c in k] runs [c] and, unless it raises, [k] on its value. *)
Declare Scope res_scope.
Delimit Scope res_scope with res.
Notation "'let*' x ':=' c 'in' k" := (res_bind c (fun x => k))
  (at level 10, x name, c at level 200, k at level 200) : res_scope.
Notation "'let*' ' p ':=' c 'in' k" :=
  (res_bind c (fun x => match x with p => k end))
  (at level 10, p pattern, c at level 200, k at level 200) : res_scope.
#[local] Open Scope res_scope.

(** ** The string methods the analyzers call *)

Module Py.

(** [str.isspace] on one code point below 256. *)
Definition isspace (c : ascii) : bool :=
  let n := Z.of_N (Ascii.N_of_ascii c) in
  ((9 <=? n) && (n <=? 13)) || ((28 <=? n) && (n <=? 32))
  || (n =? 133) || (n =? 160).

(** [str.lower] on one code point below 256: A-Z, and the Latin-1
    capitals 0xC0-0xDE except the multiplication sign 0xD7. *)
Definition lower_char (c : ascii) : ascii :=
  let n := Z.of_N (Ascii.N_of_ascii c) in
  if ((65 <=? n) && (n <=? 90))
     || ((192 <=? n) && (n <=? 222) && negb (n =? 215))
  then Ascii.ascii_of_N (Z.to_N (n + 32))
  else c.

Fixpoint lower (s : string) : string :=
  match s with
  | EmptyString => EmptyString
  | String c s' => String (lower_char c) (lower s')
  end.

Fixpoint lstrip (s : string) : string :=
  match s with
  | EmptyString => EmptyString
  | String c s' => if isspace c then lstrip s' else s
  end.

Fixpoint rstrip (s : string) : string :=
  match s with
  | EmptyString => EmptyString
  | String c s' =>
      match rstrip s' with
      | EmptyString => if isspace c then EmptyString else String c EmptyString
      | r => String c r
      end
  end.

(** [s.strip()] *)
Definition strip (s : string) : string := lstrip (rstrip s).

(** [s.split(sep)] for a one-character separator: never empty. *)
Fixpoint split (sep : ascii) (s : string) : list string :=
  match s with
  | EmptyString => [EmptyString]
  | String c s' =>
      if Ascii.eqb c sep then EmptyString :: split sep s'
      else match split sep s' with
           | w :: ws => String c w :: ws
           | [] => [String c EmptyString]
           end
  end.

Definition cons_word (w : string) (ws : list string) : list string :=
  match w with
  | EmptyString => ws
  | _ => w :: ws
  end.

(** The word being read at the front of [s], and the words after it. *)
Fixpoint words (s : string) : string * list string :=
  match s with
  | EmptyString => (EmptyString, [])
  | String c s' =>
      let '(w, ws) := words s' in
      if isspace c then (EmptyString, cons_word w ws) else (String c w, ws)
  end.

(** [s.split()]: split on runs of whitespace, no empty words. *)
Definition split_ws (s : string) : list string :=
  let '(w, ws) := words s in cons_word w ws.

(** The longest prefix of [s] without whitespace, and what follows it. *)
Fixpoint span_word (s : string) : string * string :=
  match s with
  | EmptyString => (EmptyString, EmptyString)
  | String c s' =>
      if isspace c then (EmptyString, s)
      else let '(w, r) := span_word s' in (String c w, r)
  end.

(** [s.split(maxsplit=1)]: the first word, then the rest of the string
    from its first character that is not whitespace, if there is one. *)
Definition split_maxsplit1 (s : string) : list string :=
  match lstrip s with
  | EmptyString => []
  | s1 =>
      let '(w, r) := span_word s1 in
      match lstrip r with
      | EmptyString => [w]
      | r1 => [w; r1]
      end
  end.

(** [s.startswith(p)] *)
Definition startswith (s p : string) : bool := String.prefix p s.

(** [s[0:n]] *)
Definition slice_to (n : Z) (s : string) : string :=
  String.substring 0 (Z.to_nat n) s.

(** [s[n:]] *)
Fixpoint slice_from (n : nat) (s : string) : string :=
  match n, s with
  | O, _ => s
  | S n', EmptyString => EmptyString
  | S n', String _ s' => slice_from n' s'
  end.

(** [needle in hay] for two strings. *)
Fixpoint contains (needle hay : string) : bool :=
  String.prefix needle hay
  || match hay with
     | EmptyString => false
     | String _ hay' => contains needle hay'
     end.

(** [len(s)] *)
Definition len (s : string) : Z := Z.of_nat (String.length s).

(** [s[i]] for a string: a one-character string, or IndexError. *)
Definition str_index (s : string) (i : nat) : res string :=
  match String.get i s with
  | Some c => Ok (String c EmptyString)
  | None => Raise IndexError
  end.

(** [l[i]] for a list. *)
Definition list_index {A} (l : list A) (i : nat) : res A :=
  match l !! i with
  | Some x => Ok x
  | None => Raise IndexError
  end.

(** *** [int(s)]

    Surrounding whitespace is dropped, then an optional sign, then
    decimal digits, where one underscore may stand between two digits.
    The whitespace [int] skips is the C [isspace] set together with the
    two Latin-1 spaces 0x85 and 0xA0; the separators 0x1C-0x1F are not
    skipped. *)
Definition int_space (c : ascii) : bool :=
  let n := Z.of_N (Ascii.N_of_ascii c) in
  ((9 <=? n) && (n <=? 13)) || (n =? 32) || (n =? 133) || (n =? 160).

Definition is_digit (c : ascii) : bool :=
  let n := Z.of_N (Ascii.N_of_ascii c) in (48 <=? n) && (n <=? 57).

Definition digit_value (c : ascii) : Z := Z.of_N (Ascii.N_of_ascii c) - 48.

Fixpoint int_lstrip (s : string) : string :=
  match s with
  | EmptyString => EmptyString
  | String c s' => if int_space c then int_lstrip s' else s
  end.

Fixpoint int_rstrip (s : string) : string :=
  match s with
  | EmptyString => EmptyString
  | String c s' =>
      match int_rstrip s' with
      | EmptyString => if int_space c then EmptyString else String c EmptyString
      | r => String c r
      end
  end.

(** [after_digit] tells whether the character before [s] was a digit. *)
Fixpoint int_digits (s : string) (acc : Z) (after_digit : bool) : option Z :=
  match s with
  | EmptyString => if after_digit then Some acc else None
  | String c s' =>
      if is_digit c then int_digits s' (10 * acc + digit_value c) true
      else if Ascii.eqb c "_" && after_digit then int_digits s' acc false
      else None
  end.

Definition int (s : string) : res Z :=
  let body := int_lstrip (int_rstrip s) in
  let '(sign, ds) :=
    match body with
    | String "-" ds => (-1, ds)
    | String "+" ds => (1, ds)
    | _ => (1, body)
    end in
  match int_digits ds 0 false with
  | Some n => Ok (sign * n)
  | None => Raise ValueError
  end.

End Py.

(** ** Dicts, truthiness, membership, [str] *)

(** [d[k]] *)
Definition getitem (d : gmap string pyval) (k : string) : res pyval :=
  match d !! k with
  | Some v => Ok v
  | None => Raise KeyError
  end.

(** [d.get(k, dflt)]; [d.get(k)] is [get_or d k PyNone]. *)
Definition get_or (d : gmap string pyval) (k : string) (dflt : pyval) : pyval :=
  default dflt (d !! k).

(** [k in d] for a dict. *)
Definition key_in (k : string) (d : gmap string pyval) : bool :=
  match d !! k with
  | Some _ => true
  | None => false
  end.

(** [bool(v)] *)
Definition truthy (v : pyval) : bool :=
  match v with
  | PyNone => false
  | PyBool b => b
  | PyInt z => negb (z =? 0)
  | PyStr s => negb (String.eqb s EmptyString)
  | PyList l => match l with [] => false | _ => true end
  | PyDict d => negb (bool_decide (d = ∅))
  end.

(** [v == s] for a string [s]. *)
Definition eq_str (v : pyval) (s : string) : bool :=
  match v with
  | PyStr s' => String.eqb s' s
  | _ => false
  end.

(** [v in (s1, ..., sn)] for a tuple of strings. *)
Definition in_tuple (v : pyval) (t : list string) : bool :=
  existsb (eq_str v) t.

(** [x in c] for a string [x]: substring of a string, element of a list,
    key of a dict; TypeError on anything else. *)
Definition py_in (x : string) (c : pyval) : res bool :=
  match c with
  | PyStr s => Ok (Py.contains x s)
  | PyList l => Ok (existsb (String.eqb x) l)
  | PyDict d => Ok (key_in x d)
  | _ => Raise TypeError
  end.

(** The length of [repr(s)] for a string: the quotes, and per character
    1, 2 (backslash, the quote in use, tab, newline, carriage return) or 4
    (the other code points that are not printable, as a hex escape). *)
Definition repr_quote (s : string) : ascii :=
  if Py.contains "'" s && negb (Py.contains (String "034" EmptyString) s)
  then "034"%char else "'"%char.

Definition repr_char_len (quote c : ascii) : Z :=
  let n := Z.of_N (N_of_ascii c) in
  if Ascii.eqb c quote || Ascii.eqb c "\" then 2
  else if (n =? 9) || (n =? 10) || (n =? 13) then 2
  else if (n <? 32) || (n =? 127) || ((128 <=? n) && (n <=? 160)) || (n =? 173)
       then 4
  else 1.

Fixpoint repr_chars_len (quote : ascii) (s : string) : Z :=
  match s with
  | EmptyString => 0
  | String c s' => repr_char_len quote c + repr_chars_len quote s'
  end.

Definition repr_str_len (s : string) : Z :=
  2 + repr_chars_len (repr_quote s) s.

(** The length of the items of a list or dict display, joined by ", ". *)
Definition joined_len (items : list Z) : Z :=
  match items with
  | [] => 0
  | x :: xs => x + foldr (fun y acc => 2 + y + acc) 0 xs
  end.

(** [len(repr(v))].  The items of a dict are counted in the order of the
    map, not of insertion: the length does not depend on it. *)
Fixpoint repr_len (v : pyval) : Z :=
  match v with
  | PyNone => 4
  | PyBool true => 4
  | PyBool false => 5
  | PyInt z => Py.len (NilZero.string_of_int (Z.to_int z))
  | PyStr s => repr_str_len s
  | PyList l => 2 + joined_len (repr_str_len <$> l)
  | PyDict d =>
      2 + joined_len
            (map_fold (fun k v acc => (repr_str_len k + 2 + repr_len v) :: acc)
                      [] d)
  end.

(** [len(str(v))]: a string is its own [str], the rest is displayed. *)
Definition len_str (v : pyval) : Z :=
  match v with
  | PyStr s => Py.len s
  | _ => repr_len v
  end.

(** The dict display [{k: v for x in l}]: later items overwrite earlier
    ones, and the first item that raises ends the display. *)
Fixpoint dict_comprehension {A} (item : A -> res (string * pyval))
    (l : list A) (acc : gmap string pyval) : res (gmap string pyval) :=
  match l with
  | [] => Ok acc
  | x :: l' =>
      let* kv := item x in
      dict_comprehension item l' (<[kv.1 := kv.2]> acc)
  end.

(** ** A shared dict object

    [content_security_policy] binds [output['data']] to the dict object
    it goes on writing to under the name [csp].  A slot of its [output]
    is therefore a value or that object, and what a slot holds is read
    against the state the object is in at the time of the read. *)
Inductive slot :=
| Val (v : pyval)
| CspObject.

Definition read (csp : gmap string pyval) (s : slot) : pyval :=
  match s with
  | Val v => v
  | CspObject => PyDict csp
  end.

(** [output] as its readers find it while the object is [csp]. *)
Definition view (csp : gmap string pyval) (output : gmap string slot)
    : gmap string pyval :=
  read csp <$> output.

(** ** Writes that survive a raise

    A computation over the [output] dict of an analyzer.  The dict that
    comes back holds every write made before a raise, which is what the
    handler of a [try] block and the code after it see. *)
Definition M (A : Type) : Type :=
  gmap string pyval -> gmap string pyval * res A.

Definition M_ret {A} (a : A) : M A := fun output => (output, Ok a).

Definition M_bind {A B} (c : M A) (k : A -> M B) : M B :=
  fun output =>
    match c output with
    | (output', Ok a) => k a output'
    | (output', Raise e) => (output', Raise e)
    end.

Declare Scope M_scope.
Delimit Scope M_scope with M.
Bind Scope M_scope with M.
Notation "'let*' x ':=' c 'in' k" := (M_bind c (fun x => k))
  (at level 10, x name, c at level 200, k at level 200) : M_scope.
Notation "c ';;' k" := (M_bind c (fun _ => k))
  (at level 100, k at level 200, right associativity) : M_scope.

(** [output[k] = v] *)
Definition setitem (k : string) (v : pyval) : M unit :=
  fun output => (<[k := v]> output, Ok tt).

(** [output[k]] *)
Definition readitem (k : string) : M pyval :=
  fun output => (output, getitem output k).

Definition lift {A} (c : res A) : M A := fun output => (output, c).

(** [for x in l: body] *)
Fixpoint for_each {A} (body : A -> M unit) (l : list A) : M unit :=
  match l with
  | [] => M_ret tt
  | x :: l' => (body x;; for_each body l')%M
  end.

(** [try: body / except: handler] with a bare [except]. *)
Definition try_except (body handler : M unit) : M unit :=
  fun output =>
    match body output with
    | (output', Ok tt) => (output', Ok tt)
    | (output', Raise _) => handler output'
    end.

(** ** The request bundle *)

(** A response: its final URL, and its headers.  The headers are a
    case-insensitive dict, which stores each value under the lower-cased
    header name and lower-cases the name at every lookup. *)
Record Response := {
  url : string;
  headers : gmap string string;
}.

(** [name in response.headers] and [response.headers[name]] in one: the
    value when the header is there. *)
Definition headers_get (response : Response) (name : string) : option string :=
  headers response !! Py.lower name.

(** A cookie of the session.  [httponly] is [None] while the object has
    no such attribute; [_rest] is its dict of non-standard attributes,
    of which only the keys are read. *)
Record Cookie := {
  name : string;
  domain : pyval;
  expires : pyval;
  path : pyval;
  port : pyval;
  secure : bool;
  httponly : option bool;
  _rest : option (list string);
}.

(** [cookie.httponly = b] *)
Definition set_httponly (cookie : Cookie) (b : bool) : Cookie :=
  {| name := name cookie; domain := domain cookie; expires := expires cookie;
     path := path cookie; port := port cookie; secure := secure cookie;
     httponly := Some b; _rest := _rest cookie |}.

(** [reqs]: [reqs['responses']['auto']], [reqs['responses']['https']]
    (which may be None) and [reqs['session'].cookies]. *)
Record Reqs := {
  responses_auto : Response;
  responses_https : option Response;
  session_cookies : list Cookie;
}.

(** [reqs] with the cookies of its session replaced. *)
Definition with_cookies (reqs : Reqs) (cs : list Cookie) : Reqs :=
  {| responses_auto := responses_auto reqs;
     responses_https := responses_https reqs;
     session_cookies := cs |}.

(** What the analyzers read of [urlparse(url)]. *)
Record ParseResult := {
  scheme : string;
  netloc : string;
}.

(** [urlparse(response.url)] returns: it raises ValueError on some
    strings, and lines 65 and 262 call it outside every [try]. *)
Definition url_parses (urlparse : string -> res ParseResult)
    (response : Response) : Prop :=
  exists parsed, urlparse (url response) = Ok parsed.

(** [urlparse] reads the URL of the response over https, when there is
    one. *)
Definition https_url_parses (urlparse : string -> res ParseResult)
    (reqs : Reqs) : Prop :=
  forall response, responses_https reqs = Some response ->
    url_parses urlparse response.

(** The input contract on URLs: [urlparse] reads the URL of each
    response of the bundle. *)
Definition url_contract (urlparse : string -> res ParseResult)
    (reqs : Reqs) : Prop :=
  url_parses urlparse (responses_auto reqs) /\ https_url_parses urlparse reqs.

(** ** [httpobs.scanner.analyzer.utils] *)

(** [order.index(x)], when [x] is in [order]. *)
Fixpoint index_of (x : string) (order : list string) : option nat :=
  match order with
  | [] => None
  | y :: order' =>
      if String.eqb x y then Some O else S <$> index_of x order'
  end.

(** The place of a result in the order, counted from 1; 0 for what is
    not listed, the implicit best. *)
Definition severity (order : list string) (x : string) : nat :=
  match index_of x order with
  | Some i => S i
  | None => O
  end.

Definition severity_of (order : list string) (v : pyval) : nat :=
  match v with
  | PyStr s => severity order s
  | _ => O
  end.

(** Modelled from the spec: [only_if_worse] of [httpobs/scanner/analyzer/utils.py]
    is not among the sources.  The spec has it keep the accumulator
    unless the candidate is strictly worse in the fixed order, ties
    keeping the accumulator; the accumulator starts empty (None), below
    every listed result. *)
Definition only_if_worse (new_result : string) (old_result : pyval)
    (order : list string) : pyval :=
  if (severity_of order old_result <? severity order new_result)%nat
  then PyStr new_result
  else old_result.

(** The order of how bad the various results are (a local of [cookies]). *)
Definition goodness : list string :=
  [ "cookies-without-secure-flag-but-protected-by-hsts";
    "cookies-without-secure-flag";
    "cookies-session-without-secure-flag-but-protected-by-hsts";
    "cookies-session-without-secure-flag";
    "cookies-session-without-httponly-flag" ].

(** [only_if_worse] over a sequence of results, from an empty accumulator. *)
Definition merge_all (order : list string) (results : list string) : pyval :=
  foldl (fun acc r => only_if_worse r acc order) PyNone results.

(** ** [urllib.parse.urlparse] on plain absolute URLs

    The scheme is what stands before the first colon, lower-cased, when
    it starts with a letter and is made of letters, digits, [+], [-] and
    [.]; the network location is what follows [//] up to the first of
    [/], [?] and [#].  As [urllib.parse.urlsplit] does, it raises
    ValueError when the network location has one of the two square
    brackets without the other.  The analyzers are defined over any
    [urlparse];
    this one evaluates them on examples. *)

Definition is_alpha (c : ascii) : bool :=
  let n := Z.of_N (N_of_ascii c) in
  ((65 <=? n) && (n <=? 90)) || ((97 <=? n) && (n <=? 122)).

Definition scheme_char (c : ascii) : bool :=
  is_alpha c || Py.is_digit c
  || Ascii.eqb c "+" || Ascii.eqb c "-" || Ascii.eqb c ".".

(** [s] up to its first character satisfying [stop], and [s] from there. *)
Fixpoint break_at (stop : ascii -> bool) (s : string) : string * string :=
  match s with
  | EmptyString => (EmptyString, EmptyString)
  | String c s' =>
      if stop c then (EmptyString, s)
      else let '(a, b) := break_at stop s' in (String c a, b)
  end.

Fixpoint forallb_str (p : ascii -> bool) (s : string) : bool :=
  match s with
  | EmptyString => true
  | String c s' => p c && forallb_str p s'
  end.

Definition urlparse_basic (u : string) : res ParseResult :=
  let '(sch, rest) :=
    match break_at (Ascii.eqb ":") u with
    | (String c pre, String _ post) =>
        if is_alpha c && forallb_str scheme_char pre
        then (Py.lower (String c pre), post)
        else (EmptyString, u)
    | _ => (EmptyString, u)
    end in
  let net :=
    if Py.startswith rest "//"
    then (break_at (fun c => Ascii.eqb c "/" || Ascii.eqb c "?" || Ascii.eqb c "#")
                   (Py.slice_from 2 rest)).1
    else EmptyString in
  if xorb (Py.contains "[" net) (Py.contains "]" net)
  then Raise ValueError
  else Ok {| scheme := sch; netloc := net |}.

(** ** The analyzers *)

(** The default expectations of the analyzers, used where one analyzer
    calls another with [reqs] alone. *)
Definition csp_default : string := "csp-implemented-with-no-unsafe".
Definition cookies_default : string := "cookies-secure-with-httponly-sessions".
Definition hsts_default : string := "hsts-implemented-max-age-at-least-six-months".
Definition xcto_default : string := "x-content-type-options-nosniff".
Definition xfo_default : string := "x-frame-options-sameorigin-or-deny".
Definition xxssp_default : string := "x-xss-protection-1-mode-block".

(** The [output] dict four of the analyzers start from. *)
Definition new_output (expectation : string) : gmap string pyval :=
  <["data" := PyNone]> (<["expectation" := PyStr expectation]>
  (<["pass" := PyBool false]> (<["result" := PyNone]> ∅))).

(** [if output['result'] in (..., expectation): output['pass'] = True] *)
Definition pass_if_in (accepted : list string) (output : gmap string pyval)
    : res (gmap string pyval) :=
  let* result := getitem output "result" in
  if in_tuple result accepted
  then Ok (<["pass" := PyBool true]> output)
  else Ok output.

(** [data if len(str(data)) < 32768 else {}] *)
Definition capped (data : pyval) : pyval :=
  if len_str data <? 32768 then data else PyDict ∅.

(** A computation of [M] run on [output]: the dict it leaves, or its
    raise. *)
Definition run (c : M unit) (output : gmap string pyval)
    : res (gmap string pyval) :=
  match c output with
  | (output', Ok _) => Ok output'
  | (_, Raise e) => Raise e
  end.

Section Analyzers.

(** [is_hsts_preloaded] of [httpobs/scanner/analyzer/utils.py]: the
    preload list is kept outside the analyzers. *)
Variable is_hsts_preloaded : string -> bool.

(** [urllib.parse.urlparse]: the parts of a URL, or ValueError. *)
Variable urlparse : string -> res ParseResult.

(** *** Content-Security-Policy *)

(** Line 47: the directives of the header, each split at most once. *)
Definition csp_directives (header : string) : list (list string) :=
  (fun directive => Py.split_maxsplit1 (Py.strip directive))
    <$> filter (fun directive => directive ≠ EmptyString) (Py.split ";" header).

(** Lines 48-49: the key and the value one directive contributes. *)
Definition csp_item (directive : list string) : res (string * pyval) :=
  let* key := Py.list_index directive 0 in
  let* value :=
    if (1 <? length directive)%nat
    then let* d1 := Py.list_index directive 1 in Ok (PyList (Py.split_ws d1))
    else Ok (PyList []) in
  Ok (Py.lower key, value).

(** Lines 47-49, the body of the [try]. *)
Definition csp_parse (header : string) : res (gmap string pyval) :=
  dict_comprehension csp_item (csp_directives header) ∅.

(** Lines 56-58: default-src is written in any case, then script-src
    and style-src take over its value where the header has none. *)
Definition csp_replicate (csp : gmap string pyval) : gmap string pyval :=
  let csp := <["default-src" := get_or csp "default-src" (PyStr "")]> csp in
  foldl (fun csp directive =>
           <[directive := if key_in directive csp
                          then get_or csp directive PyNone
                          else get_or csp "default-src" PyNone]> csp)
        csp ["script-src"; "style-src"].

(** Lines 61-72: the tests, in order, on the object [csp] as lines 56-58
    left it.  The third test calls [urlparse], outside the [try] of
    lines 46-53: what it raises goes to the caller. *)
Definition csp_tests (response : Response) (csp : gmap string pyval)
    (output : gmap string slot) : res string :=
  let* t1 := py_in "'unsafe-inline'" (get_or csp "script-src" PyNone) in
  if t1 then Ok "csp-implemented-with-unsafe-inline"
  else if negb (truthy (get_or csp "default-src" PyNone))
          && negb (truthy (get_or csp "script-src" PyNone))
  then Ok "csp-implemented-with-unsafe-inline"
  else
    let* t3 :=
      let* parsed := urlparse (url response) in
      if String.eqb (scheme parsed) "https"
      then let* data := getitem (view csp output) "data" in py_in "http:" data
      else Ok false in
    if t3 then Ok "csp-implemented-with-insecure-scheme"
    else
      let* data := getitem (view csp output) "data" in
      let* t4 := py_in "'unsafe-eval'" data in
      if t4 then Ok "csp-implemented-with-unsafe-eval"
      else
        let* t5 := py_in "'unsafe-inline'" (get_or csp "style-src" PyNone) in
        if t5 then Ok "csp-implemented-with-unsafe-inline-in-style-src-only"
        else Ok "csp-implemented-with-no-unsafe".

(** Line 50 stores in [output['data']] the dict object [csp] itself, not
    a copy, and lines 56-58 then write to that object.  Line 77 binds
    [output['data']] to what it holds then, or to a new empty dict, and
    nothing is written to the object after it: the verdict is [output]
    as its reader finds it at the return. *)
Definition content_security_policy (reqs : Reqs) (expectation : string)
    : res (gmap string pyval) :=
  let output := new_output expectation in
  let response := responses_auto reqs in
  match headers_get response "Content-Security-Policy" with
  | Some header =>
      match csp_parse header with
      | Raise _ => Ok (<["result" := PyStr "csp-header-invalid"]> output)
      | Ok csp =>
          let output := <["data" := CspObject]> (Val <$> output) in
          let csp := csp_replicate csp in
          let* result := csp_tests response csp output in
          let output := <["result" := Val (PyStr result)]> output in
          let* data := getitem (view csp output) "data" in
          let output := <["data" := Val (capped data)]> output in
          pass_if_in [expectation] (view csp output)
      end
  | None =>
      pass_if_in [expectation]
                 (<["result" := PyStr "csp-not-implemented"]> output)
  end.

(** *** Strict-Transport-Security *)

(** 15768000 is six months, but a lot of sites use 15552000. *)
Definition SIX_MONTHS : Z := 15552000.

(** [v < n] for an int [n]. *)
Definition lt_int (v : pyval) (n : Z) : res bool :=
  match v with
  | PyInt z => Ok (z <? n)
  | PyBool b => Ok (Z.b2z b <? n)
  | _ => Raise TypeError
  end.

(** Lines 236-241, the body of the loop. *)
Definition sts_parameter (parameter : string) : M unit :=
  (if Py.startswith parameter "max-age="
   then let* n := lift (Py.int (Py.slice_from 8 parameter)) in
        setitem "max-age" (PyInt n)
   else if String.eqb parameter "includesubdomains"
   then setitem "includeSubDomains" (PyBool true)
   else if String.eqb parameter "preload"
   then setitem "preload" (PyBool true)
   else M_ret tt)%M.

(** Line 233: the parameters of the header, lower-cased and stripped. *)
Definition sts_tokens (data : string) : list string :=
  (fun i => Py.strip (Py.lower i)) <$> Py.split ";" data.

(** Lines 233-255, the body of the [try]; [data] is [output['data']]. *)
Definition sts_try (data : string) : M unit :=
  (let sts := sts_tokens data in
   for_each sts_parameter sts;;
   let* max_age := readitem "max-age" in
   (if truthy max_age
    then let* less := lift (lt_int max_age SIX_MONTHS) in
         if less
         then setitem "result" (PyStr "hsts-implemented-max-age-less-than-six-months")
         else setitem "result" (PyStr "hsts-implemented-max-age-at-least-six-months")
    else setitem "result" (PyStr "hsts-header-invalid"));;
   let* subdomains := readitem "includeubdomains" in
   (if negb (truthy subdomains)
    then setitem "includeSubDomains" (PyBool false)
    else M_ret tt);;
   let* preload := readitem "preload" in
   if negb (truthy preload)
   then setitem "preload" (PyBool false)
   else M_ret tt)%M.

(** The [output] dict [strict_transport_security] starts from. *)
Definition hsts_output (expectation : string) : gmap string pyval :=
  <["data" := PyNone]> (<["expectation" := PyStr expectation]>
  (<["includeSubDomains" := PyNone]> (<["max-age" := PyNone]>
  (<["pass" := PyBool false]> (<["preload" := PyNone]>
  (<["preloaded" := PyBool false]>
  (<["result" := PyStr "hsts-not-implemented"]> ∅))))))).

(** Line 262 calls [urlparse] on every response over https, after the
    [try] of lines 232-258: what it raises goes to the caller. *)
Definition strict_transport_security (reqs : Reqs) (expectation : string)
    : res (gmap string pyval) :=
  let output := hsts_output expectation in
  let response := responses_https reqs in
  let* output :=
    match response with
    | None => Ok (<["result" := PyStr "hsts-not-implemented-no-https"]> output)
    | Some response =>
        match headers_get response "Strict-Transport-Security" with
        | Some header =>
            let data := Py.slice_to 1024 header in
            run (try_except (sts_try data)
                   (setitem "result" (PyStr "hsts-header-invalid")))
                (<["data" := PyStr data]> output)
        | None => Ok output
        end
    end in
  let* output :=
    match response with
    | Some response =>
        let* parsed := urlparse (url response) in
        if is_hsts_preloaded (netloc parsed)
        then Ok (<["preloaded" := PyBool true]>
                   (<["result" := PyStr "hsts-preloaded"]> output))
        else Ok output
    | None => Ok output
    end in
  pass_if_in ["hsts-implemented-max-age-at-least-six-months";
              "hsts-preloaded"; expectation] output.

(** *** X-Content-Type-Options *)

Definition x_content_type_options (reqs : Reqs) (expectation : string)
    : res (gmap string pyval) :=
  let output := new_output expectation in
  let response := responses_auto reqs in
  let output :=
    match headers_get response "X-Content-Type-Options" with
    | Some header =>
        let data := Py.slice_to 256 header in
        let output := <["data" := PyStr data]> output in
        if String.eqb (Py.lower data) "nosniff"
        then <["result" := PyStr "x-content-type-options-nosniff"]> output
        else <["result" := PyStr "x-content-type-options-header-invalid"]> output
    | None =>
        <["result" := PyStr "x-content-type-options-not-implemented"]> output
    end in
  pass_if_in [expectation] output.

(** *** X-Frame-Options *)

Definition x_frame_options (reqs : Reqs) (expectation : string)
    : res (gmap string pyval) :=
  let output := new_output expectation in
  let response := responses_auto reqs in
  let output :=
    match headers_get response "X-Frame-Options" with
    | Some header =>
        let data := Py.slice_to 1024 header in
        let output := <["data" := PyStr data]> output in
        if in_tuple (PyStr (Py.lower data)) ["deny"; "sameorigin"]
        then <["result" := PyStr "x-frame-options-sameorigin-or-deny"]> output
        else if Py.contains "allow-from " (Py.lower data)
        then <["result" := PyStr "x-frame-options-allow-from-origin"]> output
        else <["result" := PyStr "x-frame-options-header-invalid"]> output
    | None => <["result" := PyStr "x-frame-options-not-implemented"]> output
    end in
  let* csp := content_security_policy reqs csp_default in
  let* csp_data := getitem csp "data" in
  let* via_csp :=
    if truthy csp_data then py_in "frame-ancestors" csp_data else Ok false in
  let output :=
    if via_csp
    then <["result" := PyStr "x-frame-options-implemented-via-csp"]> output
    else output in
  pass_if_in ["x-frame-options-sameorigin-or-deny";
              "x-frame-options-implemented-via-csp"; expectation] output.

(** *** X-XSS-Protection *)

(** Line 406: the key and the value one [;]-separated part contributes. *)
Definition xxssp_item (d : string) : res (string * pyval) :=
  let* key := Py.list_index (Py.split "=" d) 0 in
  let* value :=
    if Py.contains "=" d
    then let* v := Py.list_index (Py.split "=" d) 1 in Ok (PyStr (Py.strip v))
    else Ok PyNone in
  Ok (Py.strip key, value).

(** Lines 400-406, the body of the [try]: [enabled] and the parsed dict. *)
Definition xxssp_parse (xxssp : string) : res (bool * gmap string pyval) :=
  let* first := Py.str_index xxssp 0 in
  if negb (in_tuple (PyStr first) ["0"; "1"]) then Raise ValueError
  else
    let enabled := if String.eqb first "1" then true else false in
    let* xxssp := dict_comprehension xxssp_item (Py.split ";" xxssp) ∅ in
    Ok (enabled, xxssp).

(** Lines 421-431: the pass, and the way out through a passing CSP. *)
Definition xxssp_finish (reqs : Reqs) (output : gmap string pyval)
    : res (gmap string pyval) :=
  let* result := getitem output "result" in
  let* enabled := py_in "enabled" result in
  let output := if enabled then <["pass" := PyBool true]> output else output in
  let* pass := getitem output "pass" in
  match pass with
  | PyBool false =>
      let* csp := content_security_policy reqs csp_default in
      let* csp_pass := getitem csp "pass" in
      if truthy csp_pass
      then Ok (<["result" := PyStr "x-xss-protection-not-needed-due-to-csp"]>
                 (<["pass" := PyBool true]> output))
      else Ok output
  | _ => Ok output
  end.

Definition x_xss_protection (reqs : Reqs) (expectation : string)
    : res (gmap string pyval) :=
  let output := new_output expectation in
  let response := responses_auto reqs in
  let xxssp := headers_get response "X-XSS-Protection" in
  match xxssp with
  | Some (String _ _ as xxssp) =>
      let output := <["data" := PyStr (Py.slice_to 256 xxssp)]> output in
      match xxssp_parse xxssp with
      | Raise _ =>
          Ok (<["result" := PyStr "x-xss-protection-header-invalid"]> output)
      | Ok (enabled, xxssp) =>
          let output :=
            if enabled && eq_str (get_or xxssp "mode" PyNone) "block"
            then <["result" := PyStr "x-xss-protection-enabled-mode-block"]> output
            else if enabled
            then <["result" := PyStr "x-xss-protection-enabled"]> output
            else if negb enabled
            then <["result" := PyStr "x-xss-protection-disabled"]> output
            else output in
          xxssp_finish reqs output
      end
  | _ =>
      xxssp_finish reqs
        (<["result" := PyStr "x-xss-protection-not-implemented"]> output)
  end.

(** *** Cookies *)

(** Lines 135-139: the object gets its [httponly] attribute when it has
    none, read off the keys of [_rest]. *)
Definition derive_httponly (cookie : Cookie) : res Cookie :=
  match httponly cookie with
  | Some _ => Ok cookie
  | None =>
      match _rest cookie with
      | Some rest =>
          Ok (set_httponly cookie
                (existsb (String.eqb "httponly") (Py.lower <$> rest)))
      | None => Raise AttributeError
      end
  end.

(** [cookie.httponly] *)
Definition get_httponly (cookie : Cookie) : res bool :=
  match httponly cookie with
  | Some b => Ok b
  | None => Raise AttributeError
  end.

(** Lines 142-143: [{i: getattr(cookie, i, None) for i in [...]}]; a
    cookie has no attribute called [max-age]. *)
Definition jar_entry (cookie : Cookie) : pyval :=
  PyDict
    (<["domain" := domain cookie]> (<["expires" := expires cookie]>
    (<["httponly" := from_option PyBool PyNone (httponly cookie)]>
    (<["max-age" := PyNone]> (<["path" := path cookie]>
    (<["port" := port cookie]> (<["secure" := PyBool (secure cookie)]> ∅))))))).

(** [output['result'] = only_if_worse(code, output['result'], goodness)] *)
Definition worsen (code : string) (output : gmap string pyval)
    : res (gmap string pyval) :=
  let* result := getitem output "result" in
  Ok (<["result" := only_if_worse code result goodness]> output).

(** Lines 146-174: the three checks on one cookie. *)
Definition cookie_checks (hsts : bool) (cookie : Cookie)
    (output : gmap string pyval) : res (gmap string pyval) :=
  let sessionid :=
    existsb (fun i => Py.contains i (Py.lower (name cookie))) ["login"; "sess"] in
  let* output :=
    if negb (secure cookie) && hsts
    then worsen "cookies-without-secure-flag-but-protected-by-hsts" output
    else if negb (secure cookie)
    then worsen "cookies-without-secure-flag" output
    else Ok output in
  let* output :=
    if sessionid && negb (secure cookie) && hsts
    then worsen "cookies-session-without-secure-flag-but-protected-by-hsts" output
    else if sessionid && negb (secure cookie)
    then worsen "cookies-session-without-secure-flag" output
    else Ok output in
  if sessionid
  then let* flag := get_httponly cookie in
       if negb flag
       then worsen "cookies-session-without-httponly-flag" output
       else Ok output
  else Ok output.

(** Lines 133-174, the loop.  It leaves the cookies it went through
    with their [httponly] attribute set, also when it stops on a raise,
    next to the [output] and the [jar] it built. *)
Fixpoint cookies_loop (hsts : bool) (cs : list Cookie)
    (output jar : gmap string pyval)
    : list Cookie * res (gmap string pyval * gmap string pyval) :=
  match cs with
  | [] => ([], Ok (output, jar))
  | cookie :: cs' =>
      match derive_httponly cookie with
      | Raise e => (cookie :: cs', Raise e)
      | Ok cookie =>
          let jar := <[name cookie := jar_entry cookie]> jar in
          match cookie_checks hsts cookie output with
          | Raise e => (cookie :: cs', Raise e)
          | Ok output =>
              let '(cs'', r) := cookies_loop hsts cs' output jar in
              (cookie :: cs'', r)
          end
      end
  end.

(** The analyzer writes to the cookie objects of [reqs]: next to its
    outcome it gives [reqs] as the call leaves it. *)
Definition cookies (reqs : Reqs) (expectation : string)
    : Reqs * res (gmap string pyval) :=
  let output := new_output expectation in
  match (let* sts := strict_transport_security reqs hsts_default in
         getitem sts "pass") with
  | Raise e => (reqs, Raise e)
  | Ok hsts =>
      match session_cookies reqs with
      | [] =>
          (reqs,
           pass_if_in ["cookies-not-found"; expectation]
                      (<["result" := PyStr "cookies-not-found"]> output))
      | cs =>
          let '(cs', r) := cookies_loop (truthy hsts) cs output ∅ in
          (with_cookies reqs cs',
           let* '(output, jar) := r in
           let output := <["data" := capped (PyDict jar)]> output in
           let* result := getitem output "result" in
           let output :=
             if negb (truthy result)
             then <["result" := PyStr "cookies-secure-with-httponly-sessions"]> output
             else output in
           pass_if_in ["cookies-not-found"; expectation] output)
      end
  end.

End Analyzers.

(** ** Example bundles *)

(** A response with the given headers, named in lower case as the
    case-insensitive dict stores them. *)
Definition response (u : string) (hs : list (string * string)) : Response :=
  {| url := u; headers := list_to_map hs |}.

(** No host is on the preload list. *)
Definition nothing_preloaded : string -> bool := fun _ => false.

(** What [urlparse] reads of the URLs of the example bundles. *)
Definition https_example : ParseResult :=
  {| scheme := "https"; netloc := "example.com" |}.

Definition http_example : ParseResult :=
  {| scheme := "http"; netloc := "example.com" |}.

(** A site reached over https that sends one Strict-Transport-Security
    header and no cookies. *)
Definition hsts_site (header : string) : Reqs :=
  let r := response "https://example.com/"
                    [("strict-transport-security", header)] in
  {| responses_auto := r; responses_https := Some r; session_cookies := [] |}.

(** A site that sends one Content-Security-Policy header. *)
Definition csp_site (u header : string) : Reqs :=
  {| responses_auto := response u [("content-security-policy", header)];
     responses_https := None;
     session_cookies := [] |}.

(** A site with a strict policy and an X-XSS-Protection header. *)
Definition xxssp_site (header : string) : Reqs :=
  {| responses_auto :=
       response "https://example.com/"
                [("content-security-policy", "default-src 'none'");
                 ("x-xss-protection", header)];
     responses_https := None;
     session_cookies := [] |}.

(** A cookie as the cookie jar of the session holds it: no [httponly]
    attribute, the flag among the keys of [_rest] if it was sent. *)
Definition raw_cookie (n : string) (sec : bool) (rest : list string) : Cookie :=
  {| name := n; domain := PyStr "example.com"; expires := PyNone;
     path := PyStr "/"; port := PyNone; secure := sec;
     httponly := None; _rest := Some rest |}.

(** A site over plain http that sets two cookies. *)
Definition cookie_site : Reqs :=
  {| responses_auto := response "http://example.com/" [];
     responses_https := None;
     session_cookies :=
       [raw_cookie "sessionid" false ["HttpOnly"]; raw_cookie "theme" true []] |}.

(** ** Verdicts *)

(** A verdict carries data, the expectation it was given, a boolean pass
    and a result that is a string. *)
Definition pre_formed (expectation : string) (output : gmap string pyval) : Prop :=
  is_Some (output !! "data")
  /\ output !! "expectation" = Some (PyStr expectation)
  /\ exists b, output !! "pass" = Some (PyBool b).

Definition well_formed (expectation : string) (output : gmap string pyval) : Prop :=
  pre_formed expectation output
  /\ exists r, output !! "result" = Some (PyStr r).

(** The value a call returns under a key of its verdict; nothing when
    the call raises or the verdict has no such key. *)
Definition field (k : string) (call : res (gmap string pyval)) : option pyval :=
  match call with
  | Ok output => output !! k
  | Raise _ => None
  end.

(** A call returns a well-formed verdict. *)
Definition returns_verdict (expectation : string)
    (call : res (gmap string pyval)) : Prop :=
  exists output, call = Ok output /\ well_formed expectation output.

(** The policy values: a list of sources, or the empty string line 56
    puts for a missing default-src. *)
Definition sources (v : pyval) : Prop :=
  (exists l, v = PyList l) \/ v = PyStr "".

(** The value a directive resolves to: its own, else that of
    default-src, else the empty string. *)
Definition resolved (csp : gmap string pyval) (directive : string) : pyval :=
  default (get_or csp "default-src" (PyStr "")) (csp !! directive).

(** [keys] bounds what a computation of [M] writes. *)
Definition writes {A} (keys : list string) (c : M A) : Prop :=
  forall output k, k ∉ keys -> (c output).1 !! k = output !! k.

Definition sts_keys : list string :=
  ["max-age"; "includeSubDomains"; "preload"; "result"].

(** The six analyzers, and a call of one of them: its outcome, and
    [reqs] as the call leaves it.  Only [cookies] writes to [reqs]. *)
Inductive analyzer :=
| CSP | Cookies | HSTS | XContentTypeOptions | XFrameOptions | XXSSProtection.

Definition call (is_hsts_preloaded : string -> bool)
    (urlparse : string -> res ParseResult) (a : analyzer)
    (reqs : Reqs) (expectation : string) : Reqs * res (gmap string pyval) :=
  match a with
  | CSP => (reqs, content_security_policy urlparse reqs expectation)
  | Cookies => cookies is_hsts_preloaded urlparse reqs expectation
  | HSTS => (reqs, strict_transport_security is_hsts_preloaded urlparse reqs expectation)
  | XContentTypeOptions => (reqs, x_content_type_options reqs expectation)
  | XFrameOptions => (reqs, x_frame_options urlparse reqs expectation)
  | XXSSProtection => (reqs, x_xss_protection urlparse reqs expectation)
  end.

(** The input contract on cookies: a native [httponly] flag, or the raw
    attributes to derive it from. *)
Definition cookie_contract (cookie : Cookie) : Prop :=
  is_Some (httponly cookie) \/ is_Some (_rest cookie).

(** What the accumulator of [cookies] holds: None, or a result. *)
Definition result_value (v : pyval) : Prop :=
  v = PyNone \/ exists s, v = PyStr s.

(** The state of the loop of [cookies]: a verdict in the making. *)
Definition cookie_output (expectation : string)
    (output : gmap string pyval) : Prop :=
  pre_formed expectation output
  /\ exists v, output !! "result" = Some v /\ result_value v.

(** The spec on exceptions: on a bundle within its input contract,
    which says nothing of the URLs of the responses, every call of an
    analyzer returns a well-formed verdict. *)
Definition analyzers_never_raise (is_hsts_preloaded : string -> bool)
    (urlparse : string -> res ParseResult) (reqs : Reqs) : Prop :=
  Forall cookie_contract (session_cookies reqs) ->
  forall a expectation,
    returns_verdict expectation
      (call is_hsts_preloaded urlparse a reqs expectation).2.

(** The spec on the data of a CSP verdict: the policy of a header that
    parses, with the directives of the header and no others. *)
Definition csp_data_is_header_policy (urlparse : string -> res ParseResult)
    (reqs : Reqs) (expectation : string) : Prop :=
  forall header csp,
    headers_get (responses_auto reqs) "Content-Security-Policy" = Some header ->
    csp_parse header = Ok csp ->
    exists output d,
      content_security_policy urlparse reqs expectation = Ok output
      /\ output !! "data" = Some (PyDict d)
      /\ forall k, is_Some (d !! k) <-> is_Some (csp !! k).

(** The spec on the way out of X-XSS-Protection through CSP: when the
    CSP verdict passes, the X-XSS-Protection verdict passes too, with a
    result of the header that says enabled or else with
    x-xss-protection-not-needed-due-to-csp. *)
Definition xxssp_defers_to_csp (urlparse : string -> res ParseResult)
    (reqs : Reqs) (expectation : string) : Prop :=
  field "pass" (content_security_policy urlparse reqs csp_default)
  = Some (PyBool true) ->
  exists r,
    field "pass" (x_xss_protection urlparse reqs expectation)
    = Some (PyBool true)
    /\ field "result" (x_xss_protection urlparse reqs expectation)
       = Some (PyStr r)
    /\ (Py.contains "enabled" r = true
        \/ r = "x-xss-protection-not-needed-due-to-csp").

(** The worst of a sequence of results: one of them that none of them
    exceeds in the order; nothing for the empty sequence. *)
Definition worst_of (order results : list string) (v : pyval) : Prop :=
  match results with
  | [] => v = PyNone
  | _ => exists r, v = PyStr r /\ r ∈ results
           /\ forall x, x ∈ results -> (severity order x <= severity order r)%nat
  end.

(** ** Notions of the further properties *)

(** A segment of a header that has characters and only whitespace. *)
Definition blank_segment (d : string) : Prop :=
  d ≠ EmptyString /\ Py.strip d = EmptyString.

(** A parameter the loop of lines 235-241 gets past: not a max-age, or
    one whose value [int] reads. *)
Definition max_age_reads (parameter : string) : Prop :=
  Py.startswith parameter "max-age=" = true ->
  exists n, Py.int (Py.slice_from 8 parameter) = Ok n.

(** The start of a header that a verdict keeps as its data. *)
Definition kept_start (cap : Z) (header : string)
    (call : res (gmap string pyval)) : Prop :=
  exists data,
    field "data" call = Some (PyStr data)
    /\ Py.len data <= cap
    /\ String.prefix data header = true
    /\ (Py.len header <= cap -> data = header).

(** Line 146: the name has [login] or [sess] in it, in any case. *)
Definition session_name (n : string) : bool :=
  existsb (fun i => Py.contains i (Py.lower n)) ["login"; "sess"].

(** The [httponly] attribute of a cookie once lines 135-139 are past:
    its own, or whether [httponly] is a key of [_rest], in any case. *)
Definition httponly_flag (cookie : Cookie) : bool :=
  match httponly cookie with
  | Some b => b
  | None =>
      match _rest cookie with
      | Some rest => existsb (String.eqb "httponly") (Py.lower <$> rest)
      | None => false
      end
  end.

(** The cookie as lines 135-139 leave it. *)
Definition with_httponly (cookie : Cookie) : Cookie :=
  match httponly cookie with
  | Some _ => cookie
  | None => set_httponly cookie (httponly_flag cookie)
  end.

(** The results lines 150-174 merge in for one cookie, in order. *)
Definition cookie_codes (hsts : bool) (cookie : Cookie) : list string :=
  (if negb (secure cookie) && hsts
   then ["cookies-without-secure-flag-but-protected-by-hsts"]
   else if negb (secure cookie) then ["cookies-without-secure-flag"] else [])
  ++ (if session_name (name cookie) && negb (secure cookie) && hsts
      then ["cookies-session-without-secure-flag-but-protected-by-hsts"]
      else if session_name (name cookie) && negb (secure cookie)
      then ["cookies-session-without-secure-flag"] else [])
  ++ (if session_name (name cookie) && negb (httponly_flag cookie)
      then ["cookies-session-without-httponly-flag"] else []).

(** The jar of line 131 after the loop: each cookie written under its
    name, in order. *)
Definition jar_of (cs : list Cookie) : gmap string pyval :=
  foldl (fun jar cookie => <[name cookie := jar_entry cookie]> jar) ∅ cs.

(** A site over plain http that sends the given headers and no cookies. *)
Definition plain_site (hs : list (string * string)) : Reqs :=
  {| responses_auto := response "http://example.com/" hs;
     responses_https := None;
     session_cookies := [] |}.

(** A preload list that holds example.com alone. *)
Definition example_preloaded : string -> bool := String.eqb "example.com".

(** A site reached over http and over https, without headers, whose
    session holds the given cookies. *)
Definition jar_site (cs : list Cookie) : Reqs :=
  {| responses_auto := response "http://example.com/" [];
     responses_https := Some (response "https://example.com/" []);
     session_cookies := cs |}.

(** The dict a call returned; empty if it raised. *)
Definition verdict_of (call : res (gmap string pyval)) : gmap string pyval :=
  match call with
  | Ok output => output
  | Raise _ => ∅
  end.

(** ** Lookups and verdicts *)

Ltac not_in_keys :=
  rewrite ?not_elem_of_cons; repeat split; try done; apply not_elem_of_nil.

Ltac in_keys :=
  repeat first [apply list_elem_of_here | apply list_elem_of_further].

Lemma getitem_Some d k v : d !! k = Some v -> getitem d k = Ok v.
Proof. unfold getitem. by intros ->. Qed.

Lemma if_Ok {A} (b : bool) (x y : A) :
  (if b then Ok x else Ok y) = Ok (if b then x else y).
Proof. by destruct b. Qed.

Lemma view_insert csp k s output :
  view csp (<[k := s]> output) = <[k := read csp s]> (view csp output).
Proof. apply fmap_insert. Qed.

Lemma view_Val csp (output : gmap string pyval) :
  view csp (Val <$> output) = output.
Proof.
  apply map_eq. intros k. unfold view. rewrite !lookup_fmap.
  by destruct (output !! k).
Qed.

Lemma field_Ok k call output v :
  call = Ok output -> output !! k = Some v -> field k call = Some v.
Proof. by intros -> ?. Qed.

Lemma pass_if_in_Ok accepted output r :
  output !! "result" = Some r ->
  pass_if_in accepted output
  = Ok (if in_tuple r accepted then <["pass" := PyBool true]> output else output).
Proof.
  intros H. unfold pass_if_in. rewrite (getitem_Some _ _ _ H). simpl.
  by destruct (in_tuple r accepted).
Qed.

Lemma new_output_pre_formed expectation :
  pre_formed expectation (new_output expectation).
Proof. unfold pre_formed, new_output. by simplify_map_eq; eauto. Qed.

Lemma pre_formed_insert expectation output k v :
  k ≠ "expectation" -> k ≠ "pass" ->
  pre_formed expectation output -> pre_formed expectation (<[k := v]> output).
Proof.
  intros He Hp (Hd & Hexp & Hpass). repeat split.
  - rewrite lookup_insert. case_decide; eauto.
  - by rewrite lookup_insert_ne.
  - by rewrite lookup_insert_ne.
Qed.

Lemma pre_formed_insert_pass expectation output b :
  pre_formed expectation output ->
  pre_formed expectation (<["pass" := PyBool b]> output).
Proof.
  intros (Hd & Hexp & Hpass). repeat split.
  - by rewrite lookup_insert_ne.
  - by rewrite lookup_insert_ne.
  - rewrite lookup_insert_eq. eauto.
Qed.

(** A chain of writes on an [output] that is pre-formed. *)
Ltac pre_formed_writes :=
  repeat match goal with
         | |- pre_formed _ (new_output _) => apply new_output_pre_formed
         | |- pre_formed _ (<["pass" := PyBool _]> _) =>
             apply pre_formed_insert_pass
         | |- pre_formed _ (<[_ := _]> _) => apply pre_formed_insert; [done..|]
         | |- pre_formed _ _ => assumption
         end.

Lemma pre_formed_frame expectation output output' :
  (forall k, k ∈ ["data"; "expectation"; "pass"] -> output' !! k = output !! k) ->
  pre_formed expectation output -> pre_formed expectation output'.
Proof.
  intros H (Hd & Hexp & Hpass). unfold pre_formed.
  rewrite !H by in_keys. done.
Qed.

Lemma pass_if_in_verdict accepted expectation output r :
  pre_formed expectation output ->
  output !! "result" = Some (PyStr r) ->
  exists output',
    pass_if_in accepted output = Ok output'
    /\ well_formed expectation output'
    /\ forall k, k ≠ "pass" -> output' !! k = output !! k.
Proof.
  intros (Hd & Hexp & Hpass) Hr. rewrite (pass_if_in_Ok _ _ _ Hr).
  eexists; split; [done|]. destruct (in_tuple _ _).
  - repeat split; rewrite ?lookup_insert_ne by done; eauto.
    + rewrite lookup_insert_eq; eauto.
    + intros k Hk. by rewrite lookup_insert_ne.
  - repeat split; eauto.
Qed.

(** ** What the [try] of the HSTS analyzer writes *)

Lemma writes_ret {A} keys (a : A) : writes keys (M_ret a).
Proof. by intros output k _. Qed.

Lemma writes_lift {A} keys (c : res A) : writes keys (lift c).
Proof. by intros output k _. Qed.

Lemma writes_readitem keys k0 : writes keys (readitem k0).
Proof. by intros output k _. Qed.

Lemma writes_setitem keys k0 v : k0 ∈ keys -> writes keys (setitem k0 v).
Proof.
  intros Hin output k Hk. unfold setitem. simpl.
  apply lookup_insert_ne. by intros ->.
Qed.

Lemma writes_bind {A B} keys (c : M A) (f : A -> M B) :
  writes keys c -> (forall a, writes keys (f a)) -> writes keys (M_bind c f).
Proof.
  intros Hc Hf output k Hk. unfold M_bind.
  specialize (Hc output k Hk).
  destruct (c output) as [output' [a|e]]; simpl in *; [|done].
  by rewrite Hf.
Qed.

Lemma writes_for_each {A} keys (body : A -> M unit) l :
  Forall (fun x => writes keys (body x)) l -> writes keys (for_each body l).
Proof.
  induction 1 as [|x l Hx Hl IH]; simpl.
  - apply writes_ret.
  - by apply writes_bind.
Qed.

Ltac writes_step :=
  first [ apply writes_bind; [|intros ?] | apply writes_lift | apply writes_ret
        | apply writes_readitem | apply writes_setitem; in_keys ].

Lemma writes_sts_parameter p : writes sts_keys (sts_parameter p).
Proof. unfold sts_parameter. repeat case_match; repeat writes_step. Qed.

(** A parameter other than [includesubdomains] leaves the flag alone,
    and so for [preload]. *)
Lemma sts_parameter_subdomains p :
  p ≠ "includesubdomains" -> writes ["max-age"; "preload"] (sts_parameter p).
Proof.
  intros Hp. unfold sts_parameter.
  destruct (Py.startswith p "max-age="); [repeat writes_step|].
  destruct (String.eqb_spec p "includesubdomains"); [done|].
  case_match; repeat writes_step.
Qed.

Lemma sts_parameter_preload p :
  p ≠ "preload" -> writes ["max-age"; "includeSubDomains"] (sts_parameter p).
Proof.
  intros Hp. unfold sts_parameter.
  destruct (Py.startswith p "max-age="); [repeat writes_step|].
  case_match; [repeat writes_step|].
  destruct (String.eqb_spec p "preload"); [done|].
  repeat writes_step.
Qed.

(** The body of the [try] never reaches its end: whatever the loop did,
    the read of [output['includeubdomains']] on line 252 raises, [output]
    having no such key.  After the loop it has written [result] at most. *)
Lemma sts_try_raises data output :
  output !! "includeubdomains" = None ->
  exists o2 e,
    sts_try data output = (o2, Raise e)
    /\ forall k, k ≠ "result" ->
         o2 !! k = (for_each sts_parameter (sts_tokens data) output).1 !! k.
Proof.
  intros Hnone. unfold sts_try, M_bind.
  assert (Hk : (for_each sts_parameter (sts_tokens data) output).1
               !! "includeubdomains" = None).
  { rewrite <- Hnone. apply writes_for_each with (keys := sts_keys).
    - apply Forall_forall. intros p _. apply writes_sts_parameter.
    - unfold sts_keys. not_in_keys. }
  destruct (for_each _ _ output) as [o1 [u|e]]; simpl in Hk |- *; [|by eauto].
  unfold getitem at 1.
  destruct (o1 !! "max-age") as [ma|]; [|by eauto].
  destruct (truthy ma); [destruct (lt_int ma SIX_MONTHS) as [[]|e]|];
    simpl; try (by eauto); unfold getitem;
    rewrite lookup_insert_ne by done; rewrite Hk;
    (do 2 eexists; split; [done|]);
    intros k Hne; by rewrite lookup_insert_ne.
Qed.

(** So the handler of line 258 always runs. *)
Lemma hsts_try_except data output :
  output !! "includeubdomains" = None ->
  exists o2,
    run (try_except (sts_try data)
           (setitem "result" (PyStr "hsts-header-invalid"))) output
    = Ok (<["result" := PyStr "hsts-header-invalid"]> o2)
    /\ forall k, k ≠ "result" ->
         o2 !! k = (for_each sts_parameter (sts_tokens data) output).1 !! k.
Proof.
  intros Hnone.
  destruct (sts_try_raises data output Hnone) as (o2 & e & Htry & Hframe).
  exists o2. split; [|done].
  unfold run, try_except. by rewrite Htry.
Qed.

Lemma hsts_output_lookup expectation k :
  hsts_output expectation !! k =
    if decide (k = "data") then Some PyNone
    else if decide (k = "expectation") then Some (PyStr expectation)
    else if decide (k = "includeSubDomains") then Some PyNone
    else if decide (k = "max-age") then Some PyNone
    else if decide (k = "pass") then Some (PyBool false)
    else if decide (k = "preload") then Some PyNone
    else if decide (k = "preloaded") then Some (PyBool false)
    else if decide (k = "result") then Some (PyStr "hsts-not-implemented")
    else None.
Proof.
  unfold hsts_output.
  repeat (destruct (decide (k = _)) as [->|?];
          [by simplify_map_eq | rewrite lookup_insert_ne by done]).
  apply lookup_empty.
Qed.

Lemma hsts_output_pre_formed expectation :
  pre_formed expectation (hsts_output expectation).
Proof. unfold pre_formed. rewrite !hsts_output_lookup. simpl. eauto. Qed.

(** ** Properties of the analyzers *)

Section Properties.

Variable is_hsts_preloaded : string -> bool.
Variable urlparse : string -> res ParseResult.

(** *** Strict-Transport-Security *)

(** The verdict on a response that has the header: the result is
    that of the handler unless the host is preloaded, and the other
    keys are as the loop over the parameters left them. *)
Lemma hsts_header_present reqs expectation response header parsed :
  responses_https reqs = Some response ->
  headers_get response "Strict-Transport-Security" = Some header ->
  urlparse (url response) = Ok parsed ->
  let data := Py.slice_to 1024 header in
  let looped :=
    (for_each sts_parameter (sts_tokens data)
              (<["data" := PyStr data]> (hsts_output expectation))).1 in
  exists output,
    strict_transport_security is_hsts_preloaded urlparse reqs expectation
    = Ok output
    /\ well_formed expectation output
    /\ output !! "result"
       = Some (PyStr (if is_hsts_preloaded (netloc parsed)
                      then "hsts-preloaded" else "hsts-header-invalid"))
    /\ forall k, k ∉ ["result"; "pass"; "preloaded"] ->
         output !! k = looped !! k.
Proof.
  intros Hresp Hhdr Hurl data looped. unfold strict_transport_security.
  rewrite Hresp, Hhdr, Hurl. fold data.
  destruct (hsts_try_except data (<["data" := PyStr data]> (hsts_output expectation)))
    as (o2 & -> & Hframe).
  { rewrite lookup_insert_ne by done. by rewrite hsts_output_lookup. }
  fold looped in Hframe. simpl.
  assert (Hpre : pre_formed expectation o2).
  { apply pre_formed_frame with (output := looped).
    { intros k Hk. apply Hframe. intros ->. revert Hk.
      apply not_elem_of_cons; split; [done|]. not_in_keys. }
    apply pre_formed_frame
      with (output := <["data" := PyStr data]> (hsts_output expectation)).
    { intros k Hk. apply writes_for_each with (keys := sts_keys).
      - apply Forall_forall. intros p _. apply writes_sts_parameter.
      - unfold sts_keys.
        repeat (apply elem_of_cons in Hk as [->|Hk]; [not_in_keys|]).
        by apply elem_of_nil in Hk. }
    apply pre_formed_insert; [done..|]. apply hsts_output_pre_formed. }
  set (pre := is_hsts_preloaded _).
  rewrite if_Ok. cbn [res_bind].
  set (output := if pre then _ else _).
  assert (Hres : output !! "result"
                 = Some (PyStr (if pre then "hsts-preloaded"
                                else "hsts-header-invalid"))).
  { unfold output. destruct pre; by simplify_map_eq. }
  assert (Hpre' : pre_formed expectation output).
  { unfold output. destruct pre; repeat apply pre_formed_insert; done. }
  destruct (pass_if_in_verdict
              ["hsts-implemented-max-age-at-least-six-months";
               "hsts-preloaded"; expectation] _ _ _ Hpre' Hres)
    as (out & -> & Hwf & Hsame).
  exists out. repeat split; try apply Hwf.
  - rewrite Hsame by done. apply Hres.
  - intros k Hk. apply not_elem_of_cons in Hk as [Hk1 Hk].
    apply not_elem_of_cons in Hk as [Hk2 Hk].
    apply not_elem_of_cons in Hk as [Hk3 _].
    rewrite Hsame by done. rewrite <- Hframe by done.
    unfold output. destruct pre; by rewrite ?lookup_insert_ne.
Qed.

Lemma hsts_returns reqs expectation :
  https_url_parses urlparse reqs ->
  returns_verdict expectation
    (strict_transport_security is_hsts_preloaded urlparse reqs expectation).
Proof.
  intros Hurls.
  destruct (responses_https reqs) as [response|] eqn:Hresp.
  - destruct (Hurls response Hresp) as [parsed Hurl].
    destruct (headers_get response "Strict-Transport-Security")
      as [header|] eqn:Hhdr.
    + destruct (hsts_header_present _ expectation _ _ _ Hresp Hhdr Hurl)
        as (output & Hcall & Hwf & _).
      by exists output.
    + unfold strict_transport_security. rewrite Hresp, Hhdr, Hurl.
      cbn [res_bind]. rewrite if_Ok. cbn [res_bind].
      set (output := if is_hsts_preloaded _ then _ else _).
      assert (exists r, output !! "result" = Some (PyStr r)) as [r Hr].
      { unfold output. case_match; rewrite ?hsts_output_lookup;
          simplify_map_eq; eauto. }
      assert (Hpre : pre_formed expectation output).
      { unfold output.
        case_match; [do 2 (apply pre_formed_insert; [done..|])|];
          apply hsts_output_pre_formed. }
      destruct (pass_if_in_verdict
                  ["hsts-implemented-max-age-at-least-six-months";
                   "hsts-preloaded"; expectation] _ _ _ Hpre Hr)
        as (out & Hcall & Hwf & _).
      by exists out.
  - unfold strict_transport_security. rewrite Hresp. simpl.
    edestruct pass_if_in_verdict as (out & Hcall & Hwf & _);
      [| |exists out; split; [exact Hcall|exact Hwf]].
    + apply pre_formed_insert; [done..|]. apply hsts_output_pre_formed.
    + by simplify_map_eq.
Qed.

(** C1, on the code.  Whatever a Strict-Transport-Security header
    says, the result for a host that is not preloaded, [urlparse] having
    read its URL for line 262, is
    hsts-header-invalid: the two results on the max-age are written on
    lines 245 and 247 and overwritten by the handler of line 258, which
    the misspelt key of line 252 always brings about.  At
    [max-age=15552000] the claim expects
    hsts-implemented-max-age-at-least-six-months. *)
Theorem hsts_header_present_is_invalid
    reqs expectation response header parsed :
  responses_https reqs = Some response ->
  headers_get response "Strict-Transport-Security" = Some header ->
  urlparse (url response) = Ok parsed ->
  is_hsts_preloaded (netloc parsed) = false ->
  exists output,
    strict_transport_security is_hsts_preloaded urlparse reqs expectation
    = Ok output
    /\ output !! "result" = Some (PyStr "hsts-header-invalid").
Proof.
  intros Hresp Hhdr Hurl Hpre.
  destruct (hsts_header_present _ expectation _ _ _ Hresp Hhdr Hurl)
    as (output & Hcall & _ & Hres & _).
  rewrite Hpre in Hres. eauto.
Qed.

(** C2, on the code.  The two flags of a verdict on a present header
    are None, not False, when their token is not among the parameters
    of the header: lines 253 and 255, which would write False, come
    after the read of the misspelt key on line 252 and are never
    reached.  The call returns when [urlparse] reads the URL of the
    response for line 262. *)
Theorem hsts_flag_without_token_is_none
    reqs expectation response header parsed :
  responses_https reqs = Some response ->
  headers_get response "Strict-Transport-Security" = Some header ->
  urlparse (url response) = Ok parsed ->
  exists output,
    strict_transport_security is_hsts_preloaded urlparse reqs expectation
    = Ok output
    /\ ("includesubdomains" ∉ sts_tokens (Py.slice_to 1024 header) ->
        output !! "includeSubDomains" = Some PyNone)
    /\ ("preload" ∉ sts_tokens (Py.slice_to 1024 header) ->
        output !! "preload" = Some PyNone).
Proof.
  intros Hresp Hhdr Hurl.
  destruct (hsts_header_present _ expectation _ _ _ Hresp Hhdr Hurl)
    as (output & Hcall & _ & _ & Hframe).
  exists output. split; [done|]. split; intros Habsent.
  - rewrite Hframe by not_in_keys.
    rewrite (writes_for_each ["max-age"; "preload"]) by
      (try not_in_keys; apply Forall_forall; intros p Hp;
       apply sts_parameter_subdomains; by intros ->).
    rewrite lookup_insert_ne by done. by rewrite hsts_output_lookup.
  - rewrite Hframe by not_in_keys.
    rewrite (writes_for_each ["max-age"; "includeSubDomains"]) by
      (try not_in_keys; apply Forall_forall; intros p Hp;
       apply sts_parameter_preload; by intros ->).
    rewrite lookup_insert_ne by done. by rewrite hsts_output_lookup.
Qed.

(** *** Content-Security-Policy *)

Lemma dict_comprehension_values {A} (P : pyval -> Prop)
    (item : A -> res (string * pyval)) l acc d :
  (forall x k v, item x = Ok (k, v) -> P v) ->
  map_Forall (fun _ => P) acc ->
  dict_comprehension item l acc = Ok d ->
  map_Forall (fun _ => P) d.
Proof.
  intros Hitem. revert acc.
  induction l as [|x l IH]; simpl; intros acc Hacc Hd.
  - by inversion Hd; subst.
  - destruct (item x) as [[k v]|e] eqn:Hx; simpl in Hd; [|done].
    apply (IH _ (map_Forall_insert_2 _ _ _ _ (Hitem _ _ _ Hx) Hacc) Hd).
Qed.

Lemma csp_item_value directive k v :
  csp_item directive = Ok (k, v) -> exists l, v = PyList l.
Proof.
  unfold csp_item. destruct (Py.list_index directive 0); simpl; [|done].
  destruct (1 <? length directive)%nat; simpl.
  - destruct (Py.list_index directive 1); simpl; [|done].
    intros [= _ <-]. eauto.
  - intros [= _ <-]. eauto.
Qed.

(** The values of a parsed policy are lists of sources. *)
Lemma csp_parse_values header csp k v :
  csp_parse header = Ok csp -> csp !! k = Some v -> exists l, v = PyList l.
Proof.
  intros Hparse Hk. unfold csp_parse in Hparse.
  eapply (dict_comprehension_values (fun v => exists l, v = PyList l)) in Hparse.
  - by apply (Hparse k v).
  - apply csp_item_value.
  - apply map_Forall_empty.
Qed.

(** Lines 56-58 add the three keys and leave the others alone. *)
Lemma csp_replicate_lookup csp k :
  csp_replicate csp !! k =
    if decide (k = "style-src") then Some (resolved csp "style-src")
    else if decide (k = "script-src") then Some (resolved csp "script-src")
    else if decide (k = "default-src") then Some (resolved csp "default-src")
    else csp !! k.
Proof.
  unfold csp_replicate, resolved, key_in, get_or. simpl.
  rewrite !(lookup_insert_ne _ "script-src" "style-src") by done.
  rewrite !(lookup_insert_ne _ "default-src" "script-src") by done.
  rewrite !(lookup_insert_ne _ "default-src" "style-src") by done.
  rewrite !(lookup_insert_ne _ "script-src" "default-src") by done.
  rewrite !lookup_insert_eq.
  destruct (decide (k = "style-src")) as [->|H1].
  { rewrite lookup_insert_eq. by destruct (csp !! "style-src"). }
  rewrite lookup_insert_ne by done.
  destruct (decide (k = "script-src")) as [->|H2].
  { rewrite lookup_insert_eq. by destruct (csp !! "script-src"). }
  rewrite lookup_insert_ne by done.
  destruct (decide (k = "default-src")) as [->|H3].
  { rewrite lookup_insert_eq. by destruct (csp !! "default-src"). }
  by rewrite lookup_insert_ne.
Qed.

Lemma resolved_sources header csp directive :
  csp_parse header = Ok csp -> sources (resolved csp directive).
Proof.
  intros Hparse. unfold resolved, get_or.
  destruct (csp !! directive) as [v|] eqn:Hd; simpl.
  { left. eapply csp_parse_values; eauto. }
  destruct (csp !! "default-src") as [v|] eqn:Hdef; simpl.
  - left. eapply csp_parse_values; eauto.
  - by right.
Qed.

Lemma py_in_sources x v : sources v -> exists b, py_in x v = Ok b.
Proof. intros [[l ->]| ->]; simpl; eauto. Qed.

(** The tests of lines 61-72 on a parsed policy give a result, and
    give the results of lines 66 and 68 only for a policy that has a
    directive of that very name: [in] on a dict looks at its keys. *)
Lemma csp_tests_Ok response header csp output parsed :
  csp_parse header = Ok csp ->
  view (csp_replicate csp) output !! "data"
  = Some (PyDict (csp_replicate csp)) ->
  urlparse (url response) = Ok parsed ->
  exists result,
    csp_tests urlparse response (csp_replicate csp) output = Ok result
    /\ (result = "csp-implemented-with-insecure-scheme" ->
        scheme parsed = "https" /\ is_Some (csp !! "http:"))
    /\ (result = "csp-implemented-with-unsafe-eval" ->
        is_Some (csp !! "'unsafe-eval'")).
Proof.
  intros Hparse Hdata Hurl. unfold csp_tests, get_or. rewrite Hurl.
  rewrite !csp_replicate_lookup; simpl.
  destruct (py_in_sources "'unsafe-inline'" _
              (resolved_sources header csp "script-src" Hparse)) as [t1 ->].
  destruct (py_in_sources "'unsafe-inline'" _
              (resolved_sources header csp "style-src" Hparse)) as [t5 ->].
  rewrite (getitem_Some _ _ _ Hdata). simpl.
  unfold key_in. rewrite !csp_replicate_lookup; simpl.
  assert (Hdone : forall r : string,
            (r = "csp-implemented-with-insecure-scheme" ->
             scheme parsed = "https"
             /\ is_Some (csp !! "http:")) ->
            (r = "csp-implemented-with-unsafe-eval" ->
             is_Some (csp !! "'unsafe-eval'")) ->
            exists result, Ok r = Ok result
              /\ (result = "csp-implemented-with-insecure-scheme" ->
                  scheme parsed = "https"
                  /\ is_Some (csp !! "http:"))
              /\ (result = "csp-implemented-with-unsafe-eval" ->
                  is_Some (csp !! "'unsafe-eval'"))) by eauto.
  destruct t1; simpl; [by apply Hdone|].
  case_match; [by apply Hdone|].
  destruct (String.eqb_spec (scheme parsed) "https") as [Hs|Hs];
    simpl; [destruct (csp !! "http:") eqn:Hh; simpl; [by apply Hdone; eauto|]|];
    (destruct (csp !! "'unsafe-eval'") eqn:He; simpl; [by apply Hdone; eauto|]);
    destruct t5; by apply Hdone.
Qed.

(** The verdict on a header that parses. *)
Lemma csp_header_parsed reqs expectation header csp parsed :
  headers_get (responses_auto reqs) "Content-Security-Policy" = Some header ->
  csp_parse header = Ok csp ->
  urlparse (url (responses_auto reqs)) = Ok parsed ->
  exists result output,
    content_security_policy urlparse reqs expectation = Ok output
    /\ well_formed expectation output
    /\ output !! "result" = Some (PyStr result)
    /\ output !! "data" = Some (capped (PyDict (csp_replicate csp)))
    /\ (result = "csp-implemented-with-insecure-scheme" ->
        scheme parsed = "https"
        /\ is_Some (csp !! "http:"))
    /\ (result = "csp-implemented-with-unsafe-eval" ->
        is_Some (csp !! "'unsafe-eval'")).
Proof.
  intros Hhdr Hparse Hurl. unfold content_security_policy.
  rewrite Hhdr, Hparse.
  destruct (csp_tests_Ok (responses_auto reqs) header csp
              (<["data" := CspObject]> (Val <$> new_output expectation))
              parsed Hparse)
    as (result & -> & Hhttp & Heval); [|exact Hurl|].
  { rewrite view_insert. apply lookup_insert_eq. }
  cbn [res_bind]. rewrite !view_insert, view_Val. cbn [read].
  rewrite (getitem_Some _ "data" (PyDict (csp_replicate csp)))
    by by simplify_map_eq.
  cbn [res_bind]. rewrite !view_insert, view_Val. cbn [read].
  edestruct (pass_if_in_verdict [expectation] expectation) as (out & -> & Hwf & Hsame).
  { do 3 (apply pre_formed_insert; [done..|]). apply new_output_pre_formed. }
  { rewrite lookup_insert_ne by done. apply lookup_insert_eq. }
  exists result, out. repeat split; try apply Hwf; try done.
  - rewrite Hsame by done. by simplify_map_eq.
  - rewrite Hsame by done. by simplify_map_eq.
  - by apply Hhttp.
  - by apply Hhttp.
Qed.

(** Every call on a response whose URL [urlparse] reads returns, with
    data that is None or a dict. *)
Lemma csp_returns_data reqs expectation :
  url_parses urlparse (responses_auto reqs) ->
  exists output,
    content_security_policy urlparse reqs expectation = Ok output
    /\ well_formed expectation output
    /\ (output !! "data" = Some PyNone
        \/ exists d, output !! "data" = Some (PyDict d)).
Proof.
  intros [parsed Hurl].
  destruct (headers_get (responses_auto reqs) "Content-Security-Policy")
    as [header|] eqn:Hhdr.
  - destruct (csp_parse header) as [csp|e] eqn:Hparse.
    + destruct (csp_header_parsed _ expectation _ _ _ Hhdr Hparse Hurl)
        as (result & output & Hcall & Hwf & _ & Hdata & _).
      exists output. repeat split; try apply Hwf; try done.
      right. rewrite Hdata. unfold capped. case_match; eauto.
    + unfold content_security_policy. rewrite Hhdr, Hparse.
      eexists; split; [done|]. split; [split|].
      * pre_formed_writes.
      * rewrite lookup_insert_eq. eauto.
      * left. by simplify_map_eq.
  - unfold content_security_policy. rewrite Hhdr.
    edestruct (pass_if_in_verdict [expectation] expectation)
      as (out & Hcall & Hwf & Hsame);
      [| |exists out; split; [exact Hcall|split; [exact Hwf|]]].
    + pre_formed_writes.
    + apply lookup_insert_eq.
    + left. rewrite Hsame by done. by simplify_map_eq.
Qed.

Lemma csp_returns reqs expectation :
  url_parses urlparse (responses_auto reqs) ->
  returns_verdict expectation
    (content_security_policy urlparse reqs expectation).
Proof.
  intros Hurl.
  destruct (csp_returns_data reqs expectation Hurl)
    as (output & Hcall & Hwf & _).
  by exists output.
Qed.

(** C3, on the code.  The result csp-implemented-with-insecure-scheme
    is out of reach of a policy whose sources are over [http:]: line 65
    asks whether [http:] is a key of the policy, the name of a
    directive, and a header without such a directive never gets the
    result, on a response whose URL [urlparse] reads. *)
Theorem csp_insecure_scheme_needs_directive_named_http
    reqs expectation header csp parsed :
  headers_get (responses_auto reqs) "Content-Security-Policy" = Some header ->
  csp_parse header = Ok csp ->
  urlparse (url (responses_auto reqs)) = Ok parsed ->
  csp !! "http:" = None ->
  exists output,
    content_security_policy urlparse reqs expectation = Ok output
    /\ output !! "result"
       ≠ Some (PyStr "csp-implemented-with-insecure-scheme").
Proof.
  intros Hhdr Hparse Hurl Hnone.
  destruct (csp_header_parsed _ expectation _ _ _ Hhdr Hparse Hurl)
    as (result & output & Hcall & _ & Hres & _ & Hhttp & _).
  exists output. split; [done|]. rewrite Hres. intros [= ->].
  destruct Hhttp as [_ [v Hv]]; [done|]. by rewrite Hnone in Hv.
Qed.

(** C4, on the code.  Likewise line 67 asks whether ['unsafe-eval'] is
    the name of a directive: a header without a directive of that name
    never gets csp-implemented-with-unsafe-eval, whatever its sources,
    on a response whose URL [urlparse] reads. *)
Theorem csp_unsafe_eval_needs_directive_named_unsafe_eval
    reqs expectation header csp parsed :
  headers_get (responses_auto reqs) "Content-Security-Policy" = Some header ->
  csp_parse header = Ok csp ->
  urlparse (url (responses_auto reqs)) = Ok parsed ->
  csp !! "'unsafe-eval'" = None ->
  exists output,
    content_security_policy urlparse reqs expectation = Ok output
    /\ output !! "result" ≠ Some (PyStr "csp-implemented-with-unsafe-eval").
Proof.
  intros Hhdr Hparse Hurl Hnone.
  destruct (csp_header_parsed _ expectation _ _ _ Hhdr Hparse Hurl)
    as (result & output & Hcall & _ & Hres & _ & _ & Heval).
  exists output. split; [done|]. rewrite Hres. intros [= ->].
  destruct Heval as [v Hv]; [done|]. by rewrite Hnone in Hv.
Qed.

(** C5, on the code.  Line 50 stores the dict object [csp] itself as
    data, and lines 56-58 then write to that object: the data of the
    verdict on a header that parses is the policy as those lines leave
    it, or the empty dict when its display is 32768 characters or more.
    Next to the directives of the header it always holds default-src,
    script-src and style-src, each with its own sources when the header
    has the directive, else with those of default-src, else with the
    empty string; it holds no other key.  The comment of line 55
    replicates default-src only where it exists, and that of lines 39-45
    has lists for values.  The call returns when [urlparse] reads the
    URL of the response. *)
Theorem csp_data_is_replicated_policy reqs expectation header csp parsed :
  headers_get (responses_auto reqs) "Content-Security-Policy" = Some header ->
  csp_parse header = Ok csp ->
  urlparse (url (responses_auto reqs)) = Ok parsed ->
  exists output,
    content_security_policy urlparse reqs expectation = Ok output
    /\ output !! "data" = Some (capped (PyDict (csp_replicate csp)))
    /\ (forall k v, csp !! k = Some v -> csp_replicate csp !! k = Some v)
    /\ (forall k, k ∈ ["default-src"; "script-src"; "style-src"] ->
          csp_replicate csp !! k = Some (resolved csp k))
    /\ (forall k, k ∉ ["default-src"; "script-src"; "style-src"] ->
          csp_replicate csp !! k = csp !! k).
Proof.
  intros Hhdr Hparse Hurl.
  destruct (csp_header_parsed _ expectation _ _ _ Hhdr Hparse Hurl)
    as (result & output & Hcall & _ & _ & Hdata & _).
  exists output. split; [done|]. split; [done|]. repeat split.
  - intros k v Hk. rewrite csp_replicate_lookup. unfold resolved.
    repeat case_decide; subst; by rewrite ?Hk.
  - intros k Hk. rewrite csp_replicate_lookup.
    repeat (apply elem_of_cons in Hk as [->|Hk]; [done|]).
    by apply elem_of_nil in Hk.
  - intros k Hk. rewrite csp_replicate_lookup.
    apply not_elem_of_cons in Hk as [Hk1 Hk].
    apply not_elem_of_cons in Hk as [Hk2 Hk].
    apply not_elem_of_cons in Hk as [Hk3 _].
    by repeat case_decide.
Qed.

(** *** X-Content-Type-Options and X-Frame-Options *)

Lemma xcto_returns reqs expectation :
  returns_verdict expectation (x_content_type_options reqs expectation).
Proof.
  unfold x_content_type_options.
  set (output := match headers_get _ _ with Some _ => _ | None => _ end).
  assert (exists r, output !! "result" = Some (PyStr r)) as [r Hr].
  { unfold output. repeat case_match; rewrite lookup_insert_eq; eauto. }
  assert (Hpre : pre_formed expectation output).
  { unfold output. repeat case_match; pre_formed_writes. }
  destruct (pass_if_in_verdict [expectation] _ _ _ Hpre Hr)
    as (out & Hcall & Hwf & _).
  by exists out.
Qed.

Lemma xfo_returns reqs expectation :
  url_parses urlparse (responses_auto reqs) ->
  returns_verdict expectation (x_frame_options urlparse reqs expectation).
Proof.
  intros Hurl. unfold x_frame_options.
  set (output := match headers_get _ _ with Some _ => _ | None => _ end).
  assert (exists r, output !! "result" = Some (PyStr r)) as [r Hr].
  { unfold output. repeat case_match; rewrite lookup_insert_eq; eauto. }
  assert (Hpre : pre_formed expectation output).
  { unfold output. repeat case_match; pre_formed_writes. }
  clearbody output.
  destruct (csp_returns_data reqs csp_default Hurl)
    as (csp & -> & _ & Hdata).
  simpl.
  assert (exists data via,
            csp !! "data" = Some data
            /\ (if truthy data then py_in "frame-ancestors" data
                else Ok false) = Ok via) as (data & via & Hd & Hvia).
  { destruct Hdata as [Hdata|[d Hdata]].
    - by exists PyNone, false.
    - exists (PyDict d). simpl. destruct (negb _); eauto. }
  rewrite (getitem_Some _ _ _ Hd). simpl. rewrite Hvia.
  simpl.
  destruct via.
  - edestruct (pass_if_in_verdict
                 ["x-frame-options-sameorigin-or-deny";
                  "x-frame-options-implemented-via-csp"; expectation]
                 expectation) as (out & Hcall & Hwf & _);
      [| |exists out; split; [exact Hcall|exact Hwf]].
    + pre_formed_writes.
    + apply lookup_insert_eq.
  - destruct (pass_if_in_verdict
                ["x-frame-options-sameorigin-or-deny";
                 "x-frame-options-implemented-via-csp"; expectation]
                _ _ _ Hpre Hr) as (out & Hcall & Hwf & _).
    by exists out.
Qed.

(** *** X-XSS-Protection *)

Lemma split_cons sep s : exists w ws, Py.split sep s = w :: ws.
Proof.
  destruct s as [|c s]; simpl; [eauto|].
  destruct (Ascii.eqb c sep); [eauto|].
  destruct (Py.split sep s); eauto.
Qed.

(** A string with the separator in it splits in two parts at least. *)
Lemma split_contains sep s :
  Py.contains (String sep EmptyString) s = true ->
  exists a b ws, Py.split sep s = a :: b :: ws.
Proof.
  induction s as [|c s IH]; simpl; [done|].
  destruct (Ascii.eqb_spec c sep) as [->|Hc].
  - intros _. destruct (split_cons sep s) as (w & ws & ->). eauto.
  - destruct (ascii_dec sep c) as [->|_]; [done|].
    simpl. intros Hs. destruct (IH Hs) as (a & b & ws & ->). eauto.
Qed.

Lemma xxssp_item_Ok d : exists kv, xxssp_item d = Ok kv.
Proof.
  unfold xxssp_item.
  destruct (Py.contains "=" d) eqn:Hd.
  - destruct (split_contains "=" d Hd) as (a & b & ws & ->). simpl. eauto.
  - destruct (split_cons "=" d) as (w & ws & ->). simpl. eauto.
Qed.

Lemma dict_comprehension_Ok {A} (item : A -> res (string * pyval)) l acc :
  (forall x, exists kv, item x = Ok kv) ->
  exists d, dict_comprehension item l acc = Ok d.
Proof.
  intros Hitem. revert acc.
  induction l as [|x l IH]; simpl; intros acc; [eauto|].
  destruct (Hitem x) as [kv ->]. simpl. apply IH.
Qed.

(** A header that starts with 0 or 1 parses. *)
Lemma xxssp_parse_Ok c rest :
  c = "0"%char \/ c = "1"%char ->
  exists d, xxssp_parse (String c rest) = Ok (Ascii.eqb c "1", d).
Proof.
  intros Hc. unfold xxssp_parse. simpl.
  destruct (dict_comprehension_Ok xxssp_item
              (Py.split ";" (String c rest)) ∅ xxssp_item_Ok) as [d Hd].
  exists d. destruct Hc as [-> | ->]; simpl in *; by rewrite Hd.
Qed.

(** A header that starts with anything else does not. *)
Lemma xxssp_parse_Raise c rest :
  c ≠ "0"%char -> c ≠ "1"%char ->
  xxssp_parse (String c rest) = Raise ValueError.
Proof.
  intros H0 H1. unfold xxssp_parse. simpl.
  destruct (Ascii.eqb_spec c "0"); [done|].
  destruct (Ascii.eqb_spec c "1"); [done|].
  done.
Qed.

(** Lines 421-431 on an [output] that does not pass yet: it passes
    with its result when that says enabled, and else takes the pass of
    the CSP verdict, and the result of line 429 with it. *)
Lemma xxssp_finish_verdict reqs expectation output r csp b :
  pre_formed expectation output ->
  output !! "pass" = Some (PyBool false) ->
  output !! "result" = Some (PyStr r) ->
  content_security_policy urlparse reqs csp_default = Ok csp ->
  csp !! "pass" = Some (PyBool b) ->
  exists out,
    xxssp_finish urlparse reqs output = Ok out
    /\ well_formed expectation out
    /\ out !! "pass" = Some (PyBool (Py.contains "enabled" r || b))
    /\ out !! "result"
       = Some (PyStr (if Py.contains "enabled" r then r
                      else if b then "x-xss-protection-not-needed-due-to-csp"
                      else r)).
Proof.
  intros Hpre Hpass Hres Hcsp Hb. unfold xxssp_finish.
  rewrite (getitem_Some _ _ _ Hres). simpl.
  destruct (Py.contains "enabled" r); simpl.
  - rewrite (getitem_Some _ "pass" (PyBool true)) by apply lookup_insert_eq.
    simpl. eexists. split_and!; try done.
    + split; [pre_formed_writes|]. rewrite lookup_insert_ne by done. eauto.
    + apply lookup_insert_eq.
    + by rewrite lookup_insert_ne.
  - rewrite (getitem_Some _ _ _ Hpass). simpl. rewrite Hcsp. simpl.
    rewrite (getitem_Some _ _ _ Hb). simpl.
    destruct b; simpl; eexists; split_and!; try done.
    + split; [pre_formed_writes|]. rewrite lookup_insert_eq. eauto.
    + rewrite lookup_insert_ne by done. apply lookup_insert_eq.
    + apply lookup_insert_eq.
    + split; [done|]. eauto.
Qed.

Lemma xxssp_returns reqs expectation :
  url_parses urlparse (responses_auto reqs) ->
  returns_verdict expectation (x_xss_protection urlparse reqs expectation).
Proof.
  intros Hurl. unfold x_xss_protection.
  destruct (csp_returns reqs csp_default Hurl)
    as (csp & Hcsp & (_ & _ & [b Hb]) & _).
  assert (Hfinish : forall output r,
            pre_formed expectation output ->
            output !! "pass" = Some (PyBool false) ->
            output !! "result" = Some (PyStr r) ->
            returns_verdict expectation (xxssp_finish urlparse reqs output)).
  { intros output r Hpre Hpass Hres.
    destruct (xxssp_finish_verdict reqs _ _ _ _ _ Hpre Hpass Hres Hcsp Hb)
      as (out & Hcall & Hwf & _).
    by exists out. }
  assert (Habsent : returns_verdict expectation
            (xxssp_finish urlparse reqs
               (<["result" := PyStr "x-xss-protection-not-implemented"]>
                  (new_output expectation)))).
  { eapply Hfinish; [pre_formed_writes|by simplify_map_eq|apply lookup_insert_eq]. }
  destruct (headers_get _ _) as [[|c rest]|]; [done| |done].
  destruct (xxssp_parse (String c rest)) as [[enabled d]|e].
  - destruct enabled; simpl; [case_match|];
      (eapply Hfinish;
       [pre_formed_writes|by simplify_map_eq|apply lookup_insert_eq]).
  - eexists; split; [done|]. split; [pre_formed_writes|].
    rewrite lookup_insert_eq. eauto.
Qed.

(** C7, as the code has it.  With a passing CSP verdict, a bundle
    without the header, with an empty one or with one that starts with
    0 gets pass and x-xss-protection-not-needed-due-to-csp.  A header
    that starts with anything but 0 or 1 is left at
    x-xss-protection-header-invalid without a pass, whatever the CSP
    verdict: line 409 returns before the CSP analyzer is asked. *)
Theorem xxssp_csp_fallback reqs expectation :
  let header := headers_get (responses_auto reqs) "X-XSS-Protection" in
  (field "pass" (content_security_policy urlparse reqs csp_default)
   = Some (PyBool true) ->
   header = None \/ header = Some EmptyString
   \/ (exists rest, header = Some (String "0" rest)) ->
   exists output,
     x_xss_protection urlparse reqs expectation = Ok output
     /\ output !! "pass" = Some (PyBool true)
     /\ output !! "result"
        = Some (PyStr "x-xss-protection-not-needed-due-to-csp"))
  /\ (forall c rest,
        header = Some (String c rest) -> c ≠ "0"%char -> c ≠ "1"%char ->
        exists output,
          x_xss_protection urlparse reqs expectation = Ok output
          /\ output !! "pass" = Some (PyBool false)
          /\ output !! "result"
             = Some (PyStr "x-xss-protection-header-invalid")).
Proof.
  intros header. split.
  2: { intros c rest Hh H0 H1. unfold x_xss_protection. fold header.
       rewrite Hh, (xxssp_parse_Raise c rest H0 H1).
       eexists; split; [done|]. by simplify_map_eq. }
  intros Hpass.
  destruct (content_security_policy urlparse reqs csp_default)
    as [csp|e] eqn:Hcsp; [|done].
  simpl in Hpass.
  assert (Hfinish : forall output r,
            pre_formed expectation output ->
            output !! "pass" = Some (PyBool false) ->
            output !! "result" = Some (PyStr r) ->
            Py.contains "enabled" r = false ->
            exists out,
              xxssp_finish urlparse reqs output = Ok out
              /\ out !! "pass" = Some (PyBool true)
              /\ out !! "result"
                 = Some (PyStr "x-xss-protection-not-needed-due-to-csp")).
  { intros output r Hpre Hp Hres Hr.
    destruct (xxssp_finish_verdict reqs _ _ _ _ _ Hpre Hp Hres Hcsp Hpass)
      as (out & Hcall & _ & Hpass' & Hres').
    rewrite Hr in Hpass', Hres'. eauto. }
  assert (Habsent : exists out,
            xxssp_finish urlparse reqs
              (<["result" := PyStr "x-xss-protection-not-implemented"]>
                 (new_output expectation)) = Ok out
            /\ out !! "pass" = Some (PyBool true)
            /\ out !! "result"
               = Some (PyStr "x-xss-protection-not-needed-due-to-csp")).
  { eapply Hfinish;
      [pre_formed_writes|by simplify_map_eq|apply lookup_insert_eq|done]. }
  unfold x_xss_protection. fold header.
  intros [-> | [-> | [rest ->]]]; [done..|].
  destruct (xxssp_parse_Ok "0" rest) as [d ->]; [by left|]. simpl.
  eapply Hfinish;
    [pre_formed_writes|by simplify_map_eq|apply lookup_insert_eq|done].
Qed.

(** *** Cookies *)

Lemma only_if_worse_value code v order :
  result_value v -> result_value (only_if_worse code v order).
Proof. intros Hv. unfold only_if_worse. case_match; [right; eauto|done]. Qed.

Lemma worsen_Ok expectation code output :
  cookie_output expectation output ->
  exists output',
    worsen code output = Ok output' /\ cookie_output expectation output'.
Proof.
  intros (Hpre & v & Hv & Hval). unfold worsen.
  rewrite (getitem_Some _ _ _ Hv). simpl.
  eexists; split; [done|]. split; [pre_formed_writes|].
  rewrite lookup_insert_eq. eauto using only_if_worse_value.
Qed.

Lemma cookie_checks_Ok expectation hsts cookie output :
  is_Some (httponly cookie) ->
  cookie_output expectation output ->
  exists output',
    cookie_checks hsts cookie output = Ok output'
    /\ cookie_output expectation output'.
Proof.
  intros [flag Hflag] Hout. unfold cookie_checks, get_httponly.
  rewrite Hflag. cbv zeta.
  generalize (existsb (fun i => Py.contains i (Py.lower (name cookie)))
                      ["login"; "sess"]).
  intros sessionid.
  assert (exists o1, (if negb (secure cookie) && hsts
                      then worsen "cookies-without-secure-flag-but-protected-by-hsts" output
                      else if negb (secure cookie)
                      then worsen "cookies-without-secure-flag" output
                      else Ok output) = Ok o1
                     /\ cookie_output expectation o1) as (o1 & -> & H1).
  { repeat case_match; eauto using worsen_Ok. }
  simpl.
  assert (exists o2, (if sessionid && negb (secure cookie) && hsts
                      then worsen "cookies-session-without-secure-flag-but-protected-by-hsts" o1
                      else if sessionid && negb (secure cookie)
                      then worsen "cookies-session-without-secure-flag" o1
                      else Ok o1) = Ok o2
                     /\ cookie_output expectation o2) as (o2 & -> & H2).
  { repeat case_match; eauto using worsen_Ok. }
  simpl. destruct sessionid; [|eauto]. simpl.
  destruct flag; simpl; eauto using worsen_Ok.
Qed.

Lemma derive_httponly_Ok cookie :
  cookie_contract cookie ->
  exists cookie',
    derive_httponly cookie = Ok cookie' /\ is_Some (httponly cookie').
Proof.
  intros Hc. unfold derive_httponly.
  destruct (httponly cookie) as [b|] eqn:Hb; [by eauto|].
  destruct Hc as [[? Hc]|[rest Hr]]; [by rewrite Hb in Hc|].
  rewrite Hr. eexists; split; [done|]. simpl. eauto.
Qed.

(** Under the contract the loop goes through all the cookies. *)
Lemma cookies_loop_Ok expectation hsts cs output jar :
  Forall cookie_contract cs ->
  cookie_output expectation output ->
  exists cs' output' jar',
    cookies_loop hsts cs output jar = (cs', Ok (output', jar'))
    /\ cookie_output expectation output'.
Proof.
  intros Hcs. revert output jar.
  induction Hcs as [|cookie cs Hc Hcs IH]; intros output jar Hout; simpl.
  - eauto.
  - destruct (derive_httponly_Ok cookie Hc) as (cookie' & -> & Hflag).
    destruct (cookie_checks_Ok expectation hsts cookie' output Hflag Hout)
      as (o1 & -> & H1).
    destruct (IH o1 (<[name cookie' := jar_entry cookie']> jar) H1)
      as (cs' & o2 & jar' & -> & H2).
    eauto.
Qed.

(** The pass of the HSTS verdict, as [cookies] reads it on line 124. *)
Lemma cookies_hsts reqs :
  https_url_parses urlparse reqs ->
  exists sts b,
    strict_transport_security is_hsts_preloaded urlparse reqs hsts_default
    = Ok sts
    /\ sts !! "pass" = Some (PyBool b).
Proof.
  intros Hurls.
  destruct (hsts_returns reqs hsts_default Hurls)
    as (sts & Hcall & (_ & _ & b & Hb) & _).
  eauto.
Qed.

Lemma cookies_returns reqs expectation :
  https_url_parses urlparse reqs ->
  Forall cookie_contract (session_cookies reqs) ->
  returns_verdict expectation
    (cookies is_hsts_preloaded urlparse reqs expectation).2.
Proof.
  intros Hurls Hcs. unfold cookies.
  destruct (cookies_hsts reqs Hurls) as (sts & b & -> & Hb). simpl.
  rewrite (getitem_Some _ _ _ Hb).
  destruct (session_cookies reqs) as [|cookie cs] eqn:Hjar; simpl.
  - edestruct (pass_if_in_verdict ["cookies-not-found"; expectation] expectation)
      as (out & Hcall & Hwf & _);
      [| |exists out; split; [exact Hcall|exact Hwf]].
    + pre_formed_writes.
    + apply lookup_insert_eq.
  - destruct (cookies_loop_Ok expectation b (cookie :: cs)
                (new_output expectation) ∅ Hcs)
      as (cs' & o1 & jar & Hloop & Hpre & v & Hv & Hval).
    { split; [pre_formed_writes|]. exists PyNone. split; [done|by left]. }
    simpl in Hloop. rewrite Hloop. simpl.
    rewrite (getitem_Some _ "result" v) by by rewrite lookup_insert_ne.
    simpl.
    set (o2 := if negb (truthy v) then _ else _).
    assert (exists r, o2 !! "result" = Some (PyStr r)) as [r Hr].
    { unfold o2. destruct Hval as [-> | [s ->]]; simpl.
      - eexists. apply lookup_insert_eq.
      - destruct (negb _); [eexists; apply lookup_insert_eq|].
        exists s. by rewrite lookup_insert_ne. }
    edestruct (pass_if_in_verdict ["cookies-not-found"; expectation]
                 expectation o2) as (out & Hcall & Hwf & _);
      [|exact Hr|exists out; split; [exact Hcall|exact Hwf]].
    unfold o2. destruct (negb _); pre_formed_writes.
Qed.

(** The loop over the cookies it has already gone through: they keep
    the flags they were given, and the outcome is the same. *)
Lemma cookies_loop_again hsts cs output jar cs' r :
  cookies_loop hsts cs output jar = (cs', r) ->
  cookies_loop hsts cs' output jar = (cs', r).
Proof.
  revert output jar cs' r.
  induction cs as [|cookie cs IH]; intros output jar cs' r; simpl.
  - by intros [= <- <-].
  - destruct (derive_httponly cookie) as [cookie'|e] eqn:Hd.
    + assert (Hd' : derive_httponly cookie' = Ok cookie').
      { unfold derive_httponly in *.
        destruct (httponly cookie) eqn:Hh.
        - injection Hd as <-. by rewrite Hh.
        - destruct (_rest cookie); [|done]. by injection Hd as <-. }
      destruct (cookie_checks hsts cookie' output) as [o1|e] eqn:Hc.
      * destruct (cookies_loop hsts cs o1 _) as [cs1 r1] eqn:Hl.
        intros [= <- <-]. simpl. rewrite Hd', Hc, (IH _ _ _ _ Hl). done.
      * intros [= <- <-]. simpl. by rewrite Hd', Hc.
    + intros [= <- <-]. simpl. by rewrite Hd.
Qed.

Lemma cookies_loop_nil hsts cs output jar :
  (cookies_loop hsts cs output jar).1 = [] <-> cs = [].
Proof.
  destruct cs as [|cookie cs]; simpl; [done|].
  destruct (derive_httponly cookie); [|done].
  destruct (cookie_checks _ _ _); [|done].
  by destruct (cookies_loop _ _ _ _).
Qed.

(** A second call of [cookies], on the bundle the first call left,
    gives the outcome of the first and leaves the bundle as it is. *)
Lemma cookies_again reqs expectation :
  let first := cookies is_hsts_preloaded urlparse reqs expectation in
  cookies is_hsts_preloaded urlparse first.1 expectation = first.
Proof.
  unfold cookies.
  destruct (let* sts := strict_transport_security _ _ reqs hsts_default in
            getitem sts "pass") as [hsts|e] eqn:Hsts; cbn -[cookies_loop].
  2: { by rewrite Hsts. }
  destruct (session_cookies reqs) as [|cookie cs] eqn:Hjar;
    cbn -[cookies_loop].
  { by rewrite Hsts, Hjar. }
  destruct (cookies_loop (truthy hsts) (cookie :: cs) _ _)
    as [cs' r] eqn:Hloop.
  cbn -[cookies_loop].
  assert (Hsame : strict_transport_security is_hsts_preloaded urlparse
                    (with_cookies reqs cs') hsts_default
                  = strict_transport_security is_hsts_preloaded urlparse
                    reqs hsts_default) by done.
  rewrite Hsame, Hsts.
  destruct cs' as [|cookie' cs'].
  { pose proof (proj1 (cookies_loop_nil (truthy hsts) (cookie :: cs)
                         (new_output expectation) ∅)) as Hnil.
    rewrite Hloop in Hnil. by specialize (Hnil eq_refl). }
  rewrite (cookies_loop_again _ _ _ _ _ _ Hloop). done.
Qed.

(** *** The six analyzers together *)

(** C6, as the code has it.  On a bundle within the input contract
    whose responses have URLs that [urlparse] reads, each of the six
    analyzers returns: no call raises, and what it returns is a verdict
    with data, the expectation, a boolean pass and a result that is a
    string.  The responses are within the contract by their type; the
    contract on the cookies is [cookie_contract], that on the URLs
    [url_contract]: lines 65 and 262 call [urlparse] outside every
    [try]. *)
Theorem analyzers_return_verdicts reqs expectation a :
  url_contract urlparse reqs ->
  Forall cookie_contract (session_cookies reqs) ->
  returns_verdict expectation
    (call is_hsts_preloaded urlparse a reqs expectation).2.
Proof.
  intros [Hauto Hhttps] Hcs. destruct a; simpl.
  - by apply csp_returns.
  - by apply cookies_returns.
  - by apply hsts_returns.
  - apply xcto_returns.
  - by apply xfo_returns.
  - by apply xxssp_returns.
Qed.


(** C10.  A second call of an analyzer, on the bundle as the first call
    left it, has the outcome of the first call and leaves the bundle as
    it found it.  Five analyzers do not write to the bundle; [cookies]
    gives the cookie objects their [httponly] attribute on the first
    call and finds on the second the values it would derive. *)
Theorem analyzers_idempotent a reqs expectation :
  let first := call is_hsts_preloaded urlparse a reqs expectation in
  call is_hsts_preloaded urlparse a first.1 expectation = first.
Proof. destruct a; try done. apply cookies_again. Qed.

End Properties.

(** ** The merge of results *)

Section Merge.

Variable order : list string.

Lemma index_of_lookup x i : index_of x order = Some i -> order !! i = Some x.
Proof.
  revert i. induction order as [|y l IH]; simpl; intros i; [done|].
  destruct (String.eqb_spec x y) as [->|Hne].
  - by intros [= <-].
  - destruct (index_of x l) as [j|]; simpl; [|done].
    intros [= <-]. by apply IH.
Qed.

Lemma index_of_elem x : x ∈ order -> is_Some (index_of x order).
Proof.
  induction order as [|y l IH]; simpl; intros Hx.
  - by apply elem_of_nil in Hx.
  - destruct (String.eqb_spec x y) as [->|Hne]; [eauto|].
    apply elem_of_cons in Hx as [->|Hx]; [done|].
    destruct (IH Hx) as [j ->]. simpl. eauto.
Qed.

(** A listed result is worse than the implicit best, and two listed
    results of one severity are one result. *)
Lemma severity_pos x : x ∈ order -> (0 < severity order x)%nat.
Proof.
  intros Hx. unfold severity.
  destruct (index_of_elem x Hx) as [i ->]. lia.
Qed.

Lemma severity_inj x y :
  x ∈ order -> severity order x = severity order y -> x = y.
Proof.
  intros Hx. unfold severity.
  destruct (index_of_elem x Hx) as [i Hi]. rewrite Hi.
  destruct (index_of y order) as [j|] eqn:Hj; [|done].
  intros [= <-].
  apply index_of_lookup in Hi, Hj. congruence.
Qed.

(** One step of the merge keeps the accumulator the worst so far. *)
Lemma only_if_worse_worst seen acc r :
  r ∈ order ->
  worst_of order seen acc ->
  worst_of order (seen ++ [r]) (only_if_worse r acc order).
Proof.
  intros Hr Hacc. unfold only_if_worse.
  destruct seen as [|s seen]; simpl in *.
  - subst acc. simpl.
    destruct (Nat.ltb_spec 0 (severity order r)) as [_|Hle].
    + exists r. split; [done|]. split; [by apply list_elem_of_here|].
      intros x Hx. apply list_elem_of_singleton in Hx as ->. done.
    + pose proof (severity_pos r Hr). lia.
  - destruct Hacc as (w & -> & Hw & Hmax). simpl.
    destruct (Nat.ltb_spec (severity order w) (severity order r)) as [Hlt|Hge].
    + exists r. split; [done|]. split.
      * rewrite app_comm_cons. apply elem_of_app. right.
        by apply list_elem_of_here.
      * intros x Hx. rewrite app_comm_cons in Hx.
        apply elem_of_app in Hx as [Hx|Hx].
        -- specialize (Hmax x Hx). lia.
        -- apply list_elem_of_singleton in Hx as ->. done.
    + exists w. split; [done|]. split.
      * rewrite app_comm_cons. apply elem_of_app. by left.
      * intros x Hx. rewrite app_comm_cons in Hx.
        apply elem_of_app in Hx as [Hx|Hx]; [by apply Hmax|].
        apply list_elem_of_singleton in Hx as ->. done.
Qed.

Lemma foldl_only_if_worse_worst seen acc results :
  Forall (fun r => r ∈ order) results ->
  worst_of order seen acc ->
  worst_of order (seen ++ results)
           (foldl (fun acc r => only_if_worse r acc order) acc results).
Proof.
  intros Hres. revert seen acc.
  induction Hres as [|r results Hr Hres IH]; intros seen acc Hacc; simpl.
  - by rewrite app_nil_r.
  - rewrite (cons_middle r seen results), app_assoc.
    apply IH. by apply only_if_worse_worst.
Qed.

Lemma merge_all_worst results :
  Forall (fun r => r ∈ order) results ->
  worst_of order results (merge_all order results).
Proof.
  intros Hres. apply (foldl_only_if_worse_worst [] PyNone results Hres).
  done.
Qed.

(** The worst of a sequence is that of its permutations. *)
Lemma worst_of_permutation results results' v v' :
  Forall (fun r => r ∈ order) results ->
  results ≡ₚ results' ->
  worst_of order results v -> worst_of order results' v' -> v = v'.
Proof.
  intros Hin Hperm Hv Hv'.
  destruct results as [|a l].
  { apply Permutation_nil_l in Hperm as <-. simpl in *. congruence. }
  destruct results' as [|a' l'].
  { by apply Permutation_nil_r in Hperm. }
  destruct Hv as (w & -> & Hw & Hmax).
  destruct Hv' as (w' & -> & Hw' & Hmax').
  f_equal. apply severity_inj.
  - rewrite Forall_forall in Hin. by apply Hin.
  - apply Nat.le_antisymm.
    + apply Hmax'. by rewrite <- Hperm.
    + apply Hmax. by rewrite Hperm.
Qed.

Lemma merge_all_permutation results results' :
  Forall (fun r => r ∈ order) results ->
  results ≡ₚ results' ->
  merge_all order results' = merge_all order results.
Proof.
  intros Hin Hperm. symmetry.
  apply (worst_of_permutation results results'); try done.
  - by apply merge_all_worst.
  - apply merge_all_worst. by rewrite <- Hperm.
Qed.

(** A candidate that is not strictly worse leaves the accumulator. *)
Lemma only_if_worse_keeps new old :
  (severity order new <= severity_of order old)%nat ->
  only_if_worse new old order = old.
Proof.
  intros Hle. unfold only_if_worse.
  destruct (Nat.ltb_spec (severity_of order old) (severity order new)); [lia|done].
Qed.

End Merge.

(** C9.  Folding results of the goodness order through [only_if_worse],
    from the empty accumulator, gives the worst result of the sequence
    (nothing when it is empty), and gives it for every permutation of
    the sequence; a candidate of the severity of the accumulator, as any
    candidate that is not strictly worse, leaves the accumulator as it
    is. *)
Theorem merge_all_goodness results results' :
  Forall (fun r => r ∈ goodness) results ->
  results ≡ₚ results' ->
  worst_of goodness results (merge_all goodness results)
  /\ merge_all goodness results' = merge_all goodness results
  /\ forall new old,
       severity goodness new = severity_of goodness old ->
       only_if_worse new old goodness = old.
Proof.
  intros Hin Hperm. split_and!.
  - by apply merge_all_worst.
  - by apply merge_all_permutation.
  - intros new old Htie. apply only_if_worse_keeps. by rewrite Htie.
Qed.

(** ** The analyzers on the example bundles *)

Ltac by_computation := vm_compute; reflexivity.

(** C1 at the boundary: the header [max-age=15552000], for which the
    claim expects hsts-implemented-max-age-at-least-six-months, and the
    header [max-age=15551999] both get hsts-header-invalid. *)
Lemma hsts_six_months_is_invalid :
  field "result"
    (strict_transport_security nothing_preloaded urlparse_basic
       (hsts_site "max-age=15552000") hsts_default)
  = Some (PyStr "hsts-header-invalid")
  /\ field "result"
       (strict_transport_security nothing_preloaded urlparse_basic
          (hsts_site "max-age=15551999") hsts_default)
     = Some (PyStr "hsts-header-invalid").
Proof.
  split.
  - destruct (hsts_header_present_is_invalid nothing_preloaded urlparse_basic
                (hsts_site "max-age=15552000") hsts_default
                (response "https://example.com/"
                   [("strict-transport-security", "max-age=15552000")])
                "max-age=15552000" https_example)
      as (output & Hcall & Hres); [by_computation..|].
    exact (field_Ok _ _ _ _ Hcall Hres).
  - destruct (hsts_header_present_is_invalid nothing_preloaded urlparse_basic
                (hsts_site "max-age=15551999") hsts_default
                (response "https://example.com/"
                   [("strict-transport-security", "max-age=15551999")])
                "max-age=15551999" https_example)
      as (output & Hcall & Hres); [by_computation..|].
    exact (field_Ok _ _ _ _ Hcall Hres).
Defined.

(** C2 at a header without the two tokens: both flags are None. *)
Lemma hsts_flags_of_max_age_only :
  field "includeSubDomains"
    (strict_transport_security nothing_preloaded urlparse_basic
       (hsts_site "max-age=31536000") hsts_default)
  = Some PyNone
  /\ field "preload"
       (strict_transport_security nothing_preloaded urlparse_basic
          (hsts_site "max-age=31536000") hsts_default)
     = Some PyNone.
Proof.
  destruct (hsts_flag_without_token_is_none nothing_preloaded urlparse_basic
              (hsts_site "max-age=31536000") hsts_default
              (response "https://example.com/"
                 [("strict-transport-security", "max-age=31536000")])
              "max-age=31536000" https_example)
    as (output & Hcall & Hsub & Hpre); [by_computation..|].
  split.
  - apply (field_Ok _ _ _ _ Hcall), Hsub.
    apply (bool_decide_unpack _). by_computation.
  - apply (field_Ok _ _ _ _ Hcall), Hpre.
    apply (bool_decide_unpack _). by_computation.
Defined.

(** The verdict on the header of scenario B of the spec: the flags are
    True and the max-age is read, the result is hsts-header-invalid and
    the verdict does not pass. *)
Example hsts_scenario_b :
  let verdict :=
    strict_transport_security nothing_preloaded urlparse_basic
      (hsts_site "max-age=31536000; includeSubDomains; preload") hsts_default in
  field "includeSubDomains" verdict = Some (PyBool true)
  /\ field "preload" verdict = Some (PyBool true)
  /\ field "max-age" verdict = Some (PyInt 31536000)
  /\ field "result" verdict = Some (PyStr "hsts-header-invalid")
  /\ field "pass" verdict = Some (PyBool false).
Proof. split_and!; by_computation. Qed.

(** C3 at a policy with a source over [http:] on a page over https. *)
Lemma csp_http_source_is_not_insecure_scheme :
  exists output,
    content_security_policy urlparse_basic
      (csp_site "https://example.com/" "default-src 'self' http://cdn.example.com")
      csp_default = Ok output
    /\ output !! "result" ≠ Some (PyStr "csp-implemented-with-insecure-scheme").
Proof.
  apply (csp_insecure_scheme_needs_directive_named_http urlparse_basic
           (csp_site "https://example.com/"
                     "default-src 'self' http://cdn.example.com")
           csp_default "default-src 'self' http://cdn.example.com"
           (<["default-src" := PyList ["'self'"; "http://cdn.example.com"]]> ∅)
           https_example);
    by_computation.
Defined.

(** The result the code gives there. *)
Example csp_http_source_result :
  let verdict :=
    content_security_policy urlparse_basic
      (csp_site "https://example.com/" "default-src 'self' http://cdn.example.com")
      csp_default in
  urlparse_basic "https://example.com/" = Ok https_example
  /\ field "result" verdict = Some (PyStr "csp-implemented-with-no-unsafe")
  /\ field "pass" verdict = Some (PyBool true).
Proof. split_and!; by_computation. Qed.

(** Line 65 does give its result to a header with a directive named
    [http:]. *)
Example csp_directive_named_http :
  field "result"
    (content_security_policy urlparse_basic
       (csp_site "https://example.com/" "default-src 'self'; http: x")
       csp_default)
  = Some (PyStr "csp-implemented-with-insecure-scheme").
Proof. by_computation. Qed.

(** C4 at a policy with ['unsafe-eval'] among the sources of script-src. *)
Lemma csp_unsafe_eval_source_is_not_unsafe_eval :
  exists output,
    content_security_policy urlparse_basic
      (csp_site "http://example.com/" "script-src 'self' 'unsafe-eval'")
      csp_default = Ok output
    /\ output !! "result" ≠ Some (PyStr "csp-implemented-with-unsafe-eval").
Proof.
  apply (csp_unsafe_eval_needs_directive_named_unsafe_eval urlparse_basic
           (csp_site "http://example.com/" "script-src 'self' 'unsafe-eval'")
           csp_default "script-src 'self' 'unsafe-eval'"
           (<["script-src" := PyList ["'self'"; "'unsafe-eval'"]]> ∅)
           http_example);
    by_computation.
Defined.

(** The result the code gives there. *)
Example csp_unsafe_eval_source_result :
  let verdict :=
    content_security_policy urlparse_basic
      (csp_site "http://example.com/" "script-src 'self' 'unsafe-eval'")
      csp_default in
  field "result" verdict = Some (PyStr "csp-implemented-with-no-unsafe")
  /\ field "pass" verdict = Some (PyBool true).
Proof. split_and!; by_computation. Qed.

(** The data of the verdict on a header with img-src alone. *)
Example csp_data_of_img_src :
  field "data"
    (content_security_policy urlparse_basic
       (csp_site "https://example.com/" "img-src 'self'") csp_default)
  = Some (PyDict (<["img-src" := PyList ["'self'"]]>
                 (<["default-src" := PyStr ""]>
                 (<["script-src" := PyStr ""]>
                 (<["style-src" := PyStr ""]> ∅))))).
Proof. by_computation. Qed.

(** C5 as the claim has it fails on that header: the data has the key
    script-src, the header has no such directive. *)
Lemma csp_data_has_keys_the_header_lacks :
  ~ csp_data_is_header_policy urlparse_basic
      (csp_site "https://example.com/" "img-src 'self'") csp_default.
Proof.
  intros Hclaim.
  destruct (Hclaim "img-src 'self'" (<["img-src" := PyList ["'self'"]]> ∅))
    as (output & d & Hcall & Hdata & Hkeys); [by_computation..|].
  pose proof csp_data_of_img_src as Hfield.
  rewrite Hcall in Hfield. cbn [field] in Hfield. rewrite Hdata in Hfield.
  injection Hfield as ->.
  destruct (proj1 (Hkeys "script-src")) as [v Hv]; [by eexists|].
  vm_compute in Hv. discriminate Hv.
Qed.

(** C5 on the code, at that header. *)
Lemma csp_data_of_img_src_is_replicated :
  field "data"
    (content_security_policy urlparse_basic
       (csp_site "https://example.com/" "img-src 'self'") csp_default)
  = Some (capped (PyDict (csp_replicate (<["img-src" := PyList ["'self'"]]> ∅)))).
Proof.
  destruct (csp_data_is_replicated_policy urlparse_basic
              (csp_site "https://example.com/" "img-src 'self'") csp_default
              "img-src 'self'" (<["img-src" := PyList ["'self'"]]> ∅)
              https_example)
    as (output & Hcall & Hdata & _); [by_computation..|].
  exact (field_Ok _ _ _ _ Hcall Hdata).
Defined.

(** On a response whose URL [urlparse] does not read, line 65 raises
    ValueError to the caller. *)
Example csp_raises_on_unread_url :
  urlparse_basic "https://[" = Raise ValueError
  /\ content_security_policy urlparse_basic
       (csp_site "https://[" "default-src 'self'") csp_default
     = Raise ValueError.
Proof. split; by_computation. Qed.

(** C6 as the spec has it fails there. *)
Lemma analyzers_raise_on_unread_url :
  ~ analyzers_never_raise nothing_preloaded urlparse_basic
      (csp_site "https://[" "default-src 'self'").
Proof.
  intros Hclaim.
  destruct (Hclaim (Forall_nil_2 _) CSP csp_default) as (output & Hcall & _).
  cbn [call snd] in Hcall.
  rewrite (proj2 csp_raises_on_unread_url) in Hcall. discriminate Hcall.
Qed.

(** C6 as the code has it, on a bundle with two responses and two
    cookies. *)
Lemma cookies_return_a_verdict :
  returns_verdict cookies_default
    (call nothing_preloaded urlparse_basic Cookies
       (jar_site (session_cookies cookie_site)) cookies_default).2.
Proof.
  apply analyzers_return_verdicts.
  - split.
    + exists http_example. by_computation.
    + intros response [= <-]. exists https_example. by_computation.
  - unfold jar_site, cookie_site, session_cookies.
    constructor; [right; by eexists|].
    constructor; [right; by eexists|].
    constructor.
Defined.

(** The verdict of scenario D of the spec: a session cookie without
    Secure, no https. *)
Example cookies_scenario_d :
  let verdict :=
    (cookies nothing_preloaded urlparse_basic cookie_site cookies_default).2 in
  field "result" verdict = Some (PyStr "cookies-session-without-secure-flag")
  /\ field "pass" verdict = Some (PyBool false).
Proof. split_and!; by_computation. Qed.

(** What the X-XSS-Protection analyzer makes of a header that does not
    parse, on a site whose policy passes. *)
Example xxssp_invalid_header :
  field "pass"
    (content_security_policy urlparse_basic (xxssp_site "2") csp_default)
  = Some (PyBool true)
  /\ field "pass" (x_xss_protection urlparse_basic (xxssp_site "2") xxssp_default)
     = Some (PyBool false)
  /\ field "result" (x_xss_protection urlparse_basic (xxssp_site "2") xxssp_default)
     = Some (PyStr "x-xss-protection-header-invalid").
Proof. split_and!; by_computation. Qed.

(** C7 as the spec has it fails there. *)
Lemma xxssp_invalid_header_ignores_csp :
  ~ xxssp_defers_to_csp urlparse_basic (xxssp_site "2") xxssp_default.
Proof.
  intros Hclaim.
  destruct xxssp_invalid_header as (Hcsp & Hpass & _).
  destruct (Hclaim Hcsp) as (r & Hpass' & _).
  rewrite Hpass in Hpass'. discriminate Hpass'.
Qed.

(** C7 as the code has it, on a header that disables the filter. *)
Lemma xxssp_disabled_defers_to_csp :
  field "result" (x_xss_protection urlparse_basic (xxssp_site "0") xxssp_default)
  = Some (PyStr "x-xss-protection-not-needed-due-to-csp").
Proof.
  destruct (xxssp_csp_fallback urlparse_basic (xxssp_site "0") xxssp_default)
    as [Hdefers _].
  destruct Hdefers as (output & Hcall & _ & Hres).
  - by_computation.
  - right. right. exists EmptyString. by_computation.
  - exact (field_Ok _ _ _ _ Hcall Hres).
Defined.


(** C9 on three results and the same three in another order. *)
Lemma merge_all_of_three :
  worst_of goodness
    ["cookies-without-secure-flag"; "cookies-session-without-httponly-flag";
     "cookies-without-secure-flag-but-protected-by-hsts"]
    (merge_all goodness
       ["cookies-without-secure-flag"; "cookies-session-without-httponly-flag";
        "cookies-without-secure-flag-but-protected-by-hsts"])
  /\ merge_all goodness
       ["cookies-session-without-httponly-flag"; "cookies-without-secure-flag";
        "cookies-without-secure-flag-but-protected-by-hsts"]
     = merge_all goodness
         ["cookies-without-secure-flag"; "cookies-session-without-httponly-flag";
          "cookies-without-secure-flag-but-protected-by-hsts"].
Proof.
  destruct (merge_all_goodness
              ["cookies-without-secure-flag";
               "cookies-session-without-httponly-flag";
               "cookies-without-secure-flag-but-protected-by-hsts"]
              ["cookies-session-without-httponly-flag";
               "cookies-without-secure-flag";
               "cookies-without-secure-flag-but-protected-by-hsts"])
    as (Hworst & Hperm & _).
  - unfold goodness. repeat constructor.
  - apply perm_swap.
  - split; [exact Hworst|exact Hperm].
Defined.

(** The merge there. *)
Example merge_all_of_three_value :
  merge_all goodness
    ["cookies-without-secure-flag"; "cookies-session-without-httponly-flag";
     "cookies-without-secure-flag-but-protected-by-hsts"]
  = PyStr "cookies-session-without-httponly-flag".
Proof. by_computation. Qed.

(** * Further properties of the analyzers *)

(** ** Content-Security-Policy: what makes the header invalid *)

Lemma lstrip_lstrip s : Py.lstrip (Py.lstrip s) = Py.lstrip s.
Proof.
  induction s as [|c s IH]; simpl; [done|].
  destruct (Py.isspace c) eqn:Hc; [done|]. simpl. by rewrite Hc.
Qed.

Lemma split_maxsplit1_nil s :
  Py.split_maxsplit1 s = [] <-> Py.lstrip s = EmptyString.
Proof.
  unfold Py.split_maxsplit1.
  destruct (Py.lstrip s) as [|c s1]; [done|].
  destruct (Py.span_word (String c s1)) as [w r].
  by destruct (Py.lstrip r).
Qed.

Lemma csp_item_Raise directive :
  (exists e, csp_item directive = Raise e) <-> directive = [].
Proof.
  unfold csp_item. destruct directive as [|d0 [|d1 l]]; simpl.
  - split; eauto.
  - split; [by intros [e He]|done].
  - split; [by intros [e He]|done].
Qed.

Lemma csp_item_Ok_or_Raise directive :
  directive ≠ [] -> exists kv, csp_item directive = Ok kv.
Proof.
  unfold csp_item. destruct directive as [|d0 [|d1 l]]; simpl; [done|eauto..].
Qed.

Lemma dict_comprehension_Raise {A} (item : A -> res (string * pyval)) l acc :
  (exists e, dict_comprehension item l acc = Raise e)
  <-> exists x e, x ∈ l /\ item x = Raise e.
Proof.
  revert acc. induction l as [|x l IH]; intros acc; simpl.
  - split; [by intros [e He]|]. intros (x & e & Hx & _). by apply elem_of_nil in Hx.
  - destruct (item x) as [kv|e] eqn:Hx; simpl.
    + rewrite IH. split.
      * intros (y & e & Hy & He). exists y, e. split; [by right|done].
      * intros (y & e & Hy & He). apply elem_of_cons in Hy as [->|Hy].
        -- congruence.
        -- eauto.
    + split; [|eauto]. intros _. exists x, e. split; [by left|done].
Qed.

(** A header fails to parse exactly when one of its segments is blank. *)
Lemma csp_parse_Raise header :
  (exists e, csp_parse header = Raise e)
  <-> exists d, d ∈ Py.split ";" header /\ blank_segment d.
Proof.
  unfold csp_parse. rewrite dict_comprehension_Raise. unfold csp_directives.
  split.
  - intros (x & e & Hx & He).
    apply list_elem_of_fmap in Hx as (d & -> & Hd).
    apply list_elem_of_filter in Hd as [Hne Hd].
    exists d. split; [done|]. split; [done|].
    assert (Hnil : Py.split_maxsplit1 (Py.strip d) = [])
      by (apply csp_item_Raise; eauto).
    apply split_maxsplit1_nil in Hnil.
    unfold Py.strip in *. by rewrite lstrip_lstrip in Hnil.
  - intros (d & Hd & Hne & Hblank).
    assert (Hnil : Py.split_maxsplit1 (Py.strip d) = []).
    { apply split_maxsplit1_nil. by rewrite Hblank. }
    destruct (proj2 (csp_item_Raise (Py.split_maxsplit1 (Py.strip d))) Hnil)
      as [e He].
    exists (Py.split_maxsplit1 (Py.strip d)), e. split; [|done].
    apply list_elem_of_fmap. exists d. split; [done|].
    by apply list_elem_of_filter.
Qed.

(** ** Content-Security-Policy: the verdict on a header that parses *)

Lemma existsb_eqb_elem x (l : list string) :
  existsb (String.eqb x) l = true <-> x ∈ l.
Proof.
  induction l as [|y l IH]; simpl.
  - split; [done|]. by intros ?%elem_of_nil.
  - rewrite orb_true_iff, IH, elem_of_cons.
    by destruct (String.eqb_spec x y); intuition.
Qed.

Lemma lower_char_lower_char c : Py.lower_char (Py.lower_char c) = Py.lower_char c.
Proof. by destruct c as [[] [] [] [] [] [] [] []]. Qed.

Lemma lower_lower s : Py.lower (Py.lower s) = Py.lower s.
Proof.
  induction s as [|c s IH]; simpl; [done|].
  by rewrite lower_char_lower_char, IH.
Qed.

Lemma dict_comprehension_keys {A} (P : string -> Prop)
    (item : A -> res (string * pyval)) l acc d :
  (forall x k v, item x = Ok (k, v) -> P k) ->
  (forall k, is_Some (acc !! k) -> P k) ->
  dict_comprehension item l acc = Ok d ->
  forall k, is_Some (d !! k) -> P k.
Proof.
  intros Hitem. revert acc.
  induction l as [|x l IH]; simpl; intros acc Hacc Hd.
  - by inversion Hd; subst.
  - destruct (item x) as [[k v]|e] eqn:Hx; simpl in Hd; [|done].
    apply (IH (<[k := v]> acc)); [|done].
    intros k'. rewrite lookup_insert. case_decide as Hk; [|by auto].
    intros _. subst k'. by apply (Hitem x k v).
Qed.

Section CspVerdict.
Variable is_hsts_preloaded : string -> bool.
Variable urlparse : string -> res ParseResult.

(** The tests of lines 61-72 as the booleans they branch on. *)
Lemma csp_tests_cases response header csp output :
  csp_parse header = Ok csp ->
  view (csp_replicate csp) output !! "data"
  = Some (PyDict (csp_replicate csp)) ->
  exists t1 t5,
    py_in "'unsafe-inline'" (resolved csp "script-src") = Ok t1
    /\ py_in "'unsafe-inline'" (resolved csp "style-src") = Ok t5
    /\ csp_tests urlparse response (csp_replicate csp) output
       = if t1 then Ok "csp-implemented-with-unsafe-inline"
         else if negb (truthy (resolved csp "default-src"))
                 && negb (truthy (resolved csp "script-src"))
         then Ok "csp-implemented-with-unsafe-inline"
         else
           let* parsed := urlparse (url response) in
           Ok (if String.eqb (scheme parsed) "https" && key_in "http:" csp
               then "csp-implemented-with-insecure-scheme"
               else if key_in "'unsafe-eval'" csp
               then "csp-implemented-with-unsafe-eval"
               else if t5
               then "csp-implemented-with-unsafe-inline-in-style-src-only"
               else "csp-implemented-with-no-unsafe").
Proof.
  intros Hparse Hdata.
  destruct (py_in_sources "'unsafe-inline'" _
              (resolved_sources header csp "script-src" Hparse)) as [t1 Ht1].
  destruct (py_in_sources "'unsafe-inline'" _
              (resolved_sources header csp "style-src" Hparse)) as [t5 Ht5].
  exists t1, t5. split; [done|]. split; [done|].
  unfold csp_tests, get_or. rewrite !csp_replicate_lookup; simpl.
  rewrite Ht1, Ht5, (getitem_Some _ _ _ Hdata). simpl.
  unfold key_in. rewrite !csp_replicate_lookup; simpl.
  destruct t1; simpl; [done|].
  destruct (negb (truthy (resolved csp "default-src"))
            && negb (truthy (resolved csp "script-src"))); [done|].
  destruct (urlparse (url response)) as [parsed|e]; simpl; [|done].
  destruct (String.eqb _ "https"); simpl;
    [destruct (csp !! "http:"); simpl; [done|]|];
    destruct (csp !! "'unsafe-eval'"); simpl; try done; by destruct t5.
Qed.

(** The verdict on a header that parses, from the outcome of the
    tests: their result, or the ValueError of [urlparse] on line 65,
    which the first two tests keep out of reach when they fire. *)
Lemma csp_header_verdict reqs expectation header csp :
  headers_get (responses_auto reqs) "Content-Security-Policy" = Some header ->
  csp_parse header = Ok csp ->
  exists t1 t5,
    py_in "'unsafe-inline'" (resolved csp "script-src") = Ok t1
    /\ py_in "'unsafe-inline'" (resolved csp "style-src") = Ok t5
    /\ let tests :=
         if t1 then Ok "csp-implemented-with-unsafe-inline"
         else if negb (truthy (resolved csp "default-src"))
                 && negb (truthy (resolved csp "script-src"))
         then Ok "csp-implemented-with-unsafe-inline"
         else
           let* parsed := urlparse (url (responses_auto reqs)) in
           Ok (if String.eqb (scheme parsed) "https" && key_in "http:" csp
               then "csp-implemented-with-insecure-scheme"
               else if key_in "'unsafe-eval'" csp
               then "csp-implemented-with-unsafe-eval"
               else if t5
               then "csp-implemented-with-unsafe-inline-in-style-src-only"
               else "csp-implemented-with-no-unsafe") in
       match tests with
       | Ok result =>
           exists output,
             content_security_policy urlparse reqs expectation = Ok output
             /\ output !! "result" = Some (PyStr result)
             /\ output !! "pass" = Some (PyBool (String.eqb result expectation))
             /\ output !! "expectation" = Some (PyStr expectation)
             /\ output !! "data" = Some (capped (PyDict (csp_replicate csp)))
       | Raise e =>
           content_security_policy urlparse reqs expectation = Raise e
       end.
Proof.
  intros Hhdr Hparse. unfold content_security_policy.
  rewrite Hhdr, Hparse.
  destruct (csp_tests_cases (responses_auto reqs) header csp
              (<["data" := CspObject]> (Val <$> new_output expectation))
              Hparse)
    as (t1 & t5 & Ht1 & Ht5 & Htests).
  { rewrite view_insert. apply lookup_insert_eq. }
  exists t1, t5. split; [done|]. split; [done|].
  rewrite Htests. cbv zeta.
  destruct (if t1 then _ else _) as [result|e]; [|done].
  cbn [res_bind]. rewrite !view_insert, view_Val. cbn [read].
  rewrite (getitem_Some _ "data" (PyDict (csp_replicate csp)))
    by by simplify_map_eq.
  cbn [res_bind]. rewrite !view_insert, view_Val. cbn [read].
  erewrite pass_if_in_Ok
    by (rewrite lookup_insert_ne by done; apply lookup_insert_eq).
  eexists. split; [done|].
  simpl. rewrite orb_false_r.
  destruct (String.eqb _ expectation); by simplify_map_eq.
Qed.
End CspVerdict.

Section CspProperties.
Variable is_hsts_preloaded : string -> bool.
Variable urlparse : string -> res ParseResult.

(** X1. A response without a Content-Security-Policy header gets
    csp-not-implemented and no data (line 80); the verdict passes exactly
    when that result is the one expected (lines 83-84). *)
Theorem csp_header_absent reqs expectation :
  headers_get (responses_auto reqs) "Content-Security-Policy" = None ->
  exists output,
    content_security_policy urlparse reqs expectation = Ok output
    /\ output !! "result" = Some (PyStr "csp-not-implemented")
    /\ output !! "data" = Some PyNone
    /\ output !! "pass"
       = Some (PyBool (String.eqb "csp-not-implemented" expectation)).
Proof.
  intros Hhdr. unfold content_security_policy. rewrite Hhdr.
  erewrite pass_if_in_Ok by apply lookup_insert_eq.
  eexists. split; [done|]. cbn [in_tuple existsb eq_str]. rewrite orb_false_r.
  destruct (String.eqb _ expectation); by simplify_map_eq.
Qed.

(** X2. A Content-Security-Policy header is reported as
    csp-header-invalid exactly when one of the segments between its
    semicolons is not empty and yet blank: [split(maxsplit=1)] gives no
    word for it, and [directive[0]] of line 48 raises into the bare
    [except] of line 51. *)
Theorem csp_header_invalid_iff_blank_segment reqs expectation header :
  headers_get (responses_auto reqs) "Content-Security-Policy" = Some header ->
  field "result" (content_security_policy urlparse reqs expectation)
  = Some (PyStr "csp-header-invalid")
  <-> exists d, d ∈ Py.split ";" header /\ blank_segment d.
Proof.
  intros Hhdr. rewrite <- csp_parse_Raise.
  destruct (csp_parse header) as [csp|e] eqn:Hparse.
  - destruct (csp_header_verdict urlparse reqs expectation header csp Hhdr Hparse)
      as (t1 & t5 & _ & _ & Hverdict).
    split; [|by intros [e He]].
    cbv zeta in Hverdict.
    destruct (if t1 then _ else _) as [result|e'] eqn:Htests.
    + destruct Hverdict as (output & -> & Hr & _).
      cbn [field]. rewrite Hr. intros [= ->].
      destruct t1; [done|]. destruct (negb _ && negb _); [done|].
      destruct (urlparse _); [|done].
      cbn [res_bind] in Htests. injection Htests as Htests.
      by repeat case_match.
    + by rewrite Hverdict.
  - unfold content_security_policy. rewrite Hhdr, Hparse. simpl.
    rewrite lookup_insert_eq. split; eauto.
Qed.

(** X3. A header with such a segment leaves through the [return] of
    line 53: no data is stored and the verdict does not pass, whatever
    the expectation, csp-header-invalid included. *)
Theorem csp_header_invalid_never_passes reqs expectation header d :
  headers_get (responses_auto reqs) "Content-Security-Policy" = Some header ->
  d ∈ Py.split ";" header ->
  blank_segment d ->
  exists output,
    content_security_policy urlparse reqs expectation = Ok output
    /\ output !! "result" = Some (PyStr "csp-header-invalid")
    /\ output !! "data" = Some PyNone
    /\ output !! "pass" = Some (PyBool false).
Proof.
  intros Hhdr Hd Hblank.
  destruct (proj2 (csp_parse_Raise header)) as [e Hparse]; [by eauto|].
  unfold content_security_policy. rewrite Hhdr, Hparse.
  eexists. split; [done|]. by simplify_map_eq.
Qed.

(** X4. When the sources that script-src resolves to, its own or
    those of default-src by lines 56-58, hold ['unsafe-inline'], the
    result is csp-implemented-with-unsafe-inline (line 61), whatever else
    the policy holds. *)
Theorem csp_unsafe_inline_in_script_src reqs expectation header csp l :
  headers_get (responses_auto reqs) "Content-Security-Policy" = Some header ->
  csp_parse header = Ok csp ->
  resolved csp "script-src" = PyList l ->
  "'unsafe-inline'" ∈ l ->
  exists output,
    content_security_policy urlparse reqs expectation = Ok output
    /\ output !! "result" = Some (PyStr "csp-implemented-with-unsafe-inline").
Proof.
  intros Hhdr Hparse Hscript Hin.
  destruct (csp_header_verdict urlparse reqs expectation header csp Hhdr Hparse)
    as (t1 & t5 & Ht1 & _ & Hverdict).
  rewrite Hscript in Ht1. cbn [py_in] in Ht1.
  rewrite (proj2 (existsb_eqb_elem _ _) Hin) in Ht1.
  injection Ht1 as <-.
  destruct Hverdict as (output & Hcall & Hr & _). eauto.
Qed.

(** X5. A policy whose default-src and script-src are both absent or
    without sources is reported as csp-implemented-with-unsafe-inline
    (line 63): nothing restricts scripts. *)
Theorem csp_without_script_restriction reqs expectation header csp :
  headers_get (responses_auto reqs) "Content-Security-Policy" = Some header ->
  csp_parse header = Ok csp ->
  csp !! "default-src" = None \/ csp !! "default-src" = Some (PyList []) ->
  csp !! "script-src" = None \/ csp !! "script-src" = Some (PyList []) ->
  exists output,
    content_security_policy urlparse reqs expectation = Ok output
    /\ output !! "result" = Some (PyStr "csp-implemented-with-unsafe-inline").
Proof.
  intros Hhdr Hparse Hdef Hscript.
  destruct (csp_header_verdict urlparse reqs expectation header csp Hhdr Hparse)
    as (t1 & t5 & Ht1 & _ & Hverdict).
  assert (Hd : truthy (resolved csp "default-src") = false).
  { unfold resolved, get_or. by destruct Hdef as [-> | ->]. }
  assert (Hs : truthy (resolved csp "script-src") = false).
  { unfold resolved, get_or.
    destruct Hscript as [-> | ->]; [|done]. by destruct Hdef as [-> | ->]. }
  rewrite Hd, Hs in Hverdict.
  destruct t1; destruct Hverdict as (output & Hcall & Hr & _); eauto.
Qed.

(** X6. What csp-implemented-with-no-unsafe guarantees: neither
    script-src nor style-src resolves to sources holding
    ['unsafe-inline'], and default-src or script-src has sources. *)
Theorem csp_no_unsafe_is_sound reqs expectation header csp output :
  headers_get (responses_auto reqs) "Content-Security-Policy" = Some header ->
  csp_parse header = Ok csp ->
  content_security_policy urlparse reqs expectation = Ok output ->
  output !! "result" = Some (PyStr "csp-implemented-with-no-unsafe") ->
  (forall l, resolved csp "script-src" = PyList l -> "'unsafe-inline'" ∉ l)
  /\ (forall l, resolved csp "style-src" = PyList l -> "'unsafe-inline'" ∉ l)
  /\ (truthy (resolved csp "default-src") = true
      \/ truthy (resolved csp "script-src") = true).
Proof.
  intros Hhdr Hparse Hcall Hnu.
  destruct (csp_header_verdict urlparse reqs expectation header csp Hhdr Hparse)
    as (t1 & t5 & Ht1 & Ht5 & Hverdict).
  cbv zeta in Hverdict.
  destruct (if t1 then _ else _) as [result|e] eqn:Htests;
    [|by rewrite Hcall in Hverdict].
  destruct Hverdict as (output' & Hcall' & Hr & _).
  rewrite Hcall in Hcall'. injection Hcall' as <-.
  rewrite Hnu in Hr. injection Hr as <-.
  destruct t1; [done|].
  assert (Hrest : negb (truthy (resolved csp "default-src"))
                  && negb (truthy (resolved csp "script-src")) = false
                  /\ t5 = false).
  { destruct (negb _ && negb _); [done|].
    destruct (urlparse _); [|done].
    cbn [res_bind] in Htests. injection Htests as Htests.
    destruct (String.eqb _ "https" && key_in "http:" csp); [done|].
    destruct (key_in "'unsafe-eval'" csp); [done|].
    by destruct t5. }
  destruct Hrest as [Hrule2 ->]. split_and!.
  - intros l Hl Hin. apply existsb_eqb_elem in Hin.
    rewrite Hl in Ht1. cbn [py_in] in Ht1. congruence.
  - intros l Hl Hin. apply existsb_eqb_elem in Hin.
    rewrite Hl in Ht5. cbn [py_in] in Ht5. congruence.
  - destruct (truthy (resolved csp "default-src")); [by left|].
    destruct (truthy (resolved csp "script-src")); [by right|done].
Qed.

(** X7. Every key of the policy a verdict carries is in lower case:
    line 48 lower-cases the directive names, and lines 56-58 add
    lower-case names only. *)
Theorem csp_data_keys_are_lower_case reqs expectation header csp output d k :
  headers_get (responses_auto reqs) "Content-Security-Policy" = Some header ->
  csp_parse header = Ok csp ->
  content_security_policy urlparse reqs expectation = Ok output ->
  output !! "data" = Some (PyDict d) ->
  is_Some (d !! k) ->
  Py.lower k = k.
Proof.
  intros Hhdr Hparse Hcall Hdata Hk.
  destruct (csp_header_verdict urlparse reqs expectation header csp Hhdr Hparse)
    as (t1 & t5 & _ & _ & Hverdict).
  cbv zeta in Hverdict.
  destruct (if t1 then _ else _) as [result|e];
    [|by rewrite Hcall in Hverdict].
  destruct Hverdict as (output' & Hcall' & _ & _ & _ & Hdata').
  rewrite Hcall in Hcall'. injection Hcall' as <-.
  rewrite Hdata in Hdata'. injection Hdata' as Hd.
  unfold capped in Hd.
  destruct (len_str _ <? 32768); injection Hd as ->;
    [|by rewrite lookup_empty in Hk; destruct Hk].
  rewrite csp_replicate_lookup in Hk.
  repeat (case_decide; [by subst|]).
  unfold csp_parse in Hparse.
  eapply (dict_comprehension_keys (fun k => Py.lower k = k)); [| |exact Hparse|exact Hk].
  - intros x k' v. unfold csp_item.
    destruct (Py.list_index x 0); simpl; [|done].
    destruct (if (1 <? length x)%nat then _ else _); simpl; [|done].
    intros [= <- _]. apply lower_lower.
  - intros k' [v Hv]. by rewrite lookup_empty in Hv.
Qed.
End CspProperties.

(** ** Strict-Transport-Security: the result *)

Lemma sts_loop_frame data output k :
  k ∉ sts_keys ->
  (for_each sts_parameter (sts_tokens data) output).1 !! k = output !! k.
Proof.
  intros Hk. apply writes_for_each with (keys := sts_keys); [|done].
  apply Forall_forall. intros p _. apply writes_sts_parameter.
Qed.

Section HstsResults.
Variable is_hsts_preloaded : string -> bool.
Variable urlparse : string -> res ParseResult.

(** The result of the HSTS analyzer, which the content of the header has
    no part in, and the pass that goes with it; [preloaded] is what
    line 262 finds, where it is reached and [urlparse] reads the URL. *)
Lemma hsts_result_cases reqs expectation preloaded :
  match responses_https reqs with
  | Some response =>
      exists parsed,
        urlparse (url response) = Ok parsed
        /\ preloaded = is_hsts_preloaded (netloc parsed)
  | None => preloaded = false
  end ->
  let result :=
    match responses_https reqs with
    | None => "hsts-not-implemented-no-https"
    | Some response =>
        if preloaded
        then "hsts-preloaded"
        else match headers_get response "Strict-Transport-Security" with
             | Some _ => "hsts-header-invalid"
             | None => "hsts-not-implemented"
             end
    end in
  exists output,
    strict_transport_security is_hsts_preloaded urlparse reqs expectation
    = Ok output
    /\ output !! "result" = Some (PyStr result)
    /\ output !! "pass"
       = Some (PyBool (in_tuple (PyStr result)
                         ["hsts-implemented-max-age-at-least-six-months";
                          "hsts-preloaded"; expectation]))
    /\ output !! "preloaded" = Some (PyBool preloaded).
Proof.
  intros Hurl result. unfold strict_transport_security.
  assert (Hfinish : forall output : gmap string pyval,
            output !! "result" = Some (PyStr result) ->
            output !! "pass" = Some (PyBool false) ->
            forall p, output !! "preloaded" = Some (PyBool p) ->
            exists out,
              pass_if_in ["hsts-implemented-max-age-at-least-six-months";
                          "hsts-preloaded"; expectation] output = Ok out
              /\ out !! "result" = Some (PyStr result)
              /\ out !! "pass"
                 = Some (PyBool (in_tuple (PyStr result)
                           ["hsts-implemented-max-age-at-least-six-months";
                            "hsts-preloaded"; expectation]))
              /\ out !! "preloaded" = Some (PyBool p)).
  { intros output Hr Hp p Hpre. rewrite (pass_if_in_Ok _ _ _ Hr).
    eexists. split; [done|].
    destruct (in_tuple _ _); by simplify_map_eq. }
  subst result.
  destruct (responses_https reqs) as [response|].
  2: { subst preloaded. cbn [res_bind]. apply Hfinish; by simplify_map_eq. }
  destruct Hurl as (parsed & -> & ->).
  destruct (headers_get response "Strict-Transport-Security") as [header|].
  - destruct (hsts_try_except (Py.slice_to 1024 header)
                (<["data" := PyStr (Py.slice_to 1024 header)]>
                   (hsts_output expectation)))
      as (o2 & -> & Hframe).
    { rewrite lookup_insert_ne by done. by rewrite hsts_output_lookup. }
    cbn [res_bind].
    assert (Hp : o2 !! "pass" = Some (PyBool false)).
    { rewrite Hframe by done. rewrite sts_loop_frame by (unfold sts_keys; not_in_keys).
      by simplify_map_eq. }
    assert (Hpre : o2 !! "preloaded" = Some (PyBool false)).
    { rewrite Hframe by done. rewrite sts_loop_frame by (unfold sts_keys; not_in_keys).
      by simplify_map_eq. }
    destruct (is_hsts_preloaded _); cbn [res_bind];
      apply Hfinish; by simplify_map_eq.
  - cbn [res_bind].
    destruct (is_hsts_preloaded _); cbn [res_bind];
      apply Hfinish; by simplify_map_eq.
Qed.

(** The ValueError of [urlparse] on line 262 goes to the caller. *)
Lemma hsts_raises reqs expectation response e :
  responses_https reqs = Some response ->
  urlparse (url response) = Raise e ->
  strict_transport_security is_hsts_preloaded urlparse reqs expectation
  = Raise e.
Proof.
  intros Hresp Hurl. unfold strict_transport_security. rewrite Hresp, Hurl.
  destruct (headers_get response "Strict-Transport-Security") as [header|];
    [|done].
  destruct (hsts_try_except (Py.slice_to 1024 header)
              (<["data" := PyStr (Py.slice_to 1024 header)]>
                 (hsts_output expectation)))
    as (o2 & -> & _); [|done].
  rewrite lookup_insert_ne by done. by rewrite hsts_output_lookup.
Qed.

(** X8. Without a response over https the result is
    hsts-not-implemented-no-https, [preloaded] stays False, and the
    verdict passes exactly when that result is the one expected. *)
Theorem hsts_without_https reqs expectation :
  responses_https reqs = None ->
  exists output,
    strict_transport_security is_hsts_preloaded urlparse reqs expectation
    = Ok output
    /\ output !! "result" = Some (PyStr "hsts-not-implemented-no-https")
    /\ output !! "preloaded" = Some (PyBool false)
    /\ output !! "pass"
       = Some (PyBool (String.eqb "hsts-not-implemented-no-https" expectation)).
Proof.
  intros Hresp.
  destruct (hsts_result_cases reqs expectation false)
    as (output & Hcall & Hr & Hp & Hpre); [by rewrite Hresp|].
  rewrite Hresp in *. exists output. split_and!; try done.
  rewrite Hp. cbn [in_tuple existsb eq_str].
  by rewrite orb_false_r.
Qed.

(** X9. A host on the preload list, as [urlparse] reads it off the
    URL, gets hsts-preloaded, [preloaded] True and a pass, whatever
    header it sends and whatever is expected (lines 261-264). *)
Theorem hsts_preloaded_overrides reqs expectation response parsed :
  responses_https reqs = Some response ->
  urlparse (url response) = Ok parsed ->
  is_hsts_preloaded (netloc parsed) = true ->
  exists output,
    strict_transport_security is_hsts_preloaded urlparse reqs expectation
    = Ok output
    /\ output !! "result" = Some (PyStr "hsts-preloaded")
    /\ output !! "preloaded" = Some (PyBool true)
    /\ output !! "pass" = Some (PyBool true).
Proof.
  intros Hresp Hurl Hpre.
  destruct (hsts_result_cases reqs expectation true)
    as (output & Hcall & Hr & Hp & Hpre'); [rewrite Hresp; eauto|].
  rewrite Hresp in *. exists output. split_and!; done.
Qed.

(** X10. Under the default expectation the verdict passes exactly when
    there is a response over https whose host, as [urlparse] reads it
    off the URL, is on the preload list: a header alone never
    suffices.  This pass is the flag [cookies] reads at line 124. *)
Theorem hsts_default_passes_iff_preloaded reqs :
  field "pass"
    (strict_transport_security is_hsts_preloaded urlparse reqs hsts_default)
  = Some (PyBool true)
  <-> exists response parsed,
        responses_https reqs = Some response
        /\ urlparse (url response) = Ok parsed
        /\ is_hsts_preloaded (netloc parsed) = true.
Proof.
  destruct (responses_https reqs) as [response|] eqn:Hresp.
  - destruct (urlparse (url response)) as [parsed|e] eqn:Hurl.
    + destruct (hsts_result_cases reqs hsts_default
                  (is_hsts_preloaded (netloc parsed)))
        as (output & -> & _ & Hp & _); [rewrite Hresp; eauto|].
      cbn [field]. rewrite Hp, Hresp.
      destruct (is_hsts_preloaded _) eqn:Hpre.
      * split; [eauto 6|done].
      * destruct (headers_get _ _); (split; [done|]);
          intros (r & p & [= <-] & Hp' & Hr); congruence.
    + rewrite (hsts_raises _ _ _ _ Hresp Hurl). split; [done|].
      intros (r & p & [= <-] & Hp' & _). congruence.
  - destruct (hsts_result_cases reqs hsts_default false)
      as (output & -> & _ & Hp & _); [by rewrite Hresp|].
    cbn [field]. rewrite Hp, Hresp. split; [done|].
    by intros (r & p & Hr & _).
Qed.
End HstsResults.

(** ** Strict-Transport-Security: the flags, and the data kept *)

(** The loop never takes back a flag: what it writes under a key other
    than max-age is True. *)
Lemma sts_parameter_keeps_true p output k :
  k ≠ "max-age" ->
  output !! k = Some (PyBool true) ->
  (sts_parameter p output).1 !! k = Some (PyBool true).
Proof.
  intros Hk Ho. unfold sts_parameter.
  destruct (Py.startswith p "max-age=").
  { unfold M_bind, lift. destruct (Py.int _); simpl; [|done].
    by rewrite lookup_insert_ne. }
  repeat case_match; simpl; try done;
    rewrite lookup_insert; by case_decide.
Qed.

Lemma sts_loop_keeps_true l output k :
  k ≠ "max-age" ->
  output !! k = Some (PyBool true) ->
  (for_each sts_parameter l output).1 !! k = Some (PyBool true).
Proof.
  intros Hk. revert output.
  induction l as [|p l IH]; intros output Ho; simpl; [done|].
  unfold M_bind.
  pose proof (sts_parameter_keeps_true p output k Hk Ho) as Hp.
  destruct (sts_parameter p output) as [o1 [u|e]]; simpl in *; [|done].
  by apply IH.
Qed.

Lemma sts_parameter_reads p output :
  max_age_reads p -> exists o1, sts_parameter p output = (o1, Ok tt).
Proof.
  intros Hp. unfold sts_parameter, max_age_reads in *.
  destruct (Py.startswith p "max-age=").
  { destruct Hp as [n Hn]; [done|]. unfold M_bind, lift. rewrite Hn.
    simpl. eauto. }
  repeat case_match; simpl; eauto.
Qed.

(** A token among parameters that all read sets its flag. *)
Lemma sts_loop_sets_flag token flag l output :
  (token = "includesubdomains" /\ flag = "includeSubDomains")
  \/ (token = "preload" /\ flag = "preload") ->
  token ∈ l ->
  Forall max_age_reads l ->
  (for_each sts_parameter l output).1 !! flag = Some (PyBool true).
Proof.
  intros Htf Hin Hall. revert output.
  induction Hall as [|p l Hp Hall IH]; intros output.
  { by apply elem_of_nil in Hin. }
  simpl. unfold M_bind.
  destruct (decide (p = token)) as [->|Hne].
  - assert (Hset : exists o1, sts_parameter token output = (o1, Ok tt)
                              /\ o1 !! flag = Some (PyBool true)).
    { unfold sts_parameter.
      destruct Htf as [[-> ->]|[-> ->]]; simpl; eexists; (split; [done|]);
        apply lookup_insert_eq. }
    destruct Hset as (o1 & -> & Ho1). simpl.
    apply sts_loop_keeps_true; [|done].
    by destruct Htf as [[_ ->]|[_ ->]].
  - apply elem_of_cons in Hin as [->|Hin]; [done|].
    destruct (sts_parameter_reads p output Hp) as [o1 ->]. simpl.
    by apply IH.
Qed.

Lemma substring_length m s : (String.length (String.substring 0 m s) <= m)%nat.
Proof.
  revert s. induction m as [|m IH]; intros [|c s]; simpl; try lia.
  specialize (IH s). lia.
Qed.

Lemma substring_prefix m s : String.prefix (String.substring 0 m s) s = true.
Proof.
  revert s. induction m as [|m IH]; intros [|c s]; simpl; try done.
  destruct (ascii_dec c c); [apply IH|done].
Qed.

Lemma substring_short m s :
  (String.length s <= m)%nat -> String.substring 0 m s = s.
Proof.
  revert s. induction m as [|m IH]; intros [|c s]; simpl; try done; try lia.
  intros Hle. f_equal. apply IH. lia.
Qed.

(** [s[0:n]] is the start of [s], of [n] characters at most. *)
Lemma slice_to_capped n s :
  0 <= n ->
  Py.len (Py.slice_to n s) <= n
  /\ String.prefix (Py.slice_to n s) s = true.
Proof.
  intros Hn. unfold Py.len, Py.slice_to. split; [|apply substring_prefix].
  pose proof (substring_length (Z.to_nat n) s). lia.
Qed.

Lemma lower_length s : String.length (Py.lower s) = String.length s.
Proof. induction s as [|c s IH]; simpl; [done|]. by rewrite IH. Qed.

Section HstsFlags.
Variable is_hsts_preloaded : string -> bool.
Variable urlparse : string -> res ParseResult.

(** X11. A parameter [includesubdomains] or [preload] of the header,
    in any case and with blanks around it, leaves its flag True in the
    verdict (lines 238-241), provided [int] reads every max-age
    parameter, so that the loop reaches it, and [urlparse] reads the
    URL of the response for line 262. *)
Theorem hsts_flag_with_token_is_true reqs expectation response header parsed :
  responses_https reqs = Some response ->
  headers_get response "Strict-Transport-Security" = Some header ->
  urlparse (url response) = Ok parsed ->
  Forall max_age_reads (sts_tokens (Py.slice_to 1024 header)) ->
  exists output,
    strict_transport_security is_hsts_preloaded urlparse reqs expectation
    = Ok output
    /\ ("includesubdomains" ∈ sts_tokens (Py.slice_to 1024 header) ->
        output !! "includeSubDomains" = Some (PyBool true))
    /\ ("preload" ∈ sts_tokens (Py.slice_to 1024 header) ->
        output !! "preload" = Some (PyBool true)).
Proof.
  intros Hresp Hhdr Hurl Hreads.
  destruct (hsts_header_present is_hsts_preloaded urlparse
              _ expectation _ _ _ Hresp Hhdr Hurl)
    as (output & Hcall & _ & _ & Hframe).
  exists output. split; [done|]. split; intros Hin.
  - rewrite Hframe by not_in_keys.
    apply (sts_loop_sets_flag "includesubdomains"); auto.
  - rewrite Hframe by not_in_keys.
    apply (sts_loop_sets_flag "preload"); auto.
Qed.

End HstsFlags.

(** ** X-Content-Type-Options *)

Lemma substring_length_full m s :
  (m <= String.length s)%nat -> String.length (String.substring 0 m s) = m.
Proof.
  revert s. induction m as [|m IH]; intros [|c s]; simpl; try done; try lia.
  intros Hle. f_equal. apply IH. lia.
Qed.

(** Lower-casing the first [m] characters gives a string shorter than [m]
    only when it gives the whole string. *)
Lemma lower_slice_eqb m s w :
  (String.length w < m)%nat ->
  String.eqb (Py.lower (String.substring 0 m s)) w = String.eqb (Py.lower s) w.
Proof.
  intros Hw.
  destruct (Nat.le_gt_cases (String.length s) m) as [Hle|Hgt].
  { by rewrite substring_short. }
  destruct (String.eqb_spec (Py.lower (String.substring 0 m s)) w) as [H1|H1].
  { apply (f_equal String.length) in H1.
    rewrite lower_length, substring_length_full in H1; lia. }
  destruct (String.eqb_spec (Py.lower s) w) as [H2|H2]; [|done].
  apply (f_equal String.length) in H2. rewrite lower_length in H2. lia.
Qed.

Section ContentTypeOptions.
Variable is_hsts_preloaded : string -> bool.
Variable urlparse : string -> res ParseResult.

(** X13. X-Content-Type-Options is compared without regard to case:
    the result is x-content-type-options-nosniff exactly when the whole
    header, lower-cased, is [nosniff] (the cut at 256 characters never
    makes a longer header equal to it), x-content-type-options-header-invalid
    otherwise; the verdict passes exactly when the result is the one
    expected. *)
Theorem xcto_nosniff_up_to_case reqs expectation header :
  headers_get (responses_auto reqs) "X-Content-Type-Options" = Some header ->
  exists output result,
    x_content_type_options reqs expectation = Ok output
    /\ result = (if String.eqb (Py.lower header) "nosniff"
                 then "x-content-type-options-nosniff"
                 else "x-content-type-options-header-invalid")
    /\ output !! "result" = Some (PyStr result)
    /\ output !! "pass" = Some (PyBool (String.eqb result expectation)).
Proof.
  intros Hhdr. unfold x_content_type_options. rewrite Hhdr.
  unfold Py.slice_to. rewrite (lower_slice_eqb _ header "nosniff") by (simpl; lia).
  destruct (String.eqb (Py.lower header) "nosniff");
    (erewrite pass_if_in_Ok by apply lookup_insert_eq);
    cbn [in_tuple existsb eq_str]; rewrite orb_false_r;
    eexists _, _; (split; [done|]); (split; [done|]);
    (destruct (String.eqb _ expectation); by simplify_map_eq).
Qed.
End ContentTypeOptions.

(** ** X-Frame-Options *)

Section FrameOptionsCases.
Variable is_hsts_preloaded : string -> bool.
Variable urlparse : string -> res ParseResult.

(** The verdict on X-Frame-Options from the result the header gets and
    the data of the CSP verdict, on a response whose URL [urlparse]
    reads, so that the CSP analyzer returns. *)
Lemma xfo_cases reqs expectation :
  url_parses urlparse (responses_auto reqs) ->
  let header_result :=
    match headers_get (responses_auto reqs) "X-Frame-Options" with
    | Some header =>
        if in_tuple (PyStr (Py.lower (Py.slice_to 1024 header)))
                    ["deny"; "sameorigin"]
        then "x-frame-options-sameorigin-or-deny"
        else if Py.contains "allow-from " (Py.lower (Py.slice_to 1024 header))
        then "x-frame-options-allow-from-origin"
        else "x-frame-options-header-invalid"
    | None => "x-frame-options-not-implemented"
    end in
  exists csp via output,
    content_security_policy urlparse reqs csp_default = Ok csp
    /\ via = match csp !! "data" with
             | Some (PyDict d) =>
                 negb (bool_decide (d = ∅)) && key_in "frame-ancestors" d
             | _ => false
             end
    /\ x_frame_options urlparse reqs expectation = Ok output
    /\ output !! "result"
       = Some (PyStr (if via then "x-frame-options-implemented-via-csp"
                      else header_result))
    /\ output !! "pass"
       = Some (PyBool (in_tuple
                         (PyStr (if via then "x-frame-options-implemented-via-csp"
                                 else header_result))
                         ["x-frame-options-sameorigin-or-deny";
                          "x-frame-options-implemented-via-csp"; expectation]))
    /\ output !! "data"
       = Some match headers_get (responses_auto reqs) "X-Frame-Options" with
              | Some header => PyStr (Py.slice_to 1024 header)
              | None => PyNone
              end.
Proof.
  intros Hurl header_result. unfold x_frame_options.
  set (output := match headers_get _ "X-Frame-Options" with
                 | Some _ => _ | None => _ end).
  assert (Hout : output !! "result" = Some (PyStr header_result)
                 /\ output !! "pass" = Some (PyBool false)
                 /\ output !! "data"
                    = Some match headers_get (responses_auto reqs) "X-Frame-Options" with
                           | Some header => PyStr (Py.slice_to 1024 header)
                           | None => PyNone
                           end).
  { unfold output, header_result.
    destruct (headers_get _ "X-Frame-Options"); [|by simplify_map_eq].
    destruct (in_tuple _ _); [by simplify_map_eq|].
    destruct (Py.contains _ _); by simplify_map_eq. }
  clearbody output. destruct Hout as (Hr & Hp & Hd).
  destruct (csp_returns_data urlparse reqs csp_default Hurl)
    as (csp & Hcsp & _ & Hdata).
  exists csp. eexists. exists
    (let via := match csp !! "data" with
                | Some (PyDict d) =>
                    negb (bool_decide (d = ∅)) && key_in "frame-ancestors" d
                | _ => false
                end in
     let o1 := if via
               then <["result" := PyStr "x-frame-options-implemented-via-csp"]> output
               else output in
     if in_tuple (PyStr (if via then "x-frame-options-implemented-via-csp"
                         else header_result))
                 ["x-frame-options-sameorigin-or-deny";
                  "x-frame-options-implemented-via-csp"; expectation]
     then <["pass" := PyBool true]> o1 else o1).
  split; [done|]. split; [done|].
  rewrite Hcsp. cbn [res_bind].
  destruct Hdata as [Hdata|[d Hdata]]; rewrite Hdata;
    rewrite (getitem_Some _ _ _ Hdata); cbn [res_bind truthy py_in].
  - rewrite (pass_if_in_Ok _ _ _ Hr). cbn zeta.
    split; [done|]. destruct (in_tuple _ _); by simplify_map_eq.
  - destruct (negb (bool_decide (d = ∅))); cbn [res_bind andb].
    + destruct (key_in "frame-ancestors" d); cbn zeta.
      * erewrite pass_if_in_Ok by apply lookup_insert_eq.
        split; [done|]. by simplify_map_eq.
      * rewrite (pass_if_in_Ok _ _ _ Hr).
        split; [done|]. destruct (in_tuple _ _); by simplify_map_eq.
    + rewrite (pass_if_in_Ok _ _ _ Hr). cbn zeta.
      split; [done|]. destruct (in_tuple _ _); by simplify_map_eq.
Qed.
End FrameOptionsCases.

(** ** X-XSS-Protection *)

Lemma kept_start_slice cap header call :
  0 <= cap ->
  field "data" call = Some (PyStr (Py.slice_to cap header)) ->
  kept_start cap header call.
Proof.
  intros Hcap Hdata. exists (Py.slice_to cap header).
  destruct (slice_to_capped cap header Hcap) as [Hlen Hpre].
  split_and!; try done.
  intros Hshort. apply substring_short. unfold Py.len in Hshort. lia.
Qed.

Section XssProtectionCases.
Variable is_hsts_preloaded : string -> bool.
Variable urlparse : string -> res ParseResult.

Lemma xxssp_finish_frame reqs output out k :
  xxssp_finish urlparse reqs output = Ok out ->
  k ≠ "pass" -> k ≠ "result" ->
  out !! k = output !! k.
Proof.
  unfold xxssp_finish. intros Hcall Hp Hr.
  destruct (getitem output "result") as [r|]; cbn [res_bind] in Hcall; [|done].
  destruct (py_in "enabled" r) as [en|]; cbn [res_bind] in Hcall; [|done].
  destruct (getitem _ "pass") as [p|]; cbn [res_bind] in Hcall; [|done].
  assert (Hbase : (if en then <["pass" := PyBool true]> output else output) !! k
                  = output !! k).
  { destruct en; [by rewrite lookup_insert_ne|done]. }
  destruct p as [| [] | | | |]; try (injection Hcall as <-; exact Hbase).
  destruct (content_security_policy _ _ _) as [csp|]; cbn [res_bind] in Hcall; [|done].
  destruct (getitem csp "pass") as [cp|]; cbn [res_bind] in Hcall; [|done].
  destruct (truthy cp); injection Hcall as <-; [|exact Hbase].
  by rewrite !lookup_insert_ne.
Qed.

(** Lines 421-431 on an [output] that does not pass yet: it passes
    with its result when that says enabled, and nothing is asked of the
    CSP analyzer; else the outcome is that of the CSP analyzer. *)
Lemma xxssp_finish_cases reqs output r :
  output !! "pass" = Some (PyBool false) ->
  output !! "result" = Some (PyStr r) ->
  xxssp_finish urlparse reqs output
  = if Py.contains "enabled" r
    then Ok (<["pass" := PyBool true]> output)
    else
      let* csp := content_security_policy urlparse reqs csp_default in
      let* csp_pass := getitem csp "pass" in
      Ok (if truthy csp_pass
          then <["result" := PyStr "x-xss-protection-not-needed-due-to-csp"]>
                 (<["pass" := PyBool true]> output)
          else output).
Proof.
  intros Hp Hr. unfold xxssp_finish.
  rewrite (getitem_Some _ _ _ Hr). cbn [res_bind py_in].
  destruct (Py.contains "enabled" r).
  - by rewrite (getitem_Some _ "pass" (PyBool true)) by apply lookup_insert_eq.
  - rewrite (getitem_Some _ _ _ Hp). cbn [res_bind].
    destruct (content_security_policy _ _ _) as [csp|e]; [|done].
    cbn [res_bind]. destruct (getitem csp "pass") as [cp|e]; [|done].
    cbn [res_bind]. apply if_Ok.
Qed.

(** The verdict on X-XSS-Protection from the header and, where the
    header does not say enabled, from the pass of the CSP verdict; the
    CSP analyzer is asked in no other case, and what it raises goes to
    the caller. *)
Lemma xxssp_cases reqs expectation :
  let call := x_xss_protection urlparse reqs expectation in
  let csp_pass :=
    let* csp := content_security_policy urlparse reqs csp_default in
    getitem csp "pass" in
  let deferred (data : pyval) (r : string) :=
    match csp_pass with
    | Ok p =>
        exists output,
          call = Ok output
          /\ output !! "data" = Some data
          /\ output !! "result"
             = Some (PyStr (if truthy p
                            then "x-xss-protection-not-needed-due-to-csp"
                            else r))
          /\ output !! "pass" = Some (PyBool (truthy p))
    | Raise e => call = Raise e
    end in
  match headers_get (responses_auto reqs) "X-XSS-Protection" with
  | Some (String c rest) =>
      let data := PyStr (Py.slice_to 256 (String c rest)) in
      match xxssp_parse (String c rest) with
      | Raise _ =>
          exists output,
            call = Ok output
            /\ output !! "data" = Some data
            /\ output !! "result"
               = Some (PyStr "x-xss-protection-header-invalid")
            /\ output !! "pass" = Some (PyBool false)
      | Ok (true, d) =>
          exists output,
            call = Ok output
            /\ output !! "data" = Some data
            /\ output !! "result"
               = Some (PyStr (if eq_str (get_or d "mode" PyNone) "block"
                              then "x-xss-protection-enabled-mode-block"
                              else "x-xss-protection-enabled"))
            /\ output !! "pass" = Some (PyBool true)
      | Ok (false, d) => deferred data "x-xss-protection-disabled"
      end
  | _ => deferred PyNone "x-xss-protection-not-implemented"
  end.
Proof.
  intros call csp_pass deferred.
  assert (Hdeferred : forall o data r,
            o !! "pass" = Some (PyBool false) ->
            o !! "data" = Some data ->
            Py.contains "enabled" r = false ->
            call = xxssp_finish urlparse reqs (<["result" := PyStr r]> o) ->
            deferred data r).
  { intros o data r Hp Hd Hr Hcall. unfold deferred.
    rewrite (xxssp_finish_cases reqs _ r) in Hcall
      by (by rewrite ?lookup_insert_eq, ?lookup_insert_ne).
    rewrite Hr in Hcall. fold csp_pass in Hcall.
    assert (Hbind : call = let* p := csp_pass in
                           Ok (if truthy p
                               then <["result" := PyStr "x-xss-protection-not-needed-due-to-csp"]>
                                      (<["pass" := PyBool true]> (<["result" := PyStr r]> o))
                               else <["result" := PyStr r]> o)).
    { rewrite Hcall. unfold csp_pass.
      by destruct (content_security_policy _ _ _). }
    destruct csp_pass as [p|e]; [|exact Hbind].
    cbn [res_bind] in Hbind. eexists. split; [exact Hbind|].
    destruct (truthy p); by simplify_map_eq. }
  assert (Henabled : forall o data r,
            o !! "pass" = Some (PyBool false) ->
            o !! "data" = Some data ->
            Py.contains "enabled" r = true ->
            call = xxssp_finish urlparse reqs (<["result" := PyStr r]> o) ->
            exists output,
              call = Ok output
              /\ output !! "data" = Some data
              /\ output !! "result" = Some (PyStr r)
              /\ output !! "pass" = Some (PyBool true)).
  { intros o data r Hp Hd Hr Hcall.
    rewrite (xxssp_finish_cases reqs _ r) in Hcall
      by (by rewrite ?lookup_insert_eq, ?lookup_insert_ne).
    rewrite Hr in Hcall. eexists. split; [exact Hcall|]. by simplify_map_eq. }
  destruct (headers_get _ _) as [[|c rest]|] eqn:Hhdr.
  1, 3: apply (Hdeferred (new_output expectation));
        [by simplify_map_eq|by simplify_map_eq|reflexivity|];
        unfold call, x_xss_protection; rewrite Hhdr; reflexivity.
  cbv zeta.
  destruct (xxssp_parse (String c rest)) as [[[] d]|e] eqn:Hparse.
  - destruct (eq_str (get_or d "mode" PyNone) "block") eqn:Hmode;
      (apply (Henabled (<["data" := PyStr (Py.slice_to 256 (String c rest))]>
                          (new_output expectation)));
       [by simplify_map_eq|by simplify_map_eq|reflexivity|]);
      unfold call, x_xss_protection; rewrite Hhdr, Hparse;
      cbn [andb negb]; rewrite Hmode; reflexivity.
  - apply (Hdeferred (<["data" := PyStr (Py.slice_to 256 (String c rest))]>
                        (new_output expectation)));
      [by simplify_map_eq|by simplify_map_eq|reflexivity|].
    unfold call, x_xss_protection. rewrite Hhdr, Hparse. reflexivity.
  - unfold call, x_xss_protection. rewrite Hhdr, Hparse.
    eexists. split; [done|]. by simplify_map_eq.
Qed.

(** The pass of the CSP verdict, as line 427 reads it, on a response
    whose URL [urlparse] reads. *)
Lemma xxssp_csp_pass reqs :
  url_parses urlparse (responses_auto reqs) ->
  exists b,
    (let* csp := content_security_policy urlparse reqs csp_default in
     getitem csp "pass") = Ok (PyBool b).
Proof.
  intros Hurl.
  destruct (csp_returns urlparse reqs csp_default Hurl)
    as (csp & -> & (_ & _ & [b Hb]) & _).
  exists b. cbn [res_bind]. by apply getitem_Some.
Qed.
End XssProtectionCases.

Section HeaderProperties.
Variable is_hsts_preloaded : string -> bool.
Variable urlparse : string -> res ParseResult.

(** X14. A policy with a frame-ancestors directive, small enough for
    its data to be kept (line 77), makes the result
    x-frame-options-implemented-via-csp and the verdict pass, whatever
    the X-Frame-Options header and whatever is expected (lines 353-356),
    on a response whose URL [urlparse] reads, so that the CSP analyzer
    returns. *)
Theorem xfo_frame_ancestors_overrides reqs expectation header csp :
  headers_get (responses_auto reqs) "Content-Security-Policy" = Some header ->
  csp_parse header = Ok csp ->
  url_parses urlparse (responses_auto reqs) ->
  is_Some (csp !! "frame-ancestors") ->
  len_str (PyDict (csp_replicate csp)) < 32768 ->
  exists output,
    x_frame_options urlparse reqs expectation = Ok output
    /\ output !! "result" = Some (PyStr "x-frame-options-implemented-via-csp")
    /\ output !! "pass" = Some (PyBool true).
Proof.
  intros Hhdr Hparse Hurl Hfa Hlen.
  destruct (xfo_cases urlparse reqs expectation Hurl)
    as (out & via & output & Hcsp & Hvia & Hcall & Hr & Hp & _).
  destruct Hurl as [parsed Hurl].
  destruct (csp_header_parsed urlparse reqs csp_default header csp parsed
              Hhdr Hparse Hurl)
    as (result & out' & Hcsp' & _ & _ & Hdata & _).
  rewrite Hcsp in Hcsp'. injection Hcsp' as <-.
  assert (Hv : via = true).
  { rewrite Hvia, Hdata. unfold capped.
    rewrite (proj2 (Z.ltb_lt _ _) Hlen).
    unfold key_in. rewrite csp_replicate_lookup.
    repeat (case_decide; [done|]).
    destruct Hfa as [v ->]. rewrite andb_true_r.
    apply negb_true_iff, bool_decide_eq_false. intros Hempty.
    pose proof (csp_replicate_lookup csp "default-src") as Hd.
    rewrite Hempty, lookup_empty in Hd. by repeat case_decide. }
  rewrite Hv in Hr, Hp. exists output. split; [done|]. split; [done|].
  rewrite Hp. by vm_compute.
Qed.

(** X15. An X-Frame-Options header that is [deny] or [sameorigin], in
    any case, always passes: the result is
    x-frame-options-sameorigin-or-deny, or
    x-frame-options-implemented-via-csp when the policy takes over.
    The CSP analyzer, asked on line 353, returns when [urlparse] reads
    the URL of the response. *)
Theorem xfo_deny_or_sameorigin_passes reqs expectation header :
  headers_get (responses_auto reqs) "X-Frame-Options" = Some header ->
  url_parses urlparse (responses_auto reqs) ->
  Py.lower header = "deny" \/ Py.lower header = "sameorigin" ->
  exists output r,
    x_frame_options urlparse reqs expectation = Ok output
    /\ output !! "pass" = Some (PyBool true)
    /\ output !! "result" = Some (PyStr r)
    /\ (r = "x-frame-options-sameorigin-or-deny"
        \/ r = "x-frame-options-implemented-via-csp").
Proof.
  intros Hhdr Hurl Hval.
  destruct (xfo_cases urlparse reqs expectation Hurl)
    as (out & via & output & _ & _ & Hcall & Hr & Hp & _).
  rewrite Hhdr in Hr, Hp.
  assert (Hin : in_tuple (PyStr (Py.lower (Py.slice_to 1024 header)))
                         ["deny"; "sameorigin"] = true).
  { cbn [in_tuple existsb eq_str]. unfold Py.slice_to.
    rewrite (lower_slice_eqb _ header "deny") by (simpl; lia).
    rewrite (lower_slice_eqb _ header "sameorigin") by (simpl; lia).
    destruct Hval as [-> | ->]; by vm_compute. }
  rewrite Hin in Hr, Hp.
  exists output. eexists. split; [done|]. split; [|split; [exact Hr|]].
  - rewrite Hp. by destruct via.
  - destruct via; auto.
Qed.

(** X16. An X-XSS-Protection header that starts with [1] always
    parses and passes, with x-xss-protection-enabled-mode-block or
    x-xss-protection-enabled for result; the CSP analyzer is not
    asked. *)
Theorem xxssp_enabled_passes reqs expectation rest :
  headers_get (responses_auto reqs) "X-XSS-Protection" = Some (String "1" rest) ->
  exists output r,
    x_xss_protection urlparse reqs expectation = Ok output
    /\ output !! "pass" = Some (PyBool true)
    /\ output !! "result" = Some (PyStr r)
    /\ (r = "x-xss-protection-enabled-mode-block"
        \/ r = "x-xss-protection-enabled").
Proof.
  intros Hhdr.
  pose proof (xxssp_cases urlparse reqs expectation) as Hcase.
  cbv zeta in Hcase. rewrite Hhdr in Hcase.
  destruct (xxssp_parse_Ok "1" rest) as [d Hd]; [by right|].
  rewrite Hd in Hcase. cbn [Ascii.eqb Bool.eqb] in Hcase.
  destruct Hcase as (output & Hcall & _ & Hr & Hp).
  exists output. eexists. split; [done|]. split; [done|]. split; [exact Hr|].
  destruct (eq_str _ _); auto.
Qed.

(** X17. [x_xss_protection] never reads its expectation: result, pass
    and data are the same under any two expectations, and there is a
    result when [urlparse] reads the URL of the response, so that the
    CSP analyzer returns where it is asked. *)
Theorem xxssp_ignores_expectation reqs expectation expectation' :
  let verdict := x_xss_protection urlparse reqs expectation in
  let verdict' := x_xss_protection urlparse reqs expectation' in
  (url_parses urlparse (responses_auto reqs) ->
   is_Some (field "result" verdict))
  /\ field "result" verdict = field "result" verdict'
  /\ field "pass" verdict = field "pass" verdict'
  /\ field "data" verdict = field "data" verdict'.
Proof.
  intros verdict verdict'. subst verdict verdict'.
  pose proof (xxssp_cases urlparse reqs expectation) as Hcase.
  pose proof (xxssp_cases urlparse reqs expectation') as Hcase'.
  cbv zeta in Hcase, Hcase'.
  assert (Hpass : url_parses urlparse (responses_auto reqs) ->
                  exists b,
                    (let* csp := content_security_policy urlparse reqs
                                   csp_default in
                     getitem csp "pass") = Ok (PyBool b))
    by apply xxssp_csp_pass.
  assert (Hsame : forall (data r p : pyval) call call',
            (exists o, call = Ok o /\ o !! "data" = Some data
                       /\ o !! "result" = Some r /\ o !! "pass" = Some p) ->
            (exists o, call' = Ok o /\ o !! "data" = Some data
                       /\ o !! "result" = Some r /\ o !! "pass" = Some p) ->
            (url_parses urlparse (responses_auto reqs) ->
             is_Some (field "result" call))
            /\ field "result" call = field "result" call'
            /\ field "pass" call = field "pass" call'
            /\ field "data" call = field "data" call').
  { intros data r p call call' (o & -> & Hd & Hr & Hp) (o' & -> & Hd' & Hr' & Hp').
    cbn [field]. rewrite Hd, Hr, Hp, Hd', Hr', Hp'. by eauto. }
  assert (Hraise : forall e call call',
            call = Raise e -> call' = Raise e ->
            (let* csp := content_security_policy urlparse reqs csp_default in
             getitem csp "pass") = Raise e ->
            (url_parses urlparse (responses_auto reqs) ->
             is_Some (field "result" call))
            /\ field "result" call = field "result" call'
            /\ field "pass" call = field "pass" call'
            /\ field "data" call = field "data" call').
  { intros e call call' -> -> He. split; [|done].
    intros Hurl. destruct (Hpass Hurl) as [b Hb]. congruence. }
  destruct (headers_get _ _) as [[|c rest]|].
  1, 3: destruct (let* csp := content_security_policy urlparse reqs csp_default in
                  getitem csp "pass") as [p|e] eqn:Hp;
        [by eapply Hsame|by eapply Hraise].
  destruct (xxssp_parse _) as [[[] d]|e].
  - by eapply Hsame.
  - destruct (let* csp := content_security_policy urlparse reqs csp_default in
              getitem csp "pass") as [p|e] eqn:Hp;
      [by eapply Hsame|by eapply Hraise].
  - by eapply Hsame.
Qed.

(** X12. The data of a verdict on a header that is present is the
    start of that header, whole when it is within the cap: 1024
    characters of Strict-Transport-Security and X-Frame-Options, 256 of
    X-Content-Type-Options and X-XSS-Protection.  Three of the four
    calls come to [urlparse], and return when it reads the URL of the
    response. *)
Theorem header_data_is_capped_start reqs expectation :
  (forall response header,
     responses_https reqs = Some response ->
     headers_get response "Strict-Transport-Security" = Some header ->
     url_parses urlparse response ->
     kept_start 1024 header
       (strict_transport_security is_hsts_preloaded urlparse reqs expectation))
  /\ (forall header,
        headers_get (responses_auto reqs) "X-Content-Type-Options" = Some header ->
        kept_start 256 header (x_content_type_options reqs expectation))
  /\ (forall header,
        headers_get (responses_auto reqs) "X-Frame-Options" = Some header ->
        url_parses urlparse (responses_auto reqs) ->
        kept_start 1024 header (x_frame_options urlparse reqs expectation))
  /\ (forall header,
        headers_get (responses_auto reqs) "X-XSS-Protection" = Some header ->
        header ≠ EmptyString ->
        url_parses urlparse (responses_auto reqs) ->
        kept_start 256 header (x_xss_protection urlparse reqs expectation)).
Proof.
  split_and!.
  - intros response header Hresp Hhdr [parsed Hurl].
    apply kept_start_slice; [lia|].
    destruct (hsts_header_present is_hsts_preloaded urlparse
                _ expectation _ _ _ Hresp Hhdr Hurl)
      as (output & -> & _ & _ & Hframe).
    cbn [field]. rewrite Hframe by not_in_keys.
    rewrite sts_loop_frame by (unfold sts_keys; not_in_keys).
    apply lookup_insert_eq.
  - intros header Hhdr. apply kept_start_slice; [lia|].
    unfold x_content_type_options. rewrite Hhdr.
    destruct (String.eqb _ "nosniff");
      (erewrite pass_if_in_Ok by apply lookup_insert_eq);
      cbn [field]; destruct (in_tuple _ _); by simplify_map_eq.
  - intros header Hhdr Hurl. apply kept_start_slice; [lia|].
    destruct (xfo_cases urlparse reqs expectation Hurl)
      as (out & via & output & _ & _ & -> & _ & _ & Hd).
    by rewrite Hhdr in Hd.
  - intros header Hhdr Hne Hurl. apply kept_start_slice; [lia|].
    pose proof (xxssp_cases urlparse reqs expectation) as Hcase.
    cbv zeta in Hcase. rewrite Hhdr in Hcase.
    destruct header as [|c rest]; [done|].
    destruct (xxssp_csp_pass urlparse reqs Hurl) as [b Hb].
    rewrite Hb in Hcase.
    destruct (xxssp_parse _) as [[[] d]|e];
      by destruct Hcase as (output & -> & Hd & _).
Qed.
End HeaderProperties.

(** ** Cookies: the loop over the jar *)

Lemma derive_httponly_with cookie :
  cookie_contract cookie -> derive_httponly cookie = Ok (with_httponly cookie).
Proof.
  intros Hc. unfold derive_httponly, with_httponly, httponly_flag.
  destruct (httponly cookie) as [b|] eqn:Hb; [done|].
  destruct Hc as [[? Hc]|[rest Hr]]; [by rewrite Hb in Hc|].
  by rewrite Hr.
Qed.

Lemma with_httponly_fields cookie :
  name (with_httponly cookie) = name cookie
  /\ secure (with_httponly cookie) = secure cookie
  /\ httponly (with_httponly cookie) = Some (httponly_flag cookie).
Proof.
  unfold with_httponly, httponly_flag.
  by destruct (httponly cookie) eqn:Hb; simpl; rewrite ?Hb.
Qed.

Lemma cookie_codes_goodness hsts cookie :
  Forall (fun r => r ∈ goodness) (cookie_codes hsts cookie).
Proof.
  unfold cookie_codes, goodness.
  repeat apply Forall_app_2; repeat case_match;
    repeat constructor.
Qed.

Lemma worsen_step code output v :
  output !! "result" = Some v ->
  worsen code output
  = Ok (<["result" := only_if_worse code v goodness]> output).
Proof. intros Hv. unfold worsen. by rewrite (getitem_Some _ _ _ Hv). Qed.

(** The three checks as merges of the codes of the cookie. *)
Lemma cookie_checks_codes hsts cookie output v :
  output !! "result" = Some v ->
  exists output',
    cookie_checks hsts (with_httponly cookie) output = Ok output'
    /\ output' !! "result"
       = Some (foldl (fun acc r => only_if_worse r acc goodness) v
                     (cookie_codes hsts cookie))
    /\ forall k, k ≠ "result" -> output' !! k = output !! k.
Proof.
  intros Hv. unfold cookie_checks, get_httponly, cookie_codes.
  destruct (with_httponly_fields cookie) as (-> & -> & ->).
  fold (session_name (name cookie)).
  destruct (session_name (name cookie)), (secure cookie), hsts,
    (httponly_flag cookie); cbn [negb andb app foldl res_bind];
    repeat (first [ erewrite worsen_step by first [exact Hv|apply lookup_insert_eq]
                  | progress cbn [res_bind] ]);
    eexists; (split; [done|]);
    (split; [first [exact Hv|apply lookup_insert_eq]
            |by intros k Hk; rewrite ?lookup_insert_ne]).
Qed.

Lemma cookies_loop_codes hsts cs output jar v :
  Forall cookie_contract cs ->
  output !! "result" = Some v ->
  exists output',
    cookies_loop hsts cs output jar
    = (with_httponly <$> cs,
       Ok (output',
           foldl (fun jar cookie => <[name cookie := jar_entry cookie]> jar)
                 jar (with_httponly <$> cs)))
    /\ output' !! "result"
       = Some (foldl (fun acc r => only_if_worse r acc goodness) v
                     (cs ≫= cookie_codes hsts))
    /\ forall k, k ≠ "result" -> output' !! k = output !! k.
Proof.
  intros Hcs. revert output jar v.
  induction Hcs as [|cookie cs Hc Hcs IH]; intros output jar v Hv.
  { exists output. by simpl. }
  cbn [cookies_loop]. rewrite (derive_httponly_with _ Hc).
  destruct (cookie_checks_codes hsts cookie output v Hv)
    as (o1 & -> & Hr1 & Hf1).
  destruct (IH o1 (<[name (with_httponly cookie) :=
                      jar_entry (with_httponly cookie)]> jar) _ Hr1)
    as (o2 & -> & Hr2 & Hf2).
  exists o2. split; [done|]. split.
  - rewrite Hr2. cbn [mbind list_bind]. by rewrite foldl_app.
  - intros k Hk. by rewrite Hf2, Hf1.
Qed.

(** What the merge leaves is None or a listed result, which is true. *)
Lemma merge_all_codes codes :
  Forall (fun r => r ∈ goodness) codes ->
  match codes with
  | [] => merge_all goodness codes = PyNone
  | _ => exists r, merge_all goodness codes = PyStr r /\ r ∈ codes
           /\ truthy (PyStr r) = true
  end.
Proof.
  intros Hcodes. pose proof (merge_all_worst goodness codes Hcodes) as Hw.
  destruct codes as [|c codes]; [done|].
  destruct Hw as (r & Hr & Hin & _). exists r. split; [done|]. split; [done|].
  rewrite Forall_forall in Hcodes. specialize (Hcodes r Hin).
  unfold goodness in Hcodes.
  repeat (apply elem_of_cons in Hcodes as [->|Hcodes]; [done|]).
  by apply elem_of_nil in Hcodes.
Qed.

Lemma foldl_insert_last (cs : list Cookie) (jar : gmap string pyval) n :
  foldl (fun jar cookie => <[name cookie := jar_entry cookie]> jar) jar cs !! n
  = match last (filter (fun cookie => name cookie = n) cs) with
    | Some cookie => Some (jar_entry cookie)
    | None => jar !! n
    end.
Proof.
  revert jar. induction cs as [|c cs IH]; intros jar; simpl; [done|].
  rewrite IH, filter_cons. case_decide as Hn.
  - rewrite last_cons. destruct (last (filter _ cs)); [done|].
    subst n. apply lookup_insert_eq.
  - destruct (last (filter _ cs)); [done|]. by apply lookup_insert_ne.
Qed.

Section CookiesCases.
Variable is_hsts_preloaded : string -> bool.
Variable urlparse : string -> res ParseResult.

(** The call of [cookies] on a jar that is not empty. *)
Lemma cookies_cases reqs expectation hsts :
  field "pass"
    (strict_transport_security is_hsts_preloaded urlparse reqs hsts_default)
  = Some (PyBool hsts) ->
  session_cookies reqs ≠ [] ->
  Forall cookie_contract (session_cookies reqs) ->
  let merged :=
    merge_all goodness (session_cookies reqs ≫= cookie_codes hsts) in
  let result :=
    if truthy merged then merged
    else PyStr "cookies-secure-with-httponly-sessions" in
  exists output,
    cookies is_hsts_preloaded urlparse reqs expectation
    = (with_cookies reqs (with_httponly <$> session_cookies reqs), Ok output)
    /\ output !! "result" = Some result
    /\ output !! "pass"
       = Some (PyBool (in_tuple result ["cookies-not-found"; expectation]))
    /\ output !! "data"
       = Some (capped (PyDict (jar_of (with_httponly <$> session_cookies reqs)))).
Proof.
  intros Hhsts Hne Hcs merged result. unfold cookies.
  destruct (strict_transport_security _ _ reqs hsts_default) as [sts|];
    cbn [field] in Hhsts; [|done].
  cbn [res_bind]. rewrite (getitem_Some _ _ _ Hhsts). cbn [truthy].
  destruct (cookies_loop_codes hsts (session_cookies reqs)
              (new_output expectation) ∅ PyNone Hcs)
    as (o1 & Hloop & Hr & Hframe); [by simplify_map_eq|].
  destruct (session_cookies reqs) as [|cookie cs] eqn:Hjar; [done|].
  rewrite Hloop. cbn [res_bind].
  fold (jar_of (with_httponly <$> cookie :: cs)).
  set (o := <["data" := _]> o1).
  assert (Ho : o !! "result" = Some merged).
  { unfold o. rewrite lookup_insert_ne by done. exact Hr. }
  rewrite (getitem_Some _ _ _ Ho).
  cbn [res_bind].
  set (o2 := if negb (truthy merged) then _ else _).
  assert (Ho2 : o2 !! "result" = Some result
                /\ o2 !! "pass" = Some (PyBool false)
                /\ o2 !! "data"
                   = Some (capped (PyDict (jar_of (with_httponly <$> cookie :: cs))))).
  { unfold o2, result.
    assert (Hp : o !! "pass" = Some (PyBool false)).
    { unfold o. rewrite lookup_insert_ne, Hframe by done.
      unfold new_output. by simplify_map_eq. }
    assert (Hd : o !! "data"
                 = Some (capped (PyDict (jar_of (with_httponly <$> cookie :: cs))))).
    { unfold o. apply lookup_insert_eq. }
    destruct (truthy merged); cbn [negb]; [done|].
    rewrite lookup_insert_eq, !lookup_insert_ne by done. done. }
  destruct Ho2 as (Hr2 & Hp2 & Hd2).
  rewrite (pass_if_in_Ok _ _ _ Hr2).
  eexists. split; [done|].
  destruct (in_tuple result _); by simplify_map_eq.
Qed.
End CookiesCases.

Lemma with_cookies_same reqs : with_cookies reqs (session_cookies reqs) = reqs.
Proof. by destruct reqs. Qed.

Lemma cookie_codes_all_flagged hsts cs :
  Forall (fun cookie =>
            secure cookie = true
            /\ (session_name (name cookie) = true -> httponly_flag cookie = true))
         cs ->
  cs ≫= cookie_codes hsts = [].
Proof.
  induction 1 as [|cookie cs [Hs Hh] _ IH]; [done|].
  cbn [mbind list_bind]. change (mbind (cookie_codes hsts) cs) with (cs ≫= cookie_codes hsts).
  rewrite IH. unfold cookie_codes. rewrite Hs.
  destruct (session_name (name cookie)); [by rewrite Hh|done].
Qed.

Lemma goodness_not_found r : r ∈ goodness -> String.eqb r "cookies-not-found" = false.
Proof.
  unfold goodness. intros Hr.
  repeat (apply elem_of_cons in Hr as [->|Hr]; [done|]).
  by apply elem_of_nil in Hr.
Qed.

Lemma cookie_codes_bind_goodness hsts cs :
  Forall (fun r => r ∈ goodness) (cs ≫= cookie_codes hsts).
Proof.
  induction cs as [|cookie cs IH]; [done|].
  cbn [mbind list_bind]. apply Forall_app_2; [apply cookie_codes_goodness|exact IH].
Qed.

Section CookiesResults.
Variable is_hsts_preloaded : string -> bool.
Variable urlparse : string -> res ParseResult.

Lemma hsts_ignores_cookies reqs cs expectation :
  strict_transport_security is_hsts_preloaded urlparse (with_cookies reqs cs)
    expectation
  = strict_transport_security is_hsts_preloaded urlparse reqs expectation.
Proof. reflexivity. Qed.

(** The result and pass of [cookies] in every case where the
    Strict-Transport-Security analyzer, asked on line 124, returns. *)
Lemma cookies_result_cases reqs expectation :
  https_url_parses urlparse reqs ->
  Forall cookie_contract (session_cookies reqs) ->
  exists hsts output,
    field "pass"
      (strict_transport_security is_hsts_preloaded urlparse reqs hsts_default)
    = Some (PyBool hsts)
    /\ cookies is_hsts_preloaded urlparse reqs expectation
       = (with_cookies reqs (with_httponly <$> session_cookies reqs), Ok output)
    /\ let merged :=
         merge_all goodness (session_cookies reqs ≫= cookie_codes hsts) in
       let result :=
         match session_cookies reqs with
         | [] => PyStr "cookies-not-found"
         | _ => if truthy merged then merged
                else PyStr "cookies-secure-with-httponly-sessions"
         end in
       output !! "result" = Some result
       /\ output !! "pass"
          = Some (PyBool (in_tuple result ["cookies-not-found"; expectation])).
Proof.
  intros Hurls Hcs.
  destruct (cookies_hsts is_hsts_preloaded urlparse reqs Hurls)
    as (sts & hsts & Hsts & Hp).
  exists hsts.
  assert (Hf : field "pass"
                 (strict_transport_security is_hsts_preloaded urlparse reqs
                    hsts_default) = Some (PyBool hsts))
    by (by rewrite Hsts).
  destruct (session_cookies reqs) as [|cookie cs] eqn:Hjar.
  - unfold cookies. rewrite Hsts. cbn [res_bind].
    rewrite (getitem_Some _ _ _ Hp), Hjar.
    rewrite (pass_if_in_Ok _ _ (PyStr "cookies-not-found"))
      by apply lookup_insert_eq.
    eexists. split; [done|]. split.
    { cbn [fmap list_fmap]. rewrite <- Hjar. by rewrite with_cookies_same. }
    cbn zeta.
    destruct (in_tuple _ _); unfold new_output; by simplify_map_eq.
  - destruct (cookies_cases is_hsts_preloaded urlparse reqs expectation hsts Hf)
      as (output & Hcall & Hr & Hpass & _).
    { by rewrite Hjar. }
    { by rewrite Hjar. }
    rewrite Hjar in Hcall, Hr, Hpass. eauto.
Qed.
End CookiesResults.

Section CookiesProperties.
Variable is_hsts_preloaded : string -> bool.
Variable urlparse : string -> res ParseResult.

(** X18. [cookies] writes to the session it is given: after the call
    every cookie has the [httponly] attribute, its own or whether
    [httponly] is a key of [_rest] in any case (lines 135-139); the
    responses are untouched.  The loop is reached when the
    Strict-Transport-Security analyzer of line 124 returns, which it
    does when [urlparse] reads the URL of the response over https. *)
Theorem cookies_leaves_httponly_on_the_jar reqs expectation :
  https_url_parses urlparse reqs ->
  Forall cookie_contract (session_cookies reqs) ->
  let after := (cookies is_hsts_preloaded urlparse reqs expectation).1 in
  session_cookies after = with_httponly <$> session_cookies reqs
  /\ responses_auto after = responses_auto reqs
  /\ responses_https after = responses_https reqs
  /\ Forall (fun cookie => httponly cookie = Some (httponly_flag cookie))
            (session_cookies after).
Proof.
  intros Hurls Hcs.
  destruct (cookies_result_cases is_hsts_preloaded urlparse reqs expectation
              Hurls Hcs)
    as (hsts & output & _ & -> & _).
  cbn [fst session_cookies responses_auto responses_https with_cookies].
  split; [done|]. split; [done|]. split; [done|].
  apply Forall_fmap, Forall_true. intros cookie.
  unfold with_httponly, compose.
  destruct (httponly cookie) as [b|] eqn:Hb;
    [unfold httponly_flag; by rewrite Hb|done].
Qed.

(** X19. On a jar that is not empty, whose cookies are all Secure and
    whose login and session cookies are all HttpOnly, the result is
    cookies-secure-with-httponly-sessions (lines 180-181), and the
    verdict passes exactly when that is the result expected; [urlparse]
    reads the URL of the response over https for line 124. *)
Theorem cookies_all_flagged_is_secure reqs expectation :
  https_url_parses urlparse reqs ->
  session_cookies reqs ≠ [] ->
  Forall cookie_contract (session_cookies reqs) ->
  Forall (fun cookie =>
            secure cookie = true
            /\ (session_name (name cookie) = true -> httponly_flag cookie = true))
         (session_cookies reqs) ->
  let call := (cookies is_hsts_preloaded urlparse reqs expectation).2 in
  field "result" call = Some (PyStr "cookies-secure-with-httponly-sessions")
  /\ field "pass" call
     = Some (PyBool (String.eqb "cookies-secure-with-httponly-sessions"
                       expectation)).
Proof.
  intros Hurls Hne Hcs Hall.
  destruct (cookies_result_cases is_hsts_preloaded urlparse reqs expectation
              Hurls Hcs)
    as (hsts & output & _ & -> & Hr & Hp).
  rewrite (cookie_codes_all_flagged hsts _ Hall) in Hr, Hp.
  destruct (session_cookies reqs); [done|].
  cbn [snd field]. split; [exact Hr|].
  rewrite Hp. cbn. by rewrite orb_false_r.
Qed.

(** X20. The jar a verdict carries has one entry per name: that of
    the last cookie of the session with the name (line 142), with the
    [httponly] attribute as lines 135-139 left it; [urlparse] reads the
    URL of the response over https for line 124. *)
Theorem cookies_data_last_write_wins reqs expectation :
  https_url_parses urlparse reqs ->
  session_cookies reqs ≠ [] ->
  Forall cookie_contract (session_cookies reqs) ->
  exists jar,
    field "data" (cookies is_hsts_preloaded urlparse reqs expectation).2
    = Some (capped (PyDict jar))
    /\ forall n,
         jar !! n
         = jar_entry
             <$> last (filter (fun cookie => name cookie = n)
                              (with_httponly <$> session_cookies reqs)).
Proof.
  intros Hurls Hne Hcs.
  destruct (cookies_hsts is_hsts_preloaded urlparse reqs Hurls)
    as (sts & hsts & Hsts & Hp).
  destruct (cookies_cases is_hsts_preloaded urlparse reqs expectation hsts)
    as (output & Hcall & _ & _ & Hd); [by rewrite Hsts|done|done|].
  rewrite Hcall. exists (jar_of (with_httponly <$> session_cookies reqs)).
  split; [exact Hd|].
  intros n. unfold jar_of. rewrite foldl_insert_last.
  by destruct (last _).
Qed.

(** X21. When some check of lines 150-174 fires, the result is one of
    the codes that fired, and none that fired is worse in [goodness];
    the verdict passes exactly when that code is the one expected.
    [hsts] is the pass of the Strict-Transport-Security analyzer (line
    124); the merge is [only_if_worse] as the spec describes it. *)
Theorem cookies_result_is_worst_code reqs expectation hsts :
  field "pass"
    (strict_transport_security is_hsts_preloaded urlparse reqs hsts_default)
  = Some (PyBool hsts) ->
  Forall cookie_contract (session_cookies reqs) ->
  session_cookies reqs ≫= cookie_codes hsts ≠ [] ->
  let call := (cookies is_hsts_preloaded urlparse reqs expectation).2 in
  exists r,
    field "result" call = Some (PyStr r)
    /\ field "pass" call = Some (PyBool (String.eqb r expectation))
    /\ r ∈ session_cookies reqs ≫= cookie_codes hsts
    /\ forall x, x ∈ session_cookies reqs ≫= cookie_codes hsts ->
         (severity goodness x <= severity goodness r)%nat.
Proof.
  intros Hhsts Hcs Hcodes.
  assert (Hne : session_cookies reqs ≠ []) by (by intros Heq; rewrite Heq in Hcodes).
  destruct (cookies_cases is_hsts_preloaded urlparse reqs expectation hsts
              Hhsts Hne Hcs) as (output & Hcall & Hr & Hp & _).
  rewrite Hcall. cbn [snd field].
  pose proof (cookie_codes_bind_goodness hsts (session_cookies reqs)) as Hgood.
  pose proof (merge_all_worst goodness _ Hgood) as Hw.
  pose proof (merge_all_codes _ Hgood) as Hm.
  destruct (session_cookies reqs ≫= cookie_codes hsts) as [|c codes] eqn:Hc;
    [done|].
  destruct Hw as (r & Hmr & Hin & Hmax).
  destruct Hm as (r' & Hmr' & _ & Ht).
  rewrite Hmr in Hmr'. injection Hmr' as <-.
  rewrite Hmr, Ht in Hr, Hp.
  exists r. split_and!; try done.
  rewrite Hp. cbn.
  rewrite goodness_not_found, orb_false_r; [done|].
  rewrite Forall_forall in Hgood. by apply Hgood.
Qed.

(** X22. The result and the pass of [cookies] do not depend on the
    order of the cookies in the session, [only_if_worse] being as the
    spec describes it; [urlparse] reads the URL of the response over
    https for line 124. *)
Theorem cookies_result_ignores_order reqs cs expectation :
  https_url_parses urlparse reqs ->
  Forall cookie_contract (session_cookies reqs) ->
  session_cookies reqs ≡ₚ cs ->
  let call := (cookies is_hsts_preloaded urlparse reqs expectation).2 in
  let call' :=
    (cookies is_hsts_preloaded urlparse (with_cookies reqs cs) expectation).2 in
  is_Some (field "result" call)
  /\ field "result" call' = field "result" call
  /\ field "pass" call' = field "pass" call.
Proof.
  intros Hurls Hcs Hperm.
  assert (Hcs' : Forall cookie_contract (session_cookies (with_cookies reqs cs)))
    by (cbn; by rewrite <- Hperm).
  destruct (cookies_result_cases is_hsts_preloaded urlparse reqs expectation
              Hurls Hcs)
    as (hsts & output & Hhsts & -> & Hr & Hp).
  destruct (cookies_result_cases is_hsts_preloaded urlparse
              (with_cookies reqs cs) expectation Hurls Hcs')
    as (hsts' & output' & Hhsts' & -> & Hr' & Hp').
  rewrite hsts_ignores_cookies, Hhsts in Hhsts'. injection Hhsts' as <-.
  cbn [snd field session_cookies with_cookies] in *.
  assert (Hm : merge_all goodness (cs ≫= cookie_codes hsts)
               = merge_all goodness (session_cookies reqs ≫= cookie_codes hsts)).
  { apply merge_all_permutation; [apply cookie_codes_bind_goodness|].
    by apply bind_Permutation. }
  rewrite Hm in Hr', Hp'.
  assert (He : forall A (x y : A),
             match cs with [] => x | _ => y end
             = match session_cookies reqs with [] => x | _ => y end).
  { intros A x y. destruct (session_cookies reqs) as [|c l].
    - destruct cs; [done|]. by apply Permutation_nil_cons in Hperm.
    - destruct cs; [|done]. symmetry in Hperm.
      by apply Permutation_nil_cons in Hperm. }
  rewrite He in Hr', Hp'.
  split; [by rewrite Hr|]. split; congruence.
Qed.
End CookiesProperties.

(** ** The further properties on example bundles *)

Ltac by_decision := apply (bool_decide_unpack _); by_computation.

(** X1 on a site that sends no header at all. *)
Lemma csp_absent_on_plain_site :
  exists output,
    content_security_policy urlparse_basic (plain_site []) csp_default = Ok output
    /\ output !! "result" = Some (PyStr "csp-not-implemented")
    /\ output !! "data" = Some PyNone
    /\ output !! "pass" = Some (PyBool false).
Proof.
  apply (csp_header_absent urlparse_basic (plain_site []) csp_default).
  by_computation.
Defined.

(** X2 on a header that ends in a semicolon and a space. *)
Lemma csp_trailing_blank_is_invalid :
  field "result"
    (content_security_policy urlparse_basic
       (csp_site "http://example.com/" "default-src 'self'; ") csp_default)
  = Some (PyStr "csp-header-invalid")
  <-> exists d, d ∈ Py.split ";" "default-src 'self'; " /\ blank_segment d.
Proof.
  apply (csp_header_invalid_iff_blank_segment urlparse_basic
           (csp_site "http://example.com/" "default-src 'self'; ") csp_default
           "default-src 'self'; ").
  by_computation.
Defined.

(** X3 on the same header, expected to be invalid. *)
Lemma csp_trailing_blank_never_passes :
  exists output,
    content_security_policy urlparse_basic
      (csp_site "http://example.com/" "default-src 'self'; ")
      "csp-header-invalid" = Ok output
    /\ output !! "result" = Some (PyStr "csp-header-invalid")
    /\ output !! "data" = Some PyNone
    /\ output !! "pass" = Some (PyBool false).
Proof.
  apply (csp_header_invalid_never_passes urlparse_basic
           (csp_site "http://example.com/" "default-src 'self'; ")
           "csp-header-invalid" "default-src 'self'; " " ").
  - by_computation.
  - by_decision.
  - split; [discriminate|by_computation].
Defined.

(** X4 on a policy whose default-src alone allows inline code. *)
Lemma csp_unsafe_inline_by_default_src :
  exists output,
    content_security_policy urlparse_basic
      (csp_site "http://example.com/" "default-src 'unsafe-inline'") csp_default
    = Ok output
    /\ output !! "result" = Some (PyStr "csp-implemented-with-unsafe-inline").
Proof.
  apply (csp_unsafe_inline_in_script_src urlparse_basic
           (csp_site "http://example.com/" "default-src 'unsafe-inline'")
           csp_default "default-src 'unsafe-inline'"
           (<["default-src" := PyList ["'unsafe-inline'"]]> ∅)
           ["'unsafe-inline'"]).
  - by_computation.
  - by_computation.
  - by_computation.
  - by_decision.
Defined.

(** X5 on a policy that restricts images alone. *)
Lemma csp_img_src_only_is_unsafe_inline :
  exists output,
    content_security_policy urlparse_basic
      (csp_site "http://example.com/" "img-src 'self'") csp_default
    = Ok output
    /\ output !! "result" = Some (PyStr "csp-implemented-with-unsafe-inline").
Proof.
  apply (csp_without_script_restriction urlparse_basic
           (csp_site "http://example.com/" "img-src 'self'")
           csp_default "img-src 'self'"
           (<["img-src" := PyList ["'self'"]]> ∅)).
  - by_computation.
  - by_computation.
  - left. by_computation.
  - left. by_computation.
Defined.

(** X6 on the policy [default-src 'self']. *)
Lemma csp_default_src_self_is_sound :
  let csp : gmap string pyval := <["default-src" := PyList ["'self'"]]> ∅ in
  (forall l, resolved csp "script-src" = PyList l -> "'unsafe-inline'" ∉ l)
  /\ (forall l, resolved csp "style-src" = PyList l -> "'unsafe-inline'" ∉ l)
  /\ (truthy (resolved csp "default-src") = true
      \/ truthy (resolved csp "script-src") = true).
Proof.
  apply (csp_no_unsafe_is_sound urlparse_basic
           (csp_site "http://example.com/" "default-src 'self'")
           csp_default "default-src 'self'"
           (<["default-src" := PyList ["'self'"]]> ∅)
           (verdict_of
              (content_security_policy urlparse_basic
                 (csp_site "http://example.com/" "default-src 'self'")
                 csp_default))).
  - by_computation.
  - by_computation.
  - by_computation.
  - by_computation.
Defined.

(** X7 on a header that names its directive in upper case. *)
Lemma csp_data_key_of_upper_case_directive :
  Py.lower "img-src" = "img-src".
Proof.
  apply (csp_data_keys_are_lower_case urlparse_basic
           (csp_site "http://example.com/" "IMG-SRC 'self'")
           csp_default "IMG-SRC 'self'"
           (<["img-src" := PyList ["'self'"]]> ∅)
           (verdict_of
              (content_security_policy urlparse_basic
                 (csp_site "http://example.com/" "IMG-SRC 'self'")
                 csp_default))
           (csp_replicate (<["img-src" := PyList ["'self'"]]> ∅))
           "img-src").
  - by_computation.
  - by_computation.
  - by_computation.
  - by_computation.
  - by_decision.
Defined.

(** X8 on a site without https. *)
Lemma hsts_on_plain_site :
  exists output,
    strict_transport_security nothing_preloaded urlparse_basic (plain_site [])
      hsts_default = Ok output
    /\ output !! "result" = Some (PyStr "hsts-not-implemented-no-https")
    /\ output !! "preloaded" = Some (PyBool false)
    /\ output !! "pass" = Some (PyBool false).
Proof.
  apply (hsts_without_https nothing_preloaded urlparse_basic (plain_site [])
           hsts_default).
  by_computation.
Defined.

(** X9 on a preloaded host that sends [max-age=0]. *)
Lemma hsts_preloaded_host_passes :
  exists output,
    strict_transport_security example_preloaded urlparse_basic
      (hsts_site "max-age=0") hsts_default = Ok output
    /\ output !! "result" = Some (PyStr "hsts-preloaded")
    /\ output !! "preloaded" = Some (PyBool true)
    /\ output !! "pass" = Some (PyBool true).
Proof.
  apply (hsts_preloaded_overrides example_preloaded urlparse_basic
           (hsts_site "max-age=0") hsts_default
           (response "https://example.com/"
              [("strict-transport-security", "max-age=0")])
           https_example).
  - by_computation.
  - by_computation.
  - by_computation.
Defined.

(** X11 on a header with both tokens. *)
Lemma hsts_flags_of_full_header :
  let header := "max-age=31536000; includeSubDomains; preload" in
  exists output,
    strict_transport_security nothing_preloaded urlparse_basic
      (hsts_site header) hsts_default = Ok output
    /\ ("includesubdomains" ∈ sts_tokens (Py.slice_to 1024 header) ->
        output !! "includeSubDomains" = Some (PyBool true))
    /\ ("preload" ∈ sts_tokens (Py.slice_to 1024 header) ->
        output !! "preload" = Some (PyBool true)).
Proof.
  apply (hsts_flag_with_token_is_true nothing_preloaded urlparse_basic
           (hsts_site "max-age=31536000; includeSubDomains; preload")
           hsts_default
           (response "https://example.com/"
              [("strict-transport-security",
                "max-age=31536000; includeSubDomains; preload")])
           "max-age=31536000; includeSubDomains; preload" https_example).
  - by_computation.
  - by_computation.
  - by_computation.
  - change (Forall max_age_reads ["max-age=31536000"; "includesubdomains"; "preload"]).
    repeat constructor.
    + intros _. exists 31536000. by_computation.
    + intros H. vm_compute in H. discriminate H.
    + intros H. vm_compute in H. discriminate H.
Defined.

(** X12 on a Strict-Transport-Security header short of the cap. *)
Lemma hsts_data_of_short_header :
  kept_start 1024 "max-age=31536000"
    (strict_transport_security nothing_preloaded urlparse_basic
       (hsts_site "max-age=31536000") hsts_default).
Proof.
  apply (proj1 (header_data_is_capped_start nothing_preloaded urlparse_basic
                  (hsts_site "max-age=31536000") hsts_default)
           (response "https://example.com/"
              [("strict-transport-security", "max-age=31536000")])).
  - by_computation.
  - by_computation.
  - exists https_example. by_computation.
Defined.

(** X13 on a header in mixed case. *)
Lemma xcto_mixed_case_nosniff :
  exists output result,
    x_content_type_options
      (plain_site [("x-content-type-options", "NoSniff")]) xcto_default
    = Ok output
    /\ result = (if String.eqb (Py.lower "NoSniff") "nosniff"
                 then "x-content-type-options-nosniff"
                 else "x-content-type-options-header-invalid")
    /\ output !! "result" = Some (PyStr result)
    /\ output !! "pass" = Some (PyBool (String.eqb result xcto_default)).
Proof.
  apply (xcto_nosniff_up_to_case
           (plain_site [("x-content-type-options", "NoSniff")]) xcto_default
           "NoSniff").
  by_computation.
Defined.

(** X14 on a site that sends frame-ancestors and an X-Frame-Options
    header that allows everything. *)
Lemma xfo_frame_ancestors_beats_header :
  exists output,
    x_frame_options urlparse_basic
      (plain_site [("content-security-policy", "frame-ancestors 'none'");
                   ("x-frame-options", "ALLOWALL")])
      xfo_default = Ok output
    /\ output !! "result" = Some (PyStr "x-frame-options-implemented-via-csp")
    /\ output !! "pass" = Some (PyBool true).
Proof.
  apply (xfo_frame_ancestors_overrides urlparse_basic
           (plain_site [("content-security-policy", "frame-ancestors 'none'");
                        ("x-frame-options", "ALLOWALL")])
           xfo_default "frame-ancestors 'none'"
           (<["frame-ancestors" := PyList ["'none'"]]> ∅)).
  - by_computation.
  - by_computation.
  - exists http_example. by_computation.
  - by_decision.
  - by_computation.
Defined.

(** X15 on the header DENY. *)
Lemma xfo_deny_passes :
  exists output r,
    x_frame_options urlparse_basic (plain_site [("x-frame-options", "DENY")])
      xfo_default = Ok output
    /\ output !! "pass" = Some (PyBool true)
    /\ output !! "result" = Some (PyStr r)
    /\ (r = "x-frame-options-sameorigin-or-deny"
        \/ r = "x-frame-options-implemented-via-csp").
Proof.
  apply (xfo_deny_or_sameorigin_passes urlparse_basic
           (plain_site [("x-frame-options", "DENY")]) xfo_default "DENY").
  - by_computation.
  - exists http_example. by_computation.
  - left. by_computation.
Defined.

(** X16 on the header [1; mode=block]. *)
Lemma xxssp_mode_block_passes :
  exists output r,
    x_xss_protection urlparse_basic
      (plain_site [("x-xss-protection", "1; mode=block")]) xxssp_default
    = Ok output
    /\ output !! "pass" = Some (PyBool true)
    /\ output !! "result" = Some (PyStr r)
    /\ (r = "x-xss-protection-enabled-mode-block"
        \/ r = "x-xss-protection-enabled").
Proof.
  apply (xxssp_enabled_passes urlparse_basic
           (plain_site [("x-xss-protection", "1; mode=block")]) xxssp_default
           "; mode=block").
  by_computation.
Defined.

(** X17 on a header that disables the filter, under two expectations. *)
Lemma xxssp_disabled_under_two_expectations :
  let verdict :=
    x_xss_protection urlparse_basic (xxssp_site "0") xxssp_default in
  let verdict' :=
    x_xss_protection urlparse_basic (xxssp_site "0")
      "x-xss-protection-disabled" in
  is_Some (field "result" verdict)
  /\ field "result" verdict = field "result" verdict'
  /\ field "pass" verdict = field "pass" verdict'
  /\ field "data" verdict = field "data" verdict'.
Proof.
  destruct (xxssp_ignores_expectation urlparse_basic (xxssp_site "0")
              xxssp_default "x-xss-protection-disabled")
    as [Hsome Hsame].
  split; [|exact Hsame].
  apply Hsome. exists https_example. by_computation.
Defined.

Lemma cookie_site_contract : Forall cookie_contract (session_cookies cookie_site).
Proof.
  unfold cookie_site, session_cookies.
  constructor; [right; by eexists|].
  constructor; [right; by eexists|].
  constructor.
Defined.

(** [urlparse] reads the URL of the response over https of [jar_site]. *)
Lemma jar_site_urls cs : https_url_parses urlparse_basic (jar_site cs).
Proof.
  intros response [= <-]. exists https_example. by_computation.
Defined.

(** X18 on the two cookies of [cookie_site], on a site with https. *)
Lemma cookies_leave_httponly_on_cookie_site :
  let site := jar_site (session_cookies cookie_site) in
  let after :=
    (cookies nothing_preloaded urlparse_basic site cookies_default).1 in
  session_cookies after = with_httponly <$> session_cookies site
  /\ responses_auto after = responses_auto site
  /\ responses_https after = responses_https site
  /\ Forall (fun cookie => httponly cookie = Some (httponly_flag cookie))
            (session_cookies after).
Proof.
  apply (cookies_leaves_httponly_on_the_jar nothing_preloaded urlparse_basic
           (jar_site (session_cookies cookie_site)) cookies_default).
  - apply jar_site_urls.
  - exact cookie_site_contract.
Defined.

(** X19 on a jar whose cookies are all Secure, the session cookie
    HttpOnly. *)
Lemma cookies_flagged_jar_is_secure :
  let call :=
    (cookies nothing_preloaded urlparse_basic
       (jar_site [raw_cookie "sessionid" true ["HttpOnly"];
                  raw_cookie "theme" true []])
       cookies_default).2 in
  field "result" call = Some (PyStr "cookies-secure-with-httponly-sessions")
  /\ field "pass" call = Some (PyBool true).
Proof.
  apply (cookies_all_flagged_is_secure nothing_preloaded urlparse_basic
           (jar_site [raw_cookie "sessionid" true ["HttpOnly"];
                      raw_cookie "theme" true []])
           cookies_default).
  - apply jar_site_urls.
  - discriminate.
  - unfold jar_site, session_cookies.
    constructor; [right; by eexists|].
    constructor; [right; by eexists|].
    constructor.
  - unfold jar_site, session_cookies.
    constructor; [split; [reflexivity|intros _; by_computation]|].
    constructor; [split; [reflexivity|intros H; vm_compute in H; discriminate H]|].
    constructor.
Defined.

(** X20 on a jar that holds the same name twice. *)
Lemma cookies_data_of_repeated_name :
  let cs := [raw_cookie "theme" false []; raw_cookie "theme" true []] in
  exists jar,
    field "data"
      (cookies nothing_preloaded urlparse_basic (jar_site cs) cookies_default).2
    = Some (capped (PyDict jar))
    /\ forall n,
         jar !! n
         = jar_entry
             <$> last (filter (fun cookie => name cookie = n)
                              (with_httponly <$> cs)).
Proof.
  apply (cookies_data_last_write_wins nothing_preloaded urlparse_basic
           (jar_site [raw_cookie "theme" false []; raw_cookie "theme" true []])
           cookies_default).
  - apply jar_site_urls.
  - discriminate.
  - unfold jar_site, session_cookies.
    constructor; [right; by eexists|].
    constructor; [right; by eexists|].
    constructor.
Defined.

(** X21 on the two cookies of [cookie_site]. *)
Lemma cookies_worst_code_on_cookie_site :
  let call :=
    (cookies nothing_preloaded urlparse_basic cookie_site cookies_default).2 in
  exists r,
    field "result" call = Some (PyStr r)
    /\ field "pass" call = Some (PyBool (String.eqb r cookies_default))
    /\ r ∈ session_cookies cookie_site ≫= cookie_codes false
    /\ forall x, x ∈ session_cookies cookie_site ≫= cookie_codes false ->
         (severity goodness x <= severity goodness r)%nat.
Proof.
  apply (cookies_result_is_worst_code nothing_preloaded urlparse_basic
           cookie_site cookies_default false).
  - by_computation.
  - exact cookie_site_contract.
  - vm_compute. discriminate.
Defined.

(** X22 on the two cookies of [cookie_site], swapped, on a site with
    https. *)
Lemma cookies_result_of_swapped_jar :
  let site := jar_site (session_cookies cookie_site) in
  let cs := [raw_cookie "theme" true []; raw_cookie "sessionid" false ["HttpOnly"]] in
  let call :=
    (cookies nothing_preloaded urlparse_basic site cookies_default).2 in
  let call' :=
    (cookies nothing_preloaded urlparse_basic (with_cookies site cs)
       cookies_default).2 in
  is_Some (field "result" call)
  /\ field "result" call' = field "result" call
  /\ field "pass" call' = field "pass" call.
Proof.
  apply (cookies_result_ignores_order nothing_preloaded urlparse_basic
           (jar_site (session_cookies cookie_site))
           [raw_cookie "theme" true []; raw_cookie "sessionid" false ["HttpOnly"]]
           cookies_default).
  - apply jar_site_urls.
  - exact cookie_site_contract.
  - apply perm_swap.
Defined.
